(** * Blog export converters: the Markdown pipeline of [blogger_converter.py]
      and the image-path rewriter of
      [tumblr_export_html_to_markdown_converter.py].

    Python [str] values are sequences of Unicode code points; they are
    modelled as lists of [N].  The regular expressions of the scripts are
    run by a backtracking matcher with the priorities of Python's [re]
    (greedy and lazy repetition, optional groups, capture groups), and
    [re.sub] / [re.findall] scan the subject from left to right for
    non-overlapping matches. *)

From Stdlib Require Import NArith Ascii String Decimal DecimalNat.
From stdpp Require Import base option list gmap.

Local Open Scope N_scope.
Local Open Scope list_scope.

(** ** Text *)

Abbreviation str := (list N).

(** The code point of an ASCII character and of an ASCII literal. *)
Definition ch (a : ascii) : N := N_of_ascii a.
Definition u (s : string) : str := map N_of_ascii (list_ascii_of_string s).
#[global] Arguments ch : simpl never.
#[global] Arguments u : simpl never.

(** [U+0022], the double quote. *)
Definition dq : N := 34.
(** [U+000A], the line feed written ['\n'] in the scripts. *)
Definition nl : N := 10.

(** [str.isspace] on one code point, which is also what [\s] matches in a
    [str] pattern and what [str.strip()] removes: the complete list of the
    Unicode database. *)
Definition isspace (c : N) : bool :=
  ((9 <=? c) && (c <=? 13)) || ((28 <=? c) && (c <=? 32))
  || (c =? 133) || (c =? 160) || (c =? 5760)
  || ((8192 <=? c) && (c <=? 8202))
  || (c =? 8232) || (c =? 8233) || (c =? 8239) || (c =? 8287) || (c =? 12288).

Definition is_ascii (c : N) : bool := c <? 128.

Definition ascii_upper (c : N) : bool := (65 <=? c) && (c <=? 90).
Definition ascii_lower (c : N) : bool := (97 <=? c) && (c <=? 122).
Definition ascii_digit (c : N) : bool := (48 <=? c) && (c <=? 57).

(** The class [[A-Za-z0-9_]]. *)
Definition ascii_word (c : N) : bool :=
  ascii_upper c || ascii_lower c || ascii_digit c || (c =? 95).

Definition ascii_tolower (c : N) : N := if ascii_upper c then c + 32 else c.

(** [s.startswith(p)] and the test [p in s]. *)
Fixpoint startswith (p s : str) : bool :=
  match p, s with
  | [], _ => true
  | a :: p', b :: s' => (a =? b) && startswith p' s'
  | _ :: _, [] => false
  end.

Fixpoint contains (p s : str) : bool :=
  startswith p s || match s with [] => false | _ :: t => contains p t end.

Definition endswith (p s : str) : bool := startswith (reverse p) (reverse s).

(** [sep.join(parts)]. *)
Fixpoint join (sep : str) (parts : list str) : str :=
  match parts with
  | [] => []
  | [x] => x
  | x :: rest => x ++ sep ++ join sep rest
  end.

(** [s.lstrip(chars)], [s.rstrip(chars)] and [s.strip(chars)], with the set
    of characters given as a predicate. *)
Fixpoint lstrip_by (p : N -> bool) (s : str) : str :=
  match s with
  | c :: t => if p c then lstrip_by p t else s
  | [] => []
  end.

Definition rstrip_by (p : N -> bool) (s : str) : str :=
  reverse (lstrip_by p (reverse s)).

Definition strip_by (p : N -> bool) (s : str) : str :=
  rstrip_by p (lstrip_by p s).

(** [s.strip()]: whitespace at both ends. *)
Definition strip (s : str) : str := strip_by isspace s.

(** [s.replace(old, new)] for a non-empty [old]: occurrences are found from
    left to right and do not overlap.  [skip] counts the characters of the
    occurrence being replaced that are still to be passed over. *)
Fixpoint replace_go (old new : str) (skip : nat) (s : str) : str :=
  match s with
  | [] => []
  | c :: t =>
      match skip with
      | S k => replace_go old new k t
      | O => if startswith old s
             then new ++ replace_go old new (Nat.pred (length old)) t
             else c :: replace_go old new 0 t
      end
  end.

Definition replace (old new s : str) : str := replace_go old new 0 s.

(** [str(n)] for a natural number, as an f-string prints it. *)
Fixpoint digits_of_uint (d : Decimal.uint) : str :=
  match d with
  | Nil => []
  | D0 d => 48 :: digits_of_uint d
  | D1 d => 49 :: digits_of_uint d
  | D2 d => 50 :: digits_of_uint d
  | D3 d => 51 :: digits_of_uint d
  | D4 d => 52 :: digits_of_uint d
  | D5 d => 53 :: digits_of_uint d
  | D6 d => 54 :: digits_of_uint d
  | D7 d => 55 :: digits_of_uint d
  | D8 d => 56 :: digits_of_uint d
  | D9 d => 57 :: digits_of_uint d
  end.

Definition str_of_nat (n : nat) : str := digits_of_uint (Nat.to_uint n).

(** ** Regular expressions *)

(** The patterns of the two scripts are concatenations of literals,
    character classes, repetitions of one class (greedy [c*], [c+] and the
    lazy [.*?]), capture groups and one optional non-capturing group. *)
Inductive re : Type :=
  | Lit (l : str)
  | Cls (p : N -> bool)
  | Rep (greedy : bool) (lo : nat) (p : N -> bool)
  | Cat (r1 r2 : re)
  | Grp (i : nat) (r : re)
  | Opt (r : re).

(** The groups of a match object: entry [i] is [m.group(i+1)], [None] for a
    group that took no part in the match. *)
Abbreviation caps := (list (option str)).

Section Matcher.
Context {A : Type}.

(** [p{lo,}], longest first. *)
Fixpoint rep_greedy (p : N -> bool) (lo : nat) (s : str)
    (k : str -> option A) : option A :=
  let stop := match lo with O => k s | S _ => None end in
  match s with
  | c :: t =>
      if p c then
        match rep_greedy p (Nat.pred lo) t k with
        | Some a => Some a
        | None => stop
        end
      else stop
  | [] => stop
  end.

(** [p{lo,}?], shortest first. *)
Fixpoint rep_lazy (p : N -> bool) (lo : nat) (s : str)
    (k : str -> option A) : option A :=
  let more :=
    match s with
    | c :: t => if p c then rep_lazy p (Nat.pred lo) t k else None
    | [] => None
    end in
  match lo with
  | O => match k s with Some a => Some a | None => more end
  | S _ => more
  end.

(** The backtracking matcher: [k] is what remains to be matched after
    [r], and the first success in priority order is the answer. *)
Fixpoint rmatch (r : re) (s : str) (g : caps)
    (k : str -> caps -> option A) : option A :=
  match r with
  | Lit l => if startswith l s then k (drop (length l) s) g else None
  | Cls p => match s with
             | c :: t => if p c then k t g else None
             | [] => None
             end
  | Rep true lo p => rep_greedy p lo s (fun s' => k s' g)
  | Rep false lo p => rep_lazy p lo s (fun s' => k s' g)
  | Cat r1 r2 => rmatch r1 s g (fun s' g' => rmatch r2 s' g' k)
  | Grp i r =>
      rmatch r s g
        (fun s' g' => k s' (<[i := Some (take (length s - length s') s)]> g'))
  | Opt r => match rmatch r s g k with
             | Some a => Some a
             | None => k s g
             end
  end.
End Matcher.

(** [pattern.match(s)] at the start of [s] for a pattern with [ng] groups:
    the number of characters matched and the groups. *)
Definition match_here (r : re) (ng : nat) (s : str) : option (nat * caps) :=
  rmatch r s (replicate ng None)
    (fun s' g => Some ((length s - length s')%nat, g)).

(** What a left-to-right scan for non-overlapping matches sees: a character
    outside every match, or a match. *)
Inductive piece : Type :=
  | Keep (c : N)
  | Hit (g : caps).

(** The scan shared by [re.sub] and [re.findall].  [skip] counts the
    characters of the current match still to be passed over.  After a match
    of the empty string the scan copies one character and goes on; no
    pattern of the scripts matches the empty string. *)
Fixpoint scan (r : re) (ng : nat) (skip : nat) (s : str) : list piece :=
  match skip with
  | S k => match s with
           | [] => []
           | _ :: t => scan r ng k t
           end
  | O =>
      match s with
      | [] => match match_here r ng [] with
              | Some (_, g) => [Hit g]
              | None => []
              end
      | c :: t =>
          match match_here r ng s with
          | Some (S n, g) => Hit g :: scan r ng n t
          | Some (O, g) => Hit g :: Keep c :: scan r ng 0 t
          | None => Keep c :: scan r ng 0 t
          end
      end
  end.

Definition emit (repl : caps -> str) (p : piece) : str :=
  match p with
  | Keep c => [c]
  | Hit g => repl g
  end.

(** [re.sub(pattern, repl, s)] with [repl] a function of the groups. *)
Definition re_sub (r : re) (ng : nat) (repl : caps -> str) (s : str) : str :=
  concat (map (emit repl) (scan r ng 0 s)).

(** [re.findall(pattern, s)] for a pattern with groups: the groups of each
    match. *)
Definition re_findall (r : re) (ng : nat) (s : str) : list caps :=
  omap (fun p => match p with Hit g => Some g | Keep _ => None end)
       (scan r ng 0 s).

(** [m.group(i+1)] used as text: a group that took no part gives the empty
    string, as in a replacement template. *)
Definition grp (g : caps) (i : nat) : str :=
  match g !! i with
  | Some (Some x) => x
  | _ => []
  end.

(** Character classes of the patterns. *)
Definition any : N -> bool := fun _ => true.
Definition just (c : N) : N -> bool := fun x => x =? c.
Definition isnt (c : N) : N -> bool := fun x => negb (x =? c).

Declare Scope re_scope.
Delimit Scope re_scope with re.
Bind Scope re_scope with re.
Infix "+++" := Cat (at level 60, right associativity) : re_scope.

(** [<[^>]+>] *)
Definition re_tag : re :=
  (Lit (u "<") +++ Rep true 1 (isnt (ch ">")) +++ Lit (u ">"))%re.

(** [<NAME[^>]*>(.*?)</NAME>] with [re.DOTALL]. *)
Definition re_element (name : string) : re :=
  (Lit (u "<" ++ u name) +++ Rep true 0 (isnt (ch ">")) +++ Lit (u ">")
   +++ Grp 0 (Rep false 0 any) +++ Lit (u "</" ++ u name ++ u ">"))%re.

(** ** The Python library *)

(** What [datetime.fromisoformat] keeps of a timestamp for
    [strftime('%Y-%m-%d')]. *)
Record date : Type := Date { year : nat; month : nat; day : nat }.

(** The library functions whose behaviour rests on tables outside the
    scripts: the Unicode database behind [\w] and [str.lower], the HTML5
    entity table behind [html.unescape], and the ISO 8601 reader of
    [datetime].  [fromisoformat] answers [None] where Python raises
    [ValueError]. *)
Record pylib : Type := PyLib {
  isalnum : N -> bool;
  lower : str -> str;
  unescape : str -> str;
  fromisoformat : str -> option date
}.

(** [\w] in a [str] pattern: alphanumeric, or the underscore. *)
Definition isword (L : pylib) (c : N) : bool := isalnum L c || (c =? 95).

(** ** [blogger_converter.py] *)

Section Blogger.
Context (L : pylib).

(** [[^\w\s-]] and [[-\s]]. *)
Definition unsafe_char (c : N) : bool :=
  negb (isword L c || isspace c || (c =? ch "-")).
Definition dash_or_space (c : N) : bool := (c =? ch "-") || isspace c.

Definition clean_filename (title : str) : str :=
  let title := re_sub re_tag 0 (fun _ => []) title in
  let title := re_sub (Cls unsafe_char) 0 (fun _ => []) title in
  let title := re_sub (Rep true 1 dash_or_space) 0 (fun _ => u "-") title in
  lower L (strip_by (just (ch "-")) title).

(** [<li[^>]*>(.*?)</li>] and the loop of [convert_list]; [ordered] is
    [list_type != 'ul']. *)
Definition list_item (ordered : bool) (i : nat) (g : caps) : str :=
  let item := strip (re_sub re_tag 0 (fun _ => []) (grp g 0)) in
  if ordered then str_of_nat (i + 1) ++ u ". " ++ item
  else u "- " ++ item.

Definition convert_list (list_content : str) (ordered : bool) : str :=
  let items := re_findall (re_element "li") 1 list_content in
  let markdown_items := imap (list_item ordered) items in
  [nl] ++ join [nl] markdown_items ++ [nl].

(** [img_pattern]: [<img], [[^>]+], [src=Q], group 1 [[^Q]+], [Q],
    [[^>]*], the optional group ([alt=Q], group 2 [[^Q]*], [Q]), [[^>]*]
    and [>], with [Q] the double quote. *)
Definition img_pattern : re :=
  (Lit (u "<img") +++ Rep true 1 (isnt (ch ">"))
   +++ Lit (u "src=" ++ [dq]) +++ Grp 0 (Rep true 1 (isnt dq)) +++ Lit [dq]
   +++ Rep true 0 (isnt (ch ">"))
   +++ Opt (Lit (u "alt=" ++ [dq]) +++ Grp 1 (Rep true 0 (isnt dq))
            +++ Lit [dq])
   +++ Rep true 0 (isnt (ch ">")) +++ Lit (u ">"))%re.

(** [<a[^>]+href=Q([^Q]+)Q[^>]*>(.*?)</a>] *)
Definition link_pattern : re :=
  (Lit (u "<a") +++ Rep true 1 (isnt (ch ">"))
   +++ Lit (u "href=" ++ [dq]) +++ Grp 0 (Rep true 1 (isnt dq)) +++ Lit [dq]
   +++ Rep true 0 (isnt (ch ">")) +++ Lit (u ">")
   +++ Grp 1 (Rep false 0 any) +++ Lit (u "</a>"))%re.

(** [<h([1-6])[^>]*>(.*?)</h[1-6]>] *)
Definition level_digit (c : N) : bool := (49 <=? c) && (c <=? 54).
Definition heading_pattern : re :=
  (Lit (u "<h") +++ Grp 0 (Cls level_digit)
   +++ Rep true 0 (isnt (ch ">")) +++ Lit (u ">")
   +++ Grp 1 (Rep false 0 any) +++ Lit (u "</h") +++ Cls level_digit
   +++ Lit (u ">"))%re.

(** ['#' * int(m.group(1))] *)
Definition hashes (level : str) : str :=
  match level with
  | [c] => replicate (N.to_nat (c - 48)) (ch "#")
  | _ => []
  end.

(** [<br\s*/?>] *)
Definition br_pattern : re :=
  (Lit (u "<br") +++ Rep true 0 isspace +++ Opt (Lit (u "/"))
   +++ Lit (u ">"))%re.

(** [<pre[^>]*><code[^>]*>(.*?)</code></pre>] *)
Definition pre_pattern : re :=
  (Lit (u "<pre") +++ Rep true 0 (isnt (ch ">")) +++ Lit (u "><code")
   +++ Rep true 0 (isnt (ch ">")) +++ Lit (u ">")
   +++ Grp 0 (Rep false 0 any) +++ Lit (u "</code></pre>"))%re.

(** [\n\s*\n\s*\n] *)
Definition blank_lines : re :=
  (Lit [nl] +++ Rep true 0 isspace +++ Lit [nl] +++ Rep true 0 isspace
   +++ Lit [nl])%re.

Definition wrap (l r : string) (g : caps) : str := u l ++ grp g 0 ++ u r.

Definition html_to_markdown (html_content : str) : str :=
  match html_content with
  | [] => []
  | _ =>
    let content := unescape L html_content in
    let content := re_sub img_pattern 2
      (fun m => u "![" ++ grp m 1 ++ u "](" ++ grp m 0 ++ u ")") content in
    let content := re_sub link_pattern 2
      (fun m => u "[" ++ grp m 1 ++ u "](" ++ grp m 0 ++ u ")") content in
    let content := re_sub heading_pattern 2
      (fun m => hashes (grp m 0) ++ u " " ++ grp m 1) content in
    let content := re_sub (re_element "p") 1
      (fun m => grp m 0 ++ [nl; nl]) content in
    let content := re_sub br_pattern 0 (fun _ => [nl]) content in
    let content := re_sub (re_element "strong") 1 (wrap "**" "**") content in
    let content := re_sub (re_element "b") 1 (wrap "**" "**") content in
    let content := re_sub (re_element "em") 1 (wrap "*" "*") content in
    let content := re_sub (re_element "i") 1 (wrap "*" "*") content in
    let content := re_sub (re_element "ul") 1
      (fun m => convert_list (grp m 0) false) content in
    let content := re_sub (re_element "ol") 1
      (fun m => convert_list (grp m 0) true) content in
    let content := re_sub (re_element "blockquote") 1
      (fun m => u "> " ++ replace [nl] (nl :: u "> ") (strip (grp m 0)))
      content in
    let content := re_sub pre_pattern 1
      (fun m => u "```" ++ [nl] ++ grp m 0 ++ [nl] ++ u "```") content in
    let content := re_sub (re_element "code") 1 (wrap "`" "`") content in
    let content := re_sub re_tag 0 (fun _ => []) content in
    let content := re_sub blank_lines 0 (fun _ => [nl; nl]) content in
    let content := re_sub (Lit (u "&nbsp;")) 0 (fun _ => u " ") content in
    strip content
  end.

(** [strftime('%Y-%m-%d')]: the year as the C library prints it, month
    and day on two digits. *)
Definition two_digits (n : nat) : str :=
  if (n <? 10)%nat then ch "0" :: str_of_nat n else str_of_nat n.

Definition strftime_ymd (d : date) : str :=
  str_of_nat (year d) ++ u "-" ++ two_digits (month d) ++ u "-"
  ++ two_digits (day d).

(** [format_date]: the argument is [published_elem.text], which is [None]
    for an empty element; the bare [except] then catches the
    [AttributeError] of [None.replace] and hands [None] back. *)
Definition format_date (date_string : option str) : option str :=
  match date_string with
  | None => None
  | Some s =>
      match fromisoformat L (replace (u "Z") (u "+00:00") s) with
      | Some dt => Some (strftime_ymd dt)
      | None => Some s
      end
  end.
End Blogger.

(** *** The feed and the output directory *)

(** One [atom:entry] as [extract_blog_entries] reads it.  An outer [None]
    is an element that [entry.find] does not find, an inner [None] the
    [.text] of an empty element.
    - [category_term]: the [term] of the kind category, [''] when the
      attribute is missing ([category.get('term', '')]);
    - [control_draft]: [app:control], then [app:draft] inside it, then its
      text;
    - [title_text], [published_text], [content_text]: the text of
      [atom:title] of type text, of [atom:published], and of [atom:content]
      of type html. *)
Record entry : Type := Entry {
  category_term : option str;
  control_draft : option (option (option str));
  title_text : option (option str);
  published_text : option (option str);
  content_text : option (option str)
}.

(** The output directory, as a map from file name to content, and the
    lines printed. *)
Record world : Type := World {
  files : gmap str str;
  stdout : list str
}.

(** What a step that may raise hands back: its result, or the exception
    with its message [str(e)]. *)
Inductive attempt (A : Type) : Type :=
  | Done (a : A)
  | Raises (message : str).
#[global] Arguments Done {A} a.
#[global] Arguments Raises {A} message.

(** [open(path, 'w')] for a file name of the output directory, as the
    operating system answers it: the file is opened, or [open] raises
    [OSError] (the name is longer than the file system allows, it holds a
    slash and so names a folder that is missing, the folder may not be
    written to, ...).  A file that has been opened is written in full. *)
Definition file_system : Type := str -> attempt unit.

(** [TypeError]: [clean_filename(None)], where [re.sub] raises on a title
    that is not text.  [OSError]: [open] refuses the file name.  Neither
    is caught in [extract_blog_entries]. *)
Inductive exn : Type := TypeError | OSError.

(** What the body of the loop does with one entry. *)
Inductive step : Type :=
  | Skipped
  | Written (filename content : str)
  | Failed (x : exn).

Inductive outcome : Type :=
  | Finished (w : world)
  | Raised (x : exn) (w : world).

(** An f-string field holding [None]. *)
Definition pystr (o : option str) : str := default (u "None") o.

Section Feed.
Context (L : pylib) (fs : file_system).

Definition is_settings (e : entry) : bool :=
  match category_term e with
  | Some term => contains (u "settings") term
  | None => false
  end.

Definition is_draft (e : entry) : bool :=
  match control_draft e with
  | Some (Some (Some t)) => bool_decide (t = u "yes")
  | _ => false
  end.

Definition title_of (e : entry) : option str :=
  match title_text e with
  | Some t => t
  | None => Some (u "Untitled")
  end.

Definition file_name (draft : bool) (published_date : option str)
    (safe_title : str) : str :=
  (if draft then u "draft-" else []) ++ pystr published_date ++ u "-"
  ++ safe_title ++ u ".md".

Definition file_content (draft : bool) (title : str)
    (published_date : option str) (markdown_content : str) : str :=
  (u "# " ++ title ++ [nl; nl])
  ++ (u "**Date:** " ++ pystr published_date ++ [nl])
  ++ (if draft then u "**Status:** Draft" ++ [nl] else [])
  ++ ([nl] ++ markdown_content ++ [nl]).

Definition convert_entry (e : entry) : step :=
  if is_settings e then Skipped else
  match published_text e with
  | None => Skipped
  | Some published =>
      let published_date := format_date L published in
      match content_text e with
      | None => Skipped
      | Some text =>
          let markdown_content := html_to_markdown L (default [] text) in
          match title_of e with
          | None => Failed TypeError
          | Some title =>
              let filename :=
                file_name (is_draft e) published_date
                  (clean_filename L title) in
              match fs filename with
              | Raises _ => Failed OSError
              | Done _ =>
                  Written filename
                    (file_content (is_draft e) title published_date
                       markdown_content)
              end
          end
      end
  end.

(** The [for] loop: [n] is [entries_processed]. *)
Fixpoint convert_entries (entries : list entry) (n : nat) (w : world)
    : world * (nat + exn) :=
  match entries with
  | [] => (w, inl n)
  | e :: rest =>
      match convert_entry e with
      | Skipped => convert_entries rest n w
      | Failed x => (w, inr x)
      | Written filename content =>
          convert_entries rest (S n)
            {| files := <[filename := content]> (files w);
               stdout := stdout w ++ [u "Created: " ++ filename] |}
      end
  end.

Definition summary (n : nat) : str :=
  [nl] ++ u "Processed " ++ str_of_nat n ++ u " blog entries.".

(** [extract_blog_entries] on a feed that [ET.parse] has read. *)
Definition extract_blog_entries (entries : list entry) (w : world)
    : outcome :=
  match convert_entries entries 0 w with
  | (w', inl n) =>
      Finished {| files := files w'; stdout := stdout w' ++ [summary n] |}
  | (w', inr x) => Raised x w'
  end.
End Feed.

Definition empty_world : world := {| files := ∅; stdout := [] |}.

(** ** [tumblr_export_html_to_markdown_converter.py] *)

Section Tumblr.
Context (L : pylib).

(** [os.path.basename] of [posixpath]: what follows the last slash. *)
Fixpoint basename_go (acc : str) (p : str) : str :=
  match p with
  | [] => acc
  | c :: t => if c =? ch "/" then basename_go t t else basename_go acc t
  end.
Definition basename (p : str) : str := basename_go p p.

Definition image_extensions : list str :=
  [u ".jpg"; u ".jpeg"; u ".png"; u ".gif"; u ".bmp"; u ".webp"; u ".svg"].

Definition replace_markdown_image_path (m : caps) : str :=
  u "![" ++ grp m 0 ++ u "](" ++ (u "tumblrmedia/" ++ basename (grp m 1))
  ++ u ")".

Definition replace_image_links (m : caps) : str :=
  let original_path := grp m 1 in
  if existsb (fun ext => endswith ext (lower L original_path))
             image_extensions
  then u "![" ++ grp m 0 ++ u "]("
       ++ (u "tumblrmedia/" ++ basename original_path) ++ u ")"
  else u "[" ++ grp m 0 ++ u "](" ++ original_path ++ u ")".

(** A bracketed text (group 1, any characters but the closing bracket)
    followed by a parenthesised target (group 2, one or more characters
    but the closing parenthesis); [image_syntax] is the same after an
    exclamation mark. *)
Definition link_syntax : re :=
  (Lit (u "[") +++ Grp 0 (Rep true 0 (isnt (ch "]"))) +++ Lit (u "](")
   +++ Grp 1 (Rep true 1 (isnt (ch ")"))) +++ Lit (u ")"))%re.
Definition image_syntax : re := (Lit (u "!") +++ link_syntax)%re.

Definition convert_image_paths (markdown_content : str) : str :=
  let markdown_content :=
    re_sub image_syntax 2 replace_markdown_image_path markdown_content in
  re_sub link_syntax 2 replace_image_links markdown_content.
End Tumblr.

(** ** A fragment of CPython's library data

    Enough of the library to run the scripts on concrete inputs: the
    Unicode database on U+0000 to U+00FF, on U+0130 and on the two code
    points of its lower-case form, a part of the HTML5 entity table, and the
    extended ISO 8601 format that [isoformat()] writes. *)
Module CPython.

Definition between (lo hi c : N) : bool := (lo <=? c) && (c <=? hi).

(** [str.isalnum] below U+0100 and on U+0130. *)
Definition isalnum (c : N) : bool :=
  ascii_upper c || ascii_lower c || ascii_digit c
  || (c =? 170) || (c =? 178) || (c =? 179) || (c =? 181) || (c =? 185)
  || (c =? 186) || between 188 190 c || between 192 214 c
  || between 216 246 c || between 248 255 c || (c =? 304).

(** [str.lower], one code point at a time: U+0130 becomes two code
    points. *)
Definition lower_char (c : N) : str :=
  if ascii_upper c then [c + 32]
  else if between 192 214 c || between 216 222 c then [c + 32]
  else if c =? 304 then [105; 775]
  else [c].

Definition lower (s : str) : str := concat (map lower_char s).

(** [html.entities.html5], in part. *)
Definition html5 : list (str * str) :=
  [ (u "amp", u "&"); (u "amp;", u "&"); (u "lt", u "<"); (u "lt;", u "<");
    (u "gt", u ">"); (u "gt;", u ">"); (u "quot", [dq]); (u "quot;", [dq]);
    (u "apos;", u "'"); (u "nbsp", [160]); (u "nbsp;", [160]);
    (u "copy", [169]); (u "copy;", [169]); (u "eacute", [233]);
    (u "eacute;", [233]); (u "ndash;", [8211]); (u "mdash;", [8212]);
    (u "lsquo;", [8216]); (u "rsquo;", [8217]); (u "ldquo;", [8220]);
    (u "rdquo;", [8221]); (u "hellip;", [8230]) ].

Definition html5_get (name : str) : option str :=
  snd <$> find (fun kv => bool_decide (fst kv = name)) html5.

Fixpoint take_while (p : N -> bool) (s : str) : str :=
  match s with
  | c :: t => if p c then c :: take_while p t else []
  | [] => []
  end.

Definition hex_digit (c : N) : bool :=
  ascii_digit c || between 97 102 c || between 65 70 c.

Definition digit_value (c : N) : N :=
  if ascii_digit c then c - 48
  else if between 97 102 c then c - 87
  else c - 55.

Definition int_of (base : N) (ds : str) : N :=
  fold_left (fun n c => n * base + digit_value c) ds 0.

(** [_invalid_charrefs] and [_invalid_codepoints]. *)
Definition invalid_charref (n : N) : option str :=
  if n =? 0 then Some [65533]
  else if n =? 13 then Some [13]
  else if between 128 159 n then
    nth_error
      [ [8364]; [129]; [8218]; [402]; [8222]; [8230]; [8224]; [8225];
        [710]; [8240]; [352]; [8249]; [338]; [141]; [381]; [143];
        [144]; [8216]; [8217]; [8220]; [8221]; [8226]; [8211]; [8212];
        [732]; [8482]; [353]; [8250]; [339]; [157]; [382]; [376] ]
      (N.to_nat (n - 128))
  else None.

Definition invalid_codepoint (n : N) : bool :=
  between 1 8 n || between 14 31 n || between 127 159 n
  || between 64976 65007 n || (n =? 11)
  || (between 65534 1114111 n && (65534 <=? n mod 65536)).

Definition numeric_charref (n : N) : str :=
  match invalid_charref n with
  | Some r => r
  | None =>
      if between 55296 57343 n || (1114111 <? n) then [65533]
      else if invalid_codepoint n then []
      else [n]
  end.

(** The loop of [_replace_charref] over the prefixes [s[:x]], longest
    first, for [x] from [len(s)-1] down to 2. *)
Fixpoint longest_prefix (x : nat) (s : str) : option str :=
  match x with
  | S (S _ as x') =>
      match html5_get (take x s) with
      | Some v => Some (v ++ drop x s)
      | None => longest_prefix x' s
      end
  | _ => None
  end.

Definition named_charref (s : str) : str :=
  match html5_get s with
  | Some v => v
  | None => default (ch "&" :: s) (longest_prefix (length s - 1) s)
  end.

(** [[^\t\n\f <&#;]] *)
Definition name_char (c : N) : bool :=
  negb ((c =? 9) || (c =? 10) || (c =? 12) || (c =? 32) || (c =? 60)
        || (c =? 38) || (c =? 35) || (c =? 59)).

Definition with_semicolon (body rest : str) : str :=
  match rest with
  | c :: _ => if c =? 59 then body ++ [c] else body
  | [] => body
  end.

(** One match of [_charref] after the ampersand: its length and what
    replaces it. *)
Definition charref (t : str) : option (nat * str) :=
  match t with
  | 35 :: t1 =>
      let hex := match t1 with
                 | c :: t2 => if (c =? 120) || (c =? 88) then Some t2
                              else None
                 | [] => None
                 end in
      let dec := take_while ascii_digit t1 in
      match dec, hex with
      | _ :: _, _ =>
          let m := with_semicolon dec (drop (length dec) t1) in
          Some (S (length m), numeric_charref (int_of 10 dec))
      | [], Some t2 =>
          match take_while hex_digit t2 with
          | [] => None
          | ds =>
              let m := with_semicolon ds (drop (length ds) t2) in
              Some (S (S (length m)), numeric_charref (int_of 16 ds))
          end
      | [], None => None
      end
  | _ =>
      match take 32 (take_while name_char t) with
      | [] => None
      | name =>
          let m := with_semicolon name (drop (length name) t) in
          Some (length m, named_charref m)
      end
  end.

Fixpoint unescape_go (skip : nat) (s : str) : str :=
  match s with
  | [] => []
  | c :: t =>
      match skip with
      | S k => unescape_go k t
      | O =>
          if c =? ch "&" then
            match charref t with
            | Some (n, r) => r ++ unescape_go n t
            | None => c :: unescape_go 0 t
            end
          else c :: unescape_go 0 t
      end
  end.

Definition unescape (s : str) : str :=
  if contains (u "&") s then unescape_go 0 s else s.

(** [datetime.fromisoformat] on [YYYY-MM-DD], alone or followed by one
    separator and a time [HH[:MM[:SS[.f+]]]] with an optional offset
    [+HH:MM] or [-HH:MM]. *)
Definition number (n : nat) (s : str) : option (nat * str) :=
  let ds := take n s in
  if (length ds =? n)%nat && forallb ascii_digit ds
  then Some (N.to_nat (int_of 10 ds), drop n s) else None.

Definition expect (c : N) (s : str) : option str :=
  match s with
  | x :: t => if x =? c then Some t else None
  | [] => None
  end.

Definition leap (y : nat) : bool :=
  ((y mod 4 =? 0) && negb (y mod 100 =? 0) || (y mod 400 =? 0))%nat.

Definition days_in_month (y m : nat) : nat :=
  match m with
  | 2 => if leap y then 29 else 28
  | 4 | 6 | 9 | 11 => 30
  | _ => 31
  end%nat.

Definition parse_date (s : str) : option (date * str) :=
  '(y, s) ← number 4 s; s ← expect (ch "-") s;
  '(m, s) ← number 2 s; s ← expect (ch "-") s;
  '(d, s) ← number 2 s;
  if ((1 <=? y) && (1 <=? m) && (m <=? 12) && (1 <=? d)
      && (d <=? days_in_month y m))%nat
  then Some (Date y m d, s) else None.

(** [HH[:MM[:SS[.f+]]]]; what follows is handed back. *)
Definition parse_hms (s : str) : option str :=
  '(h, s) ← number 2 s;
  if negb (h <? 24)%nat then None else
  match expect (ch ":") s with
  | None => Some s
  | Some s =>
      '(m, s) ← number 2 s;
      if negb (m <? 60)%nat then None else
      match expect (ch ":") s with
      | None => Some s
      | Some s =>
          '(sec, s) ← number 2 s;
          if negb (sec <? 60)%nat then None else
          match s with
          | c :: t =>
              if (c =? ch ".") || (c =? ch ",") then
                match take_while ascii_digit t with
                | [] => None
                | ds => Some (drop (length ds) t)
                end
              else Some s
          | [] => Some s
          end
      end
  end.

Definition parse_offset (s : str) : bool :=
  match s with
  | [] => true
  | c :: t =>
      if (c =? ch "+") || (c =? ch "-") then
        match parse_hms t with
        | Some [] => true
        | _ => false
        end
      else false
  end.

Definition fromisoformat (s : str) : option date :=
  '(d, s) ← parse_date s;
  match s with
  | [] => Some d
  | _ :: time =>
      rest ← parse_hms time;
      if parse_offset rest then Some d else None
  end.

Definition lib : pylib :=
  PyLib isalnum lower unescape fromisoformat.
End CPython.

(** ** An output directory on Linux

    [open] for a directory that holds files only, on a file system whose
    names are at most 255 bytes long (ext4, XFS, Btrfs): a longer name is
    refused, and a name with a slash in it points into a folder that is
    not there ([FileNotFoundError]).  The file names of the scripts come
    from XML text and from the names of existing files, so they hold no
    U+0000 and no surrogate. *)
Module Linux.

(** The bytes of a character in UTF-8, the encoding of file names. *)
Definition utf8_length (c : N) : nat :=
  if c <? 128 then 1 else if c <? 2048 then 2 else if c <? 65536 then 3
  else 4.

Definition name_bytes (name : str) : nat :=
  foldr (fun c n => (utf8_length c + n)%nat) 0%nat name.

Definition NAME_MAX : nat := 255.

(** The part of a path before its first slash, which the system looks up
    first. *)
Fixpoint first_component (path : str) : str :=
  match path with
  | [] => []
  | c :: t => if c =? ch "/" then [] else c :: first_component t
  end.

(** [output_dir] is the text in front of the file name in the path:
    [blog_posts/] for [os.path.join('blog_posts', filename)], nothing for
    [Path(".") / output_filename].  A file name that begins with a slash
    is a path of its own, from the root.  The message is [str(e)] for a
    path that [repr] puts between apostrophes unchanged. *)
Definition open_w (output_dir : str) : file_system := fun filename =>
  let path :=
    if startswith (u "/") filename then filename
    else output_dir ++ filename in
  if (NAME_MAX <? name_bytes (first_component filename))%nat then
    Raises (u "[Errno 36] File name too long: '" ++ path ++ u "'")
  else if existsb (N.eqb (ch "/")) filename then
    Raises (u "[Errno 2] No such file or directory: '" ++ path ++ u "'")
  else Done tt.
End Linux.

(** The output directory that [extract_blog_entries] makes when it is
    given none, and the folder that [process_html_folder] writes into when
    it is given none: [Path(".")]. *)
Definition blog_posts : file_system := Linux.open_w (u "blog_posts/").
Definition current_folder : file_system := Linux.open_w [].

(** ** Vocabulary of the statements *)

(** The lines of a text, split at line feeds. *)
Fixpoint lines_go (cur : str) (s : str) : list str :=
  match s with
  | [] => [reverse cur]
  | c :: t => if c =? nl then reverse cur :: lines_go [] t
              else lines_go (c :: cur) t
  end.
Definition lines (s : str) : list str := lines_go [] s.

(** The files a run writes, in order, and the entries it passes over. *)
Definition written (L : pylib) (fs : file_system) (entries : list entry)
    : list (str * str) :=
  omap (fun e => match convert_entry L fs e with
                 | Written f c => Some (f, c)
                 | _ => None
                 end) entries.

Definition skips (L : pylib) (fs : file_system) (e : entry) : bool :=
  match convert_entry L fs e with Skipped => true | _ => false end.

Definition fails (L : pylib) (fs : file_system) (e : entry) : bool :=
  match convert_entry L fs e with Failed _ => true | _ => false end.

Definition created (fc : str * str) : str := u "Created: " ++ fc.1.

Definition write_all (dir : gmap str str) (l : list (str * str))
    : gmap str str :=
  foldl (fun m fc => <[fc.1 := fc.2]> m) dir l.

(** What a finished run printed. *)
Definition printed (o : outcome) : list str :=
  match o with
  | Finished w => stdout w
  | Raised _ w => stdout w
  end.

(** The entry of the end-to-end scenario. *)
Definition hello_entry : entry :=
  {| category_term := None;
     control_draft := None;
     title_text := Some (Some (u "Hello World"));
     published_text := Some (Some (u "2024-12-18T19:26:00.000-08:00"));
     content_text := Some (Some (u "<p>Hi <b>there</b></p>")) |}.

(** The same entry with another [atom:published]: absent, empty, or with a
    text of its own. *)
Definition undated_entry (published : option (option str)) : entry :=
  {| category_term := None;
     control_draft := None;
     title_text := Some (Some (u "Hello World"));
     published_text := published;
     content_text := Some (Some (u "<p>Hi <b>there</b></p>")) |}.

(** An image tag with both attributes, [src] first. *)
Definition img_tag (src alt : str) : str :=
  u "<img src=" ++ [dq] ++ src ++ [dq] ++ u " alt=" ++ [dq] ++ alt ++ [dq]
  ++ u ">".

(** A flat list element: [<ol>] or [<ul>] around [<li>] items. *)
Definition li_html (item : str) : str := u "<li>" ++ item ++ u "</li>".
Definition list_html (tag : string) (items : list str) : str :=
  u "<" ++ u tag ++ u ">" ++ concat (map li_html items)
  ++ u "</" ++ u tag ++ u ">".

(** An item of plain text: no [<], no ampersand, no line feed, and more
    than whitespace.  [convert_list] strips it; a [trimmed_item] is what is
    left. *)
Definition plain_char (c : N) : bool :=
  negb ((c =? ch "<") || (c =? ch "&") || (c =? nl)).
Definition plain_item (x : str) : Prop :=
  forallb plain_char x = true /\ strip x <> [].
Definition trimmed_item (x : str) : Prop :=
  x <> [] /\ forallb plain_char x = true /\ strip x = x.

Definition numbered (i : nat) (x : str) : str :=
  str_of_nat (S i) ++ u ". " ++ x.
Definition dashed (x : str) : str := u "- " ++ x.

(** *** The sanitization of titles, in the words of the specification *)

(** An embedded tag: [<], one or more characters other than [>], then
    [>].  [tag_end t] is the length of such a tag that opens just before
    [t]. *)
Fixpoint index_of (c : N) (s : str) : option nat :=
  match s with
  | [] => None
  | x :: t => if x =? c then Some O else S <$> index_of c t
  end.

Definition tag_end (t : str) : option nat :=
  match index_of (ch ">") t with
  | Some (S n) => Some (S (S (S n)))
  | _ => None
  end.

Fixpoint remove_tags_go (skip : nat) (s : str) : str :=
  match s with
  | [] => []
  | c :: t =>
      match skip with
      | S k => remove_tags_go k t
      | O =>
          if c =? ch "<" then
            match tag_end t with
            | Some n => remove_tags_go (Nat.pred n) t
            | None => c :: remove_tags_go 0 t
            end
          else c :: remove_tags_go 0 t
      end
  end.
Definition remove_tags (s : str) : str := remove_tags_go 0 s.

(** Every run of characters of [p] becomes one hyphen. *)
Fixpoint collapse_go (p : N -> bool) (in_run : bool) (s : str) : str :=
  match s with
  | [] => []
  | c :: t =>
      if p c then
        if in_run then collapse_go p true t
        else ch "-" :: collapse_go p true t
      else c :: collapse_go p false t
  end.
Definition collapse (p : N -> bool) (s : str) : str := collapse_go p false s.

(** The steps of the specification, with [keep] the class of characters
    that are not deleted. *)
Definition sanitize (L : pylib) (keep : N -> bool) (title : str) : str :=
  lower L
    (strip_by (just (ch "-"))
       (collapse dash_or_space (filter (fun c => keep c = true)
          (remove_tags title)))).

(** [[A-Za-z0-9_\s-]], the class the specification names, and [[\w\s-]],
    the class of the pattern. *)
Definition spec_safe (c : N) : bool :=
  ascii_word c || isspace c || (c =? ch "-").
Definition safe_char (L : pylib) (c : N) : bool :=
  isword L c || isspace c || (c =? ch "-").

(** The library agrees with ASCII on ASCII text. *)
Definition ascii_lib (L : pylib) : Prop :=
  (forall c, is_ascii c = true ->
     isalnum L c = ascii_upper c || ascii_lower c || ascii_digit c)
  /\ (forall s, forallb is_ascii s = true -> lower L s = map ascii_tolower s).

(** [html.unescape] hands back a text without ampersand as it is. *)
Definition unescape_lib (L : pylib) : Prop :=
  forall s, contains (u "&") s = false -> unescape L s = s.

(** The length of the longest prefix of [s] made of characters of [p]. *)
Fixpoint run_length (p : N -> bool) (s : str) : nat :=
  match s with
  | c :: t => if p c then S (run_length p t) else O
  | [] => O
  end.

(** A fragment in sanitized form: lower-case letters, digits, underscores
    and hyphens, no two hyphens in a row and none at either end. *)
Fixpoint single_dashes (s : str) : bool :=
  match s with
  | a :: t =>
      match t with
      | b :: _ => negb ((a =? ch "-") && (b =? ch "-"))
      | [] => true
      end && single_dashes t
  | [] => true
  end.

Definition fragment_char (c : N) : bool :=
  ascii_lower c || ascii_digit c || (c =? 95) || (c =? ch "-").

Definition sanitized (s : str) : Prop :=
  forallb fragment_char s = true /\ single_dashes s = true
  /\ head s <> Some (ch "-") /\ last s <> Some (ch "-").

(** The sanitized form for every alphabet: hyphens and word characters of
    [\w], no two hyphens in a row and none at either end, and a text that
    [str.lower] leaves as it is.  No character that [\w] matches in Python
    is whitespace or [<]; the library being a parameter here, the form
    asks it of each character. *)
Definition name_char (L : pylib) (c : N) : bool :=
  (c =? ch "-")
  || (isword L c && negb (isspace c) && negb (c =? ch "<")).

Definition sanitized_form (L : pylib) (s : str) : Prop :=
  forallb (name_char L) s = true /\ single_dashes s = true
  /\ head s <> Some (ch "-") /\ last s <> Some (ch "-")
  /\ lower L s = s.

(** What is left of an ASCII title once the runs are collapsed. *)
Definition word_or_dash (c : N) : bool := ascii_word c || (c =? ch "-").

(** The title [My QCrazyQ Title!!!] of the specification, with [Q] the
    double quote, and a title with a letter outside ASCII, [Caf] followed by
    U+00E9. *)
Definition crazy_title : str :=
  u "My " ++ [dq] ++ u "Crazy" ++ [dq] ++ u " Title!!!".
Definition cafe_title : str := u "Caf" ++ [233].

(** Every [<] of [s] is followed by a text that [P] accepts. *)
Fixpoint after_lt (P : str -> bool) (s : str) : bool :=
  match s with
  | c :: t => (if c =? ch "<" then P t else true) && after_lt P t
  | [] => true
  end.

(** The text starts with a character of [T]. *)
Definition head_in (T : N -> bool) (t : str) : bool :=
  match t with
  | d :: _ => T d
  | [] => false
  end.

(** Every line feed of [s] is the last character or is followed by a
    character that is not whitespace. *)
Fixpoint nl_next (s : str) : bool :=
  match s with
  | c :: t =>
      (if c =? nl then match t with d :: _ => negb (isspace d) | [] => true end
       else true) && nl_next t
  | [] => true
  end.

(** A line of the output: not empty, without line feed, without whitespace
    at either end. *)
Definition solid (l : str) : Prop :=
  l <> [] /\ forallb (isnt nl) l = true
  /\ (forall c, head l = Some c -> isspace c = false)
  /\ (forall c, last l = Some c -> isspace c = false).

(** What follows a [<] among the items of a list: [li>] or [/li>]. *)
Definition li_follows (t : str) : bool :=
  match t with
  | a :: t' =>
      (a =? ch "l")
      || ((a =? ch "/")
          && match t' with b :: _ => b =? ch "l" | [] => false end)
  | [] => false
  end.

(** The characters that follow a [<] in a flat list whose tag starts with
    [c]. *)
Definition list_tag_char (c : N) (d : N) : bool :=
  (d =? c) || (d =? ch "l") || (d =? ch "/").

(** The least number of characters a match of the pattern spans. *)
Fixpoint min_width (r : re) : nat :=
  match r with
  | Lit l => length l
  | Cls _ => 1
  | Rep _ lo _ => lo
  | Cat r1 r2 => min_width r1 + min_width r2
  | Grp _ r => min_width r
  | Opt _ => 0
  end.

(** Group [i] occurs in the pattern. *)
Fixpoint touches (r : re) (i : nat) : bool :=
  match r with
  | Lit _ | Cls _ | Rep _ _ _ => false
  | Cat r1 r2 => touches r1 i || touches r2 i
  | Grp j r => (j =? i)%nat || touches r i
  | Opt r => touches r i
  end.

(** An image reference and a link of Markdown, and the test of
    [replace_image_links] for a target that looks like an image file. *)
Definition image_md (alt path : str) : str :=
  u "![" ++ alt ++ u "](" ++ path ++ u ")".
Definition link_md (text path : str) : str :=
  u "[" ++ text ++ u "](" ++ path ++ u ")".
Definition looks_like_image (L : pylib) (path : str) : bool :=
  existsb (fun ext => endswith ext (lower L path)) image_extensions.

(** ** Further vocabulary *)

(** The directory and the output a run leaves behind, finished or not. *)
Definition final (o : outcome) : world :=
  match o with
  | Finished w => w
  | Raised _ w => w
  end.

(** An entry whose [atom:title] element is there but empty. *)
Definition empty_title_entry : entry :=
  {| category_term := None;
     control_draft := None;
     title_text := Some None;
     published_text := Some (Some (u "2024-12-18T19:26:00.000-08:00"));
     content_text := Some (Some (u "<p>Hi <b>there</b></p>")) |}.

(** No tag opens just before [t]. *)
Definition no_tag (t : str) : bool := bool_decide (tag_end t = None).

(** The rules of [html_to_markdown] between [html.unescape] and the
    cleaning of whitespace, in the order in which they are applied. *)
Definition markup_rules : list (str -> str) :=
  [ re_sub img_pattern 2
      (fun m => u "![" ++ grp m 1 ++ u "](" ++ grp m 0 ++ u ")");
    re_sub link_pattern 2
      (fun m => u "[" ++ grp m 1 ++ u "](" ++ grp m 0 ++ u ")");
    re_sub heading_pattern 2
      (fun m => hashes (grp m 0) ++ u " " ++ grp m 1);
    re_sub (re_element "p") 1 (fun m => grp m 0 ++ [nl; nl]);
    re_sub br_pattern 0 (fun _ => [nl]);
    re_sub (re_element "strong") 1 (wrap "**" "**");
    re_sub (re_element "b") 1 (wrap "**" "**");
    re_sub (re_element "em") 1 (wrap "*" "*");
    re_sub (re_element "i") 1 (wrap "*" "*");
    re_sub (re_element "ul") 1 (fun m => convert_list (grp m 0) false);
    re_sub (re_element "ol") 1 (fun m => convert_list (grp m 0) true);
    re_sub (re_element "blockquote") 1
      (fun m => u "> " ++ replace [nl] (nl :: u "> ") (strip (grp m 0)));
    re_sub pre_pattern 1
      (fun m => u "```" ++ [nl] ++ grp m 0 ++ [nl] ++ u "```");
    re_sub (re_element "code") 1 (wrap "`" "`");
    re_sub re_tag 0 (fun _ => []) ].

Definition apply_rules (rules : list (str -> str)) (s : str) : str :=
  foldl (fun x rule => rule x) s rules.

(** An element without attributes around a text. *)
Definition element (name : string) (x : str) : str :=
  u "<" ++ u name ++ u ">" ++ x ++ u "</" ++ u name ++ u ">".

(** The two texts differ at a position that both have. *)
Definition clash (p a : str) : bool :=
  negb (startswith p a) && negb (startswith a p).

(** [p] clashes with every non-empty suffix of [a]. *)
Fixpoint clash_all (p a : str) : bool :=
  match a with
  | [] => true
  | _ :: t => clash p a && clash_all p t
  end.

(** A heading element of level [k], closed as a heading of level [j]. *)
Definition heading_html (k j : nat) (x : str) : str :=
  u "<h" ++ str_of_nat k ++ u ">" ++ x ++ u "</h" ++ str_of_nat j ++ u ">".

(** What follows a [<] in a heading element. *)
Definition heading_tag_char (c : N) : bool := (c =? ch "h") || (c =? ch "/").

(** A line break tag: [<br], whitespace, an optional slash, [>]. *)
Definition br_tag (ws : str) (slash : bool) : str :=
  u "<br" ++ ws ++ (if slash then u "/" else []) ++ u ">".

(** A line of text without markup: [solid], and no [<], ampersand or line
    feed. *)
Definition plain_line (l : str) : Prop :=
  solid l /\ forallb plain_char l = true.

(** What follows a [<] in a run of elements whose name starts with [a]:
    that letter, or the slash of a closing tag. *)
Definition tag_char (a : N) (c : N) : bool := (c =? a) || (c =? ch "/").

(** A line of a quotation in Markdown. *)
Definition quoted (l : str) : str := u "> " ++ l.

(** A code block: a [<code>] element inside a [<pre>] element. *)
Definition code_block (body : str) : str :=
  u "<pre><code>" ++ body ++ u "</code></pre>".

(** The fence of a code block in Markdown. *)
Definition fence : str := u "```".

(** What follows a [<] in a code block. *)
Definition code_tag_char (c : N) : bool :=
  (c =? ch "p") || (c =? ch "c") || (c =? ch "/").

(** A link element whose only attribute is [href]. *)
Definition anchor (href text : str) : str :=
  u "<a href=" ++ [dq] ++ href ++ [dq] ++ u ">" ++ text ++ u "</a>".

(** An image tag with [src] first and then any other attributes. *)
Definition img_with (src attributes : str) : str :=
  u "<img src=" ++ [dq] ++ src ++ [dq] ++ attributes ++ u ">".

(** What follows a [<] in a text whose only tags are [<c...] and
    [</c...]. *)
Definition tag_follows (c : N) (t : str) : bool :=
  match t with
  | a :: t' =>
      (a =? c)
      || ((a =? ch "/") && match t' with b :: _ => b =? c | [] => false end)
  | [] => false
  end.

(** What follows a [<] between the opening tag of a quotation and the
    closing tag of a later [<b>] element: [b], or [/bl]. *)
Definition quotation_follows (t : str) : bool :=
  head_in (just (ch "b")) t || startswith (u "/bl") t.

(** ** The dates of [tumblr_export_html_to_markdown_converter.py] *)

(** Patterns with alternatives: [extract_date_from_html] is the one
    function of the two scripts whose pattern has some.  The alternatives
    are tried from left to right, and what follows the group is matched
    after each one before the next is tried. *)
Inductive rex : Type :=
  | Re (r : re)
  | Alt (x1 x2 : rex)
  | Seq (x1 x2 : rex).

Fixpoint xmatch {A : Type} (x : rex) (s : str) (g : caps)
    (k : str -> caps -> option A) : option A :=
  match x with
  | Re r => rmatch r s g k
  | Alt x1 x2 => match xmatch x1 s g k with
                 | Some a => Some a
                 | None => xmatch x2 s g k
                 end
  | Seq x1 x2 => xmatch x1 s g (fun s' g' => xmatch x2 s' g' k)
  end.

(** [re.search]: the groups of the first match, trying each position from
    left to right, the end of the text included. *)
Fixpoint search (x : rex) (ng : nat) (s : str) : option caps :=
  match xmatch x s (replicate ng None) (fun _ g => Some g) with
  | Some g => Some g
  | None => match s with
            | [] => None
            | _ :: t => search x ng t
            end
  end.

(** The decimal digits of the Unicode database (category Nd): what [\d]
    matches in a [str] pattern, and the digits that [int()] reads, each
    with its value. *)
Record digits : Type := Digits {
  isdecimal : N -> bool;
  decimal : N -> nat
}.

(** A lower-case letter of a pattern compiled with [re.IGNORECASE], for
    the letters of [date_pattern] (a, d, h, m, n, p, r, s and t): the
    letter, its capital and, for [s], U+017F, the long s. *)
Definition ignorecase (a : N) (c : N) : bool :=
  (c =? a) || (c =? a - 32) || ((a =? ch "s") && (c =? 383)).

Definition two_letters (a b : ascii) : rex :=
  Re (Cls (ignorecase (ch a)) +++ Cls (ignorecase (ch b))).

(** [month_names] and [month_names.get]. *)
Definition month_names : list (str * nat) :=
  [ (u "january", 1%nat); (u "february", 2%nat); (u "march", 3%nat);
    (u "april", 4%nat); (u "may", 5%nat); (u "june", 6%nat);
    (u "july", 7%nat); (u "august", 8%nat); (u "september", 9%nat);
    (u "october", 10%nat); (u "november", 11%nat); (u "december", 12%nat) ].

Fixpoint get (d : list (str * nat)) (key : str) : option nat :=
  match d with
  | [] => None
  | (k, v) :: rest => if bool_decide (k = key) then Some v else get rest key
  end.

(** The message of the [ValueError] that [int()] raises on a text of more
    than 4300 digits. *)
Definition int_max_str_digits : nat := 4300.
Definition too_many_digits (n : nat) : str :=
  u "Exceeds the limit (4300 digits) for integer string conversion: value has "
  ++ str_of_nat n
  ++ u " digits; use sys.set_int_max_str_digits() to increase the limit".

Section Dates.
Context (L : pylib) (D : digits).

(** [int(s)] for a text of decimal digits. *)
Definition int_value (s : str) : nat :=
  foldl (fun n c => (10 * n + decimal D c)%nat) 0%nat s.

Definition int (s : str) : attempt nat :=
  if (int_max_str_digits <? length s)%nat
  then Raises (too_many_digits (length s))
  else Done (int_value s).

(** [date_pattern] with [re.IGNORECASE]: a word (group 1), whitespace,
    digits (group 2), one of [st], [nd], [rd], [th], an optional comma,
    whitespace, four digits (group 3), whitespace, digits (group 4), a
    colon, digits (group 5), and [am] or [pm]. *)
Definition date_pattern : rex :=
  Seq (Re (Grp 0 (Rep true 1 (isword L)) +++ Rep true 1 isspace
           +++ Grp 1 (Rep true 1 (isdecimal D))))
 (Seq (Alt (two_letters "s" "t") (Alt (two_letters "n" "d")
        (Alt (two_letters "r" "d") (two_letters "t" "h"))))
 (Seq (Re (Opt (Lit (u ",")) +++ Rep true 1 isspace
           +++ Grp 2 (Cls (isdecimal D) +++ Cls (isdecimal D)
                      +++ Cls (isdecimal D) +++ Cls (isdecimal D))
           +++ Rep true 1 isspace +++ Grp 3 (Rep true 1 (isdecimal D))
           +++ Lit (u ":") +++ Grp 4 (Rep true 1 (isdecimal D))))
      (Alt (two_letters "a" "m") (two_letters "p" "m")))).

(** [extract_date_from_html]: [None] when nothing matches or the word of
    the first match is not the name of a month. *)
Definition extract_date_from_html (html_content : str)
    : attempt (option str) :=
  match search date_pattern 5 html_content with
  | Some m =>
      let month_name := grp m 0 in
      let day := grp m 1 in
      let year := grp m 2 in
      match get month_names (lower L month_name) with
      | Some month_num =>
          if (0 <? month_num)%nat then
            match int day with
            | Done d =>
                Done (Some (year ++ u "." ++ two_digits month_num ++ u "."
                            ++ two_digits d))
            | Raises message => Raises message
            end
          else Done None
      | None => Done None
      end
  | None => Done None
  end.
End Dates.

(** The decimal digits of Unicode 14.0, the database of Python 3.11: the
    sixty-six code points with value zero, each followed by the nine
    other digits of its script. *)
Definition decimal_zeros : list N :=
  [ 48; 1632; 1776; 1984; 2406; 2534; 2662; 2790; 2918; 3046; 3174; 3302;
    3430; 3558; 3664; 3792; 3872; 4160; 4240; 6112; 6160; 6470; 6608; 6784;
    6800; 6992; 7088; 7232; 7248; 42528; 43216; 43264; 43472; 43504; 43600;
    44016; 65296; 66720; 68912; 69734; 69872; 69942; 70096; 70384; 70736;
    70864; 71248; 71360; 71472; 71904; 72016; 72784; 73040; 73120; 92768;
    92864; 93008; 120782; 120792; 120802; 120812; 120822; 123200; 123632;
    125264; 130032 ].

Definition zero_of (c : N) : option N :=
  find (fun z => (z <=? c) && (c <=? z + 9)) decimal_zeros.

Definition unicode_digits : digits :=
  {| isdecimal := fun c => bool_decide (is_Some (zero_of c));
     decimal := fun c => match zero_of c with
                         | Some z => N.to_nat (c - z)
                         | None => 0%nat
                         end |}.

(** ** The folder of pages *)

(** One file that [glob("*.html")] yields: its name and what reading it
    gives. *)
Record html_file : Type := HtmlFile {
  html_name : str;
  html_read : attempt str
}.

(** [s.rfind(c)]: the last position of [c]. *)
Fixpoint rfind_go (c : N) (i : nat) (found : option nat) (s : str)
    : option nat :=
  match s with
  | [] => found
  | x :: t => rfind_go c (S i) (if x =? c then Some i else found) t
  end.
Definition rfind (c : N) (s : str) : option nat := rfind_go c 0 None s.

(** [PurePath.stem]: the name without its last suffix; a dot that opens or
    closes the name does not start a suffix. *)
Definition stem (name : str) : str :=
  match rfind (ch ".") name with
  | Some i => if (0 <? i)%nat && (i <? length name - 1)%nat
              then take i name else name
  | None => name
  end.

Definition say (w : world) (line : str) : world :=
  {| files := files w; stdout := stdout w ++ [line] |}.

(** What the body of the loop does with one page: [NoDate] when
    [date_str] is [None] or empty, [Error] when the [try] block raises:
    reading the page, [int()], [html2text] or opening the output file. *)
Inductive page_step : Type :=
  | Converted (output_filename markdown_content : str)
  | NoDate
  | Error (message : str).

Section Folder.
Context (L : pylib) (D : digits).
(** [html_to_markdown] of this script: [html2text.HTML2Text().handle] with
    the options the script sets. *)
Context (html2text : str -> attempt str).
(** [open(output_file_path, 'w')] in the output folder. *)
Context (fs : file_system).

Definition convert_page (f : html_file) : page_step :=
  match html_read f with
  | Raises message => Error message
  | Done html_content =>
      match extract_date_from_html L D html_content with
      | Raises message => Error message
      | Done None | Done (Some []) => NoDate
      | Done (Some date_str) =>
          match html2text html_content with
          | Raises message => Error message
          | Done markdown_content =>
              let markdown_content := convert_image_paths L markdown_content in
              let base_name := stem (html_name f) in
              let output_filename :=
                date_str ++ u " - " ++ base_name ++ u ".md" in
              match fs output_filename with
              | Raises message => Error message
              | Done _ => Converted output_filename markdown_content
              end
          end
      end
  end.

(** The line that the loop prints for a page. *)
Definition report (f : html_file) : str :=
  match convert_page f with
  | Converted output_filename _ =>
      u "Converted: " ++ html_name f ++ u " -> " ++ output_filename
  | NoDate =>
      u "Warning: Could not extract date from " ++ html_name f
      ++ u ", skipping..."
  | Error message =>
      u "Error processing " ++ html_name f ++ u ": " ++ message
  end.

Definition process_page (w : world) (f : html_file) : world :=
  match convert_page f with
  | Converted output_filename markdown_content =>
      {| files := <[output_filename := markdown_content]> (files w);
         stdout := stdout w ++ [report f] |}
  | _ => say w (report f)
  end.

(** [process_html_folder]: [input_exists] is [input_path.exists()],
    [html_files] what [glob] finds, and the [files] of the world the
    output folder.  Creating the folder is taken to succeed. *)
Definition process_html_folder (input_exists : bool) (input_folder : str)
    (html_files : list html_file) (w : world) : world :=
  if negb input_exists then
    say w (u "Error: Input folder '" ++ input_folder ++ u "' does not exist.")
  else
    match html_files with
    | [] => say w (u "No HTML files found in '" ++ input_folder ++ u "'")
    | _ =>
        let w := say w (u "Found " ++ str_of_nat (length html_files)
                        ++ u " HTML files to process...") in
        say (foldl process_page w html_files) (u "Conversion complete!")
    end.
End Folder.

(** The file that a page gives, if any. *)
Definition page_output (L : pylib) (D : digits)
    (html2text : str -> attempt str) (fs : file_system) (f : html_file)
    : option (str * str) :=
  match convert_page L D html2text fs f with
  | Converted output_filename markdown_content =>
      Some (output_filename, markdown_content)
  | _ => None
  end.

Definition found_line (n : nat) : str :=
  u "Found " ++ str_of_nat n ++ u " HTML files to process...".

(** Two pages: one with a date, one that cannot be read. *)
Definition dated_page : html_file :=
  {| html_name := u "first-post.html";
     html_read :=
       Done (u "<p>Hello</p><span> January 15th, 2025 7:37am </span>") |}.
(** A page whose name is as long as a file system of Linux lets it be:
    255 bytes. *)
Definition long_page : html_file :=
  {| html_name := replicate 250 (ch "a") ++ u ".html";
     html_read := Done (u "<span> January 15th, 2025 7:37am </span>") |}.
Definition unreadable_page : html_file :=
  {| html_name := u "broken.html";
     html_read :=
       Raises (u "'utf-8' codec can't decode byte 0xff in position 0: "
               ++ u "invalid start byte") |}.

(** ** Vocabulary of the dates *)

Definition ascii_letter (c : N) : bool := ascii_upper c || ascii_lower c.

(** The library's decimal digits are the ASCII digits on ASCII text. *)
Definition ascii_digits (D : digits) : Prop :=
  forall c, is_ascii c = true ->
    isdecimal D c = ascii_digit c
    /\ (ascii_digit c = true -> decimal D c = N.to_nat (c - 48)).

(** No decimal digit of [s] comes directly after a whitespace
    character. *)
Fixpoint unspaced_digits (D : digits) (s : str) : bool :=
  match s with
  | a :: t =>
      match t with
      | b :: _ => negb (isspace a && isdecimal D b)
      | [] => true
      end && unspaced_digits D t
  | [] => true
  end.

(** The time stamp of a page, as in [January 15th, 2025 7:37am]. *)
Definition date_text (month_name day suffix : str) (comma : bool)
    (year hour minute ampm : str) : str :=
  month_name ++ u " " ++ day ++ suffix ++ (if comma then u "," else [])
  ++ u " " ++ year ++ u " " ++ hour ++ u ":" ++ minute ++ ampm.

Definition ordinal_suffixes : list str := [u "st"; u "nd"; u "rd"; u "th"].
Definition day_halves : list str := [u "am"; u "pm"].

(** ** The loop over the feed *)

Section FeedLoop.
Context (L : pylib) (fs : file_system).

Lemma convert_entries_no_failure entries : forall n w,
  forallb (fun e => negb (fails L fs e)) entries = true ->
  convert_entries L fs entries n w =
    ({| files := write_all (files w) (written L fs entries);
        stdout := stdout w ++ map created (written L fs entries) |},
     inl (n + length (written L fs entries))%nat).
Proof.
  induction entries as [|e rest IH]; intros n w Hok; simpl.
  - rewrite app_nil_r, Nat.add_0_r. by destruct w.
  - simpl in Hok. apply andb_true_iff in Hok as [He Hrest].
    unfold written, fails in *. simpl.
    destruct (convert_entry L fs e) as [|f c|x] eqn:E; simpl in *.
    + by apply IH.
    + rewrite IH by done. simpl.
      rewrite <- app_assoc. simpl. do 3 f_equal. lia.
    + done.
Qed.

Lemma written_skips_length entries :
  forallb (fun e => negb (fails L fs e)) entries = true ->
  (length (written L fs entries)
   + length (filter (fun e => skips L fs e = true) entries)
   = length entries)%nat.
Proof.
  induction entries as [|e rest IH]; simpl; [done|].
  intros [He Hrest]%andb_true_iff. specialize (IH Hrest).
  unfold written, skips, fails in *. simpl.
  rewrite filter_cons.
  destruct (convert_entry L fs e); simpl in *; try done;
    try case_decide; simpl; try done; try lia.
Qed.

Lemma convert_entries_finished entries : forall n w w' m,
  convert_entries L fs entries n w = (w', inl m) ->
  forallb (fun e => negb (fails L fs e)) entries = true.
Proof.
  induction entries as [|e rest IH]; intros n w w' m H; simpl in *; [done|].
  unfold fails at 1.
  destruct (convert_entry L fs e) eqn:E; simpl; eauto.
  by inversion H.
Qed.

Lemma write_all_app dir l1 l2 :
  write_all dir (l1 ++ l2) = write_all (write_all dir l1) l2.
Proof. unfold write_all. by rewrite foldl_app. Qed.

Lemma write_all_other dir l f :
  Forall (fun fc => fc.1 <> f) l -> write_all dir l !! f = dir !! f.
Proof.
  intros H. revert dir. induction H as [|[f' c'] l Hne _ IH]; intros dir.
  - done.
  - simpl in *. rewrite IH. by rewrite lookup_insert_ne.
Qed.

Lemma written_app l1 l2 :
  written L fs (l1 ++ l2) = written L fs l1 ++ written L fs l2.
Proof. unfold written. by rewrite omap_app. Qed.

Lemma convert_entry_written e f c :
  convert_entry L fs e = Written f c ->
  exists published text title,
    is_settings e = false
    /\ published_text e = Some published
    /\ content_text e = Some text
    /\ title_of e = Some title
    /\ f = file_name (is_draft e) (format_date L published)
             (clean_filename L title)
    /\ c = file_content (is_draft e) title (format_date L published)
             (html_to_markdown L (default [] text))
    /\ fs f = Done tt.
Proof.
  unfold convert_entry. intros H.
  destruct (is_settings e); [done|].
  destruct (published_text e) as [published|]; [|done].
  destruct (content_text e) as [text|]; [|done].
  destruct (title_of e) as [title|]; [|done].
  simpl in H.
  destruct (fs _) as [[]|message] eqn:Efs; [|done].
  inversion H; subst. by exists published, text, title.
Qed.

Lemma written_cons e f c l :
  convert_entry L fs e = Written f c ->
  written L fs (e :: l) = (f, c) :: written L fs l.
Proof. intros H. unfold written. simpl. by rewrite H. Qed.
End FeedLoop.

(** ** The end-to-end scenario *)

(** C1: the feed with the one entry titled [Hello World], published
    [2024-12-18T19:26:00.000-08:00], with content [<p>Hi <b>there</b></p>],
    leaves exactly one file, [2024-12-18-hello-world.md], and its lines
    include the heading [# Hello World], the date line
    [**Date:** 2024-12-18] and the body [Hi **there**]. *)
Theorem hello_world_scenario :
  exists content w,
    extract_blog_entries CPython.lib blog_posts [hello_entry] empty_world
      = Finished w
    /\ files w = {[ u "2024-12-18-hello-world.md" := content ]}
    /\ u "# Hello World" ∈ lines content
    /\ u "**Date:** 2024-12-18" ∈ lines content
    /\ u "Hi **there**" ∈ lines content.
Proof.
  eexists _, _. split; [vm_compute; reflexivity|].
  split; [vm_compute; reflexivity|].
  vm_compute lines. repeat split.
  - apply list_elem_of_here.
  - do 2 apply list_elem_of_further. apply list_elem_of_here.
  - do 4 apply list_elem_of_further. apply list_elem_of_here.
Qed.

(** ** Entities *)

(** C3: [a&nbsp;b] comes out with U+00A0 between the letters, not U+0020:
    [html.unescape] has decoded the entity before the later substitution
    looks for it.  That substitution then decodes a second time what
    [&amp;nbsp;] left behind. *)
Theorem nbsp_is_not_a_space :
  html_to_markdown CPython.lib (u "a&nbsp;b") = [ch "a"; 160; ch "b"]
  /\ html_to_markdown CPython.lib (u "a&amp;nbsp;b") = u "a b".
Proof. split; vm_compute; reflexivity. Qed.

(** ** Dates that are missing or cannot be read *)

(** C4, as stated, fails: an entry whose published text is [not a date]
    is not skipped; its file is written under the raw text.  And an error
    can be raised for such an entry: with [12/18/2024] the file name holds
    slashes, [open] raises and the run stops. *)
Lemma unparseable_date_is_written :
  fromisoformat CPython.lib (replace (u "Z") (u "+00:00") (u "not a date"))
    = None
  /\ (exists content w,
       extract_blog_entries CPython.lib blog_posts
         [undated_entry (Some (Some (u "not a date")))] empty_world
         = Finished w
       /\ files w = {[ u "not a date-hello-world.md" := content ]})
  /\ fromisoformat CPython.lib (replace (u "Z") (u "+00:00") (u "12/18/2024"))
       = None
  /\ extract_blog_entries CPython.lib blog_posts
       [undated_entry (Some (Some (u "12/18/2024")))] empty_world
     = Raised OSError empty_world.
Proof.
  split; [vm_compute; reflexivity|].
  split; [eexists _, _; split; vm_compute; reflexivity|].
  split; vm_compute; reflexivity.
Qed.

(** C4, amended: an entry without [atom:published] is skipped, whatever
    else it holds, and the run goes on as if it were not there.  An entry
    that has the element is never skipped for its date.  Take one that is
    not a settings entry, has an [atom:content] of type html and a title
    that is text (or no title element), and whose published text is
    missing (an empty element) or cannot be read.  [format_date] hands
    back what it was given, and the file name and the date line carry it
    as it is, [None] for the empty element.  If [open] accepts that file
    name the file is written; if not, [open] raises [OSError] and the run
    stops at this entry. *)
Theorem absent_date_skipped_unreadable_date_kept (L : pylib)
    (fs : file_system) (e : entry) :
  (published_text e = None ->
     convert_entry L fs e = Skipped
     /\ forall rest n w,
          convert_entries L fs (e :: rest) n w
          = convert_entries L fs rest n w)
  /\ (forall published title text,
        published_text e = Some published ->
        (forall s, published = Some s ->
           fromisoformat L (replace (u "Z") (u "+00:00") s) = None) ->
        is_settings e = false ->
        content_text e = Some text ->
        title_of e = Some title ->
        let filename :=
          file_name (is_draft e) published (clean_filename L title) in
        format_date L published = published
        /\ filename = (if is_draft e then u "draft-" else [])
                      ++ default (u "None") published ++ u "-"
                      ++ clean_filename L title ++ u ".md"
        /\ convert_entry L fs e =
             match fs filename with
             | Done _ =>
                 Written filename
                   (file_content (is_draft e) title published
                      (html_to_markdown L (default [] text)))
             | Raises _ => Failed OSError
             end
        /\ (forall message rest w,
              fs filename = Raises message ->
              extract_blog_entries L fs (e :: rest) w = Raised OSError w)).
Proof.
  split.
  - intros Hp.
    assert (convert_entry L fs e = Skipped) as Hs.
    { unfold convert_entry. rewrite Hp. by destruct (is_settings e). }
    split; [done|]. intros rest n w. simpl. by rewrite Hs.
  - intros published title text Hp Hbad Hset Hc Ht filename.
    assert (format_date L published = published) as Hf.
    { unfold format_date. destruct published as [s|]; [|done].
      by rewrite (Hbad s eq_refl). }
    assert (convert_entry L fs e =
              match fs filename with
              | Done _ =>
                  Written filename
                    (file_content (is_draft e) title published
                       (html_to_markdown L (default [] text)))
              | Raises _ => Failed OSError
              end) as Hce.
    { unfold convert_entry. rewrite Hset, Hp, Hc, Ht, Hf. done. }
    split; [done|]. split; [done|]. split; [done|].
    intros message rest w Hfs.
    unfold extract_blog_entries. simpl. by rewrite Hce, Hfs.
Qed.

Lemma absent_date_skipped_unreadable_date_kept_witness :
  convert_entry CPython.lib blog_posts (undated_entry None) = Skipped
  /\ convert_entry CPython.lib blog_posts
       (undated_entry (Some (Some (u "not a date"))))
     = Written (u "not a date-hello-world.md")
         (u "# Hello World" ++ [nl; nl] ++ u "**Date:** not a date"
          ++ [nl; nl] ++ u "Hi **there**" ++ [nl])
  /\ convert_entry CPython.lib blog_posts (undated_entry (Some None))
     = Written (u "None-hello-world.md")
         (u "# Hello World" ++ [nl; nl] ++ u "**Date:** None"
          ++ [nl; nl] ++ u "Hi **there**" ++ [nl])
  /\ convert_entry CPython.lib blog_posts
       (undated_entry (Some (Some (u "12/18/2024"))))
     = Failed OSError.
Proof.
  split; [|split; [|split]].
  - apply (absent_date_skipped_unreadable_date_kept CPython.lib blog_posts
             (undated_entry None)).
    reflexivity.
  - refine (proj1 (proj2 (proj2 (proj2
             (absent_date_skipped_unreadable_date_kept CPython.lib
                blog_posts (undated_entry (Some (Some (u "not a date")))))
             (Some (u "not a date")) (u "Hello World")
             (Some (u "<p>Hi <b>there</b></p>")) _ _ _ _ _))));
      try (vm_compute; reflexivity).
    intros s [= <-]. vm_compute. reflexivity.
  - refine (proj1 (proj2 (proj2 (proj2
             (absent_date_skipped_unreadable_date_kept CPython.lib
                blog_posts (undated_entry (Some None)))
             None (u "Hello World")
             (Some (u "<p>Hi <b>there</b></p>")) _ _ _ _ _))));
      try (vm_compute; reflexivity).
    intros s [=].
  - refine (proj1 (proj2 (proj2 (proj2
             (absent_date_skipped_unreadable_date_kept CPython.lib
                blog_posts (undated_entry (Some (Some (u "12/18/2024")))))
             (Some (u "12/18/2024")) (u "Hello World")
             (Some (u "<p>Hi <b>there</b></p>")) _ _ _ _ _))));
      try (vm_compute; reflexivity).
    intros s [= <-]. vm_compute. reflexivity.
Defined.

(** ** Two documents, one file name *)



(** ** The summary of a run *)

(** C9, as stated, fails: the run over no entry and the run over one entry
    without [atom:published] print the same text, so nothing read off what
    is printed can be three counts that add up to the number of entries in
    both runs. *)
Lemma summary_cannot_count_every_entry :
  ~ exists report : list str -> nat * nat * nat,
      forall entries : list entry,
        let '(processed, skipped, failed) :=
          report (printed
                    (extract_blog_entries CPython.lib blog_posts entries
                       empty_world)) in
        (processed + skipped + failed)%nat = length entries.
Proof.
  intros [report H].
  pose proof (H []) as H0.
  pose proof (H [undated_entry None]) as H1.
  change (printed (extract_blog_entries CPython.lib blog_posts
                     [undated_entry None] empty_world))
    with (printed (extract_blog_entries CPython.lib blog_posts []
                     empty_world)) in H1.
  destruct (report _) as [[p s] f]. simpl in *. lia.
Qed.

(** C9, amended: a run that finishes prints one [Created:] line for each
    file it writes and then a summary with one count, the number of files
    written.  Skipped entries are not reported; with them the count adds
    up to the number of entries, and no entry of a finished run failed. *)
Theorem summary_counts_written_entries (L : pylib) (fs : file_system)
    (entries : list entry) (w w' : world) :
  extract_blog_entries L fs entries w = Finished w' ->
  stdout w' = stdout w ++ map created (written L fs entries)
              ++ [summary (length (written L fs entries))]
  /\ (length (written L fs entries)
      + length (filter (fun e => skips L fs e = true) entries)
      = length entries)%nat.
Proof.
  unfold extract_blog_entries. intros H.
  destruct (convert_entries L fs entries 0 w) as [w1 [n|x]] eqn:E; [|done].
  pose proof (convert_entries_finished L fs _ _ _ _ _ E) as Hok.
  rewrite convert_entries_no_failure in E by done.
  inversion E; subst; clear E. inversion H; subst; clear H. simpl.
  split; [by rewrite <- app_assoc|].
  by apply written_skips_length.
Qed.

Lemma summary_counts_written_entries_witness :
  [u "Created: 2024-12-18-hello-world.md";
   nl :: u "Processed 1 blog entries."]
  = [] ++ map created (written CPython.lib blog_posts
                         [undated_entry None; hello_entry])
    ++ [summary (length (written CPython.lib blog_posts
                           [undated_entry None; hello_entry]))]
  /\ (length (written CPython.lib blog_posts
                 [undated_entry None; hello_entry])
      + length (filter (fun e => skips CPython.lib blog_posts e = true)
                  [undated_entry None; hello_entry])
      = 2)%nat.
Proof.
  apply (summary_counts_written_entries CPython.lib blog_posts
           [undated_entry None; hello_entry] empty_world
           {| files := {[ u "2024-12-18-hello-world.md" :=
                            u "# Hello World" ++ [nl; nl]
                            ++ u "**Date:** 2024-12-18" ++ [nl; nl]
                            ++ u "Hi **there**" ++ [nl] ]};
              stdout := [u "Created: 2024-12-18-hello-world.md";
                         nl :: u "Processed 1 blog entries."] |}).
  vm_compute. reflexivity.
Defined.

(** ** The matcher and the scan *)

Section ScanLemmas.
Context (r : re) (ng : nat).

Lemma scan_skip (m rest : str) :
  scan r ng (length m) (m ++ rest) = scan r ng 0 rest.
Proof. induction m as [|c m IH]; simpl; [done|apply IH]. Qed.

Lemma scan_skip_drop (s : str) : forall n,
  (n <= length s)%nat -> scan r ng n s = scan r ng 0 (drop n s).
Proof.
  induction s as [|c t IH]; intros [|n] Hn; simpl in *; try done; try lia.
  apply IH. lia.
Qed.

Lemma scan_miss (c : N) (t : str) :
  match_here r ng (c :: t) = None ->
  scan r ng 0 (c :: t) = Keep c :: scan r ng 0 t.
Proof. intros H. simpl. by rewrite H. Qed.

Lemma scan_hit (m rest : str) (g : caps) :
  m <> [] ->
  match_here r ng (m ++ rest) = Some (length m, g) ->
  scan r ng 0 (m ++ rest) = Hit g :: scan r ng 0 rest.
Proof.
  destruct m as [|c m]; [done|]. intros _ H.
  change (scan r ng 0 ((c :: m) ++ rest))
    with (match match_here r ng ((c :: m) ++ rest) with
          | Some (S n, g) => Hit g :: scan r ng n (m ++ rest)
          | Some (O, g) => Hit g :: Keep c :: scan r ng 0 (m ++ rest)
          | None => Keep c :: scan r ng 0 (m ++ rest)
          end).
  rewrite H. simpl. by rewrite scan_skip.
Qed.

Lemma re_sub_miss (repl : caps -> str) (c : N) (t : str) :
  match_here r ng (c :: t) = None ->
  re_sub r ng repl (c :: t) = c :: re_sub r ng repl t.
Proof. intros H. unfold re_sub. by rewrite scan_miss. Qed.

Lemma re_sub_hit (repl : caps -> str) (m rest : str) (g : caps) :
  m <> [] ->
  match_here r ng (m ++ rest) = Some (length m, g) ->
  re_sub r ng repl (m ++ rest) = repl g ++ re_sub r ng repl rest.
Proof. intros Hm H. unfold re_sub. by rewrite (scan_hit m rest g). Qed.

Lemma re_sub_nil (repl : caps -> str) :
  match_here r ng [] = None -> re_sub r ng repl [] = [].
Proof. intros H. unfold re_sub. simpl. by rewrite H. Qed.
End ScanLemmas.

(** A pattern that opens with a literal matches nowhere in a text that
    does not contain the literal. *)
Lemma startswith_app (p s : str) : startswith p (p ++ s) = true.
Proof. induction p as [|a p IH]; simpl; [done|]. by rewrite N.eqb_refl. Qed.

Lemma match_here_lit_absent (p : str) (r : re) (ng : nat) (s : str) :
  startswith p s = false -> match_here (Lit p +++ r) ng s = None.
Proof. intros H. unfold match_here. simpl. by rewrite H. Qed.

Lemma contains_cons (p : str) (c : N) (t : str) :
  contains p (c :: t) = false ->
  startswith p (c :: t) = false /\ contains p t = false.
Proof. simpl. intros H. by apply orb_false_iff in H. Qed.

Lemma contains_nil_false (p : str) :
  contains p [] = false -> startswith p [] = false.
Proof. simpl. intros H. by apply orb_false_iff in H as [? _]. Qed.

Lemma re_sub_absent (p : str) (r : re) (ng : nat) (repl : caps -> str)
    (s : str) :
  contains p s = false -> re_sub (Lit p +++ r) ng repl s = s.
Proof.
  induction s as [|c t IH]; intros H.
  - apply re_sub_nil, match_here_lit_absent. by apply contains_nil_false.
  - apply contains_cons in H as [H1 H2].
    rewrite re_sub_miss by by apply match_here_lit_absent.
    by rewrite IH.
Qed.

Lemma re_sub_lit_absent (p : str) (ng : nat) (repl : caps -> str) (s : str) :
  contains p s = false -> re_sub (Lit p) ng repl s = s.
Proof.
  induction s as [|c t IH]; intros H.
  - apply re_sub_nil. unfold match_here. simpl.
    by rewrite (contains_nil_false _ H).
  - apply contains_cons in H as [H1 H2].
    rewrite re_sub_miss; [by rewrite IH|].
    unfold match_here. simpl rmatch. by rewrite H1.
Qed.

(** *** Repetitions *)

Section RepLemmas.
Context {A : Type} (p : N -> bool).

(** A greedy repetition takes the whole run when what follows cannot
    start inside the run. *)
Lemma rep_greedy_run (k : str -> option A) (s : str) : forall lo,
  (forall c t, p c = true -> k (c :: t) = None) ->
  rep_greedy p lo s k =
    if (lo <=? run_length p s)%nat then k (drop (run_length p s) s)
    else None.
Proof.
  induction s as [|c t IH]; intros lo Hk.
  - simpl. by destruct lo.
  - simpl. destruct (p c) eqn:Hc.
    + rewrite IH by done.
      destruct lo as [|lo]; simpl.
      * destruct (k (drop (run_length p t) t)); [done|]. by apply Hk.
      * destruct (lo <=? run_length p t)%nat; [|done].
        by destruct (k (drop (run_length p t) t)).
    + by destruct lo.
Qed.

(** With nothing to follow, it takes the whole run as well. *)
Lemma rep_greedy_total (f : str -> A) (s : str) : forall lo,
  rep_greedy p lo s (fun s' => Some (f s')) =
    if (lo <=? run_length p s)%nat then Some (f (drop (run_length p s) s))
    else None.
Proof.
  induction s as [|c t IH]; intros lo.
  - simpl. by destruct lo.
  - simpl. destruct (p c) eqn:Hc.
    + rewrite IH. destruct lo as [|lo]; simpl; [done|].
      by destruct (lo <=? run_length p t)%nat.
    + by destruct lo.
Qed.

(** A lazy repetition stops at the first place where what follows
    matches. *)
Lemma rep_lazy_first (k : str -> option A) (body rest : str) :
  forallb p body = true ->
  (forall i, (i < length body)%nat -> k (drop i body ++ rest) = None) ->
  rep_lazy p 0 (body ++ rest) k = rep_lazy p 0 rest k.
Proof.
  induction body as [|c body IH]; intros Hp Hk; [done|].
  simpl in Hp. apply andb_true_iff in Hp as [Hc Hp].
  change ((c :: body) ++ rest) with (c :: (body ++ rest)).
  pose proof (Hk 0%nat ltac:(simpl; lia)) as H0. simpl in H0.
  simpl. rewrite H0, Hc.
  apply IH; [done|]. intros i Hi. apply (Hk (S i)). simpl. lia.
Qed.

Lemma rep_lazy_now (k : str -> option A) (s : str) (a : A) :
  k s = Some a -> rep_lazy p 0 s k = Some a.
Proof. intros H. destruct s; simpl; by rewrite H. Qed.
End RepLemmas.

Lemma run_length_le (p : N -> bool) (s : str) :
  (run_length p s <= length s)%nat.
Proof. induction s as [|c t IH]; simpl; [lia|]. destruct (p c); simpl; lia. Qed.

(** ** Where a match ends *)

Section Results.
Context {A : Type}.

Lemma startswith_prefix (l s : str) :
  startswith l s = true -> s = l ++ drop (length l) s.
Proof.
  revert s. induction l as [|a l IH]; intros [|b s] H; try done.
  cbn in H. apply andb_true_iff in H as [->%N.eqb_eq H].
  cbn. f_equal. by apply IH.
Qed.

Lemma rep_greedy_result (p : N -> bool) (s : str) (k : str -> option A)
    (a : A) : forall lo,
  rep_greedy p lo s k = Some a ->
  exists m, s = m ++ drop (length m) s /\ (lo <= length m)%nat
            /\ k (drop (length m) s) = Some a.
Proof.
  induction s as [|c t IH]; intros lo H.
  - exists []. destruct lo; by cbn in *.
  - cbn [rep_greedy] in H.
    assert (match lo with O => k (c :: t) | S _ => None end = Some a ->
            exists m, c :: t = m ++ drop (length m) (c :: t)
                      /\ (lo <= length m)%nat
                      /\ k (drop (length m) (c :: t)) = Some a) as Hstop.
    { intros Hs. exists []. by destruct lo. }
    destruct (p c); [|by apply Hstop].
    destruct (rep_greedy p (Nat.pred lo) t k) eqn:E; [|by apply Hstop].
    injection H as ->. destruct (IH _ E) as (m & Hm & Hlo & Hk).
    exists (c :: m). cbn. split; [by f_equal|]. split; [lia|done].
Qed.

Lemma rep_lazy_result (p : N -> bool) (s : str) (k : str -> option A)
    (a : A) : forall lo,
  rep_lazy p lo s k = Some a ->
  exists m, s = m ++ drop (length m) s /\ (lo <= length m)%nat
            /\ k (drop (length m) s) = Some a.
Proof.
  induction s as [|c t IH]; intros lo H.
  - exists []. destruct lo; cbn in *; [|done]. by destruct (k []).
  - cbn [rep_lazy] in H.
    assert ((if p c then rep_lazy p (Nat.pred lo) t k else None) = Some a ->
            exists m, c :: t = m ++ drop (length m) (c :: t)
                      /\ (lo <= length m)%nat
                      /\ k (drop (length m) (c :: t)) = Some a) as Hmore.
    { destruct (p c); [|done]. intros E.
      destruct (IH _ E) as (m & Hm & Hlo & Hk).
      exists (c :: m). cbn. split; [by f_equal|]. split; [lia|done]. }
    destruct lo; [|by apply Hmore].
    destruct (k (c :: t)) eqn:E; [|by apply Hmore].
    injection H as ->. exists []. by cbn.
Qed.

(** A match is what the continuation answers on a suffix of the subject,
    at least [min_width] characters on, with the groups outside the pattern
    as they were. *)
Lemma rmatch_result (r : re) : forall (s : str) (g : caps)
    (k : str -> caps -> option A) (a : A),
  rmatch r s g k = Some a ->
  exists m s' g', s = m ++ s' /\ (min_width r <= length m)%nat
                  /\ k s' g' = Some a
                  /\ forall i, touches r i = false -> g' !! i = g !! i.
Proof.
  induction r as [l|p|[] lo p|r1 IH1 r2 IH2|j r IH|r IH]; intros s g k a H;
    cbn [rmatch] in H; cbn [min_width].
  - destruct (startswith l s) eqn:E; [|done].
    exists l, (drop (length l) s), g. by split; [apply startswith_prefix|].
  - destruct s as [|c t]; [done|]. destruct (p c); [|done].
    by exists [c], t, g.
  - destruct (rep_greedy_result _ _ _ _ _ H) as (m & Hm & Hlo & Hk).
    by exists m, (drop (length m) s), g.
  - destruct (rep_lazy_result _ _ _ _ _ H) as (m & Hm & Hlo & Hk).
    by exists m, (drop (length m) s), g.
  - destruct (IH1 _ _ _ _ H) as (m1 & s1 & g1 & -> & Hw1 & H1 & Hg1).
    destruct (IH2 _ _ _ _ H1) as (m2 & s2 & g2 & -> & Hw2 & H2 & Hg2).
    exists (m1 ++ m2), s2, g2. split; [by rewrite app_assoc|].
    split; [rewrite length_app; lia|]. split; [done|].
    intros i [Hi1 Hi2]%orb_false_iff. by rewrite Hg2, Hg1.
  - destruct (IH _ _ _ _ H) as (m & s' & g' & -> & Hw & H1 & Hg).
    eexists m, s', _. split; [done|]. split; [done|]. split; [exact H1|].
    intros i [Hji%Nat.eqb_neq Hi]%orb_false_iff.
    rewrite list_lookup_insert_ne by done. by apply Hg.
  - destruct (rmatch r s g k) eqn:E.
    + injection H as ->. destruct (IH _ _ _ _ E) as (m & s' & g' & ? & ? & ?).
      exists m, s', g'. split; [done|]. split; [lia|done].
    + exists [], s, g. split; [done|]. split; [cbn; lia|done].
Qed.

(** The longest split wins when what follows matches after it. *)
Lemma rep_greedy_longest (p : N -> bool) (s : str) (k : str -> option A)
    (a : A) :
  k (drop (run_length p s) s) = Some a -> rep_greedy p 0 s k = Some a.
Proof.
  induction s as [|c t IH]; intros H; [done|].
  cbn [rep_greedy run_length Nat.pred] in *. destruct (p c); [|done].
  cbn [drop] in H. by rewrite (IH H).
Qed.
End Results.

(** A pattern that spans at least one character never matches the empty
    string, so the scan never meets an empty match. *)
Lemma match_here_width (r : re) (ng : nat) (s : str) (n : nat) (g : caps) :
  match_here r ng s = Some (n, g) -> (min_width r <= n)%nat.
Proof.
  unfold match_here. intros H.
  apply rmatch_result in H as (m & s' & g' & -> & Hw & H & _).
  injection H as <- _. rewrite length_app. lia.
Qed.

Lemma patterns_span_a_character (L : pylib) :
  Forall (fun r => (0 < min_width r)%nat)
    [ re_tag; Cls (unsafe_char L); Rep true 1 dash_or_space;
      re_element "li"; img_pattern; link_pattern; heading_pattern;
      re_element "p"; br_pattern; re_element "strong"; re_element "b";
      re_element "em"; re_element "i"; re_element "ul"; re_element "ol";
      re_element "blockquote"; pre_pattern; re_element "code"; blank_lines;
      Lit (u "&nbsp;"); image_syntax; link_syntax ].
Proof. repeat constructor; cbn; lia. Qed.

Lemma drop_run_length (p : N -> bool) (s : str) :
  match drop (run_length p s) s with
  | c :: _ => p c = false
  | [] => True
  end.
Proof.
  induction s as [|c t IH]; [done|]. cbn [run_length].
  destruct (p c) eqn:E; [exact IH|done].
Qed.

Lemma run_length_all (p : N -> bool) (s : str) :
  drop (run_length p s) s = [] -> forallb p s = true.
Proof.
  induction s as [|c t IH]; [done|]. cbn [run_length forallb].
  destruct (p c); [|done]. cbn [drop andb]. exact IH.
Qed.

(** ** The three substitutions of [clean_filename] *)

Lemma match_here_cls (q : N -> bool) (ng : nat) (c : N) (t : str) :
  match_here (Cls q) ng (c :: t) =
    if q c then Some (1%nat, replicate ng None) else None.
Proof.
  unfold match_here. cbn [rmatch]. destruct (q c); [|done].
  do 2 f_equal. cbn [length]. lia.
Qed.

Lemma re_sub_class_filter (L : pylib) (s : str) :
  re_sub (Cls (unsafe_char L)) 0 (fun _ => []) s
  = filter (fun c => safe_char L c = true) s.
Proof.
  induction s as [|c t IH]; [done|].
  rewrite filter_cons.
  pose proof (match_here_cls (unsafe_char L) 0 c t) as Hm.
  unfold unsafe_char in Hm at 2. fold (safe_char L c) in Hm.
  destruct (safe_char L c) eqn:Hs; simpl in Hm.
  - rewrite re_sub_miss by done. rewrite IH. reflexivity.
  - rewrite (re_sub_hit _ _ _ [c] t _ ltac:(done) Hm). simpl. rewrite IH.
    reflexivity.
Qed.

Lemma match_here_run (p : N -> bool) (s : str) :
  match_here (Rep true 1 p) 0 s =
    if (1 <=? run_length p s)%nat then Some (run_length p s, []) else None.
Proof.
  unfold match_here. cbn [rmatch replicate].
  rewrite (rep_greedy_total p
             (fun s' => ((length s - length s')%nat, @nil (option str)))).
  destruct (1 <=? run_length p s)%nat; [|done].
  do 2 f_equal. rewrite length_drop. pose proof (run_length_le p s). lia.
Qed.

Lemma re_sub_run_collapse (p : N -> bool) (s : str) :
  re_sub (Rep true 1 p) 0 (fun _ => u "-") s = collapse p s.
Proof.
  unfold re_sub, collapse.
  enough (concat (map (emit (fun _ => u "-")) (scan (Rep true 1 p) 0 0 s))
            = collapse_go p false s
          /\ concat (map (emit (fun _ => u "-"))
                       (scan (Rep true 1 p) 0 (run_length p s) s))
            = collapse_go p true s) as [H _] by done.
  induction s as [|c t [IH0 IH1]].
  - split; reflexivity.
  - assert (concat (map (emit (fun _ => u "-"))
                      (scan (Rep true 1 p) 0 0 (c :: t)))
            = collapse_go p false (c :: t)) as H0.
    { change (scan (Rep true 1 p) 0 0 (c :: t))
        with (match match_here (Rep true 1 p) 0 (c :: t) with
              | Some (S n, g) => Hit g :: scan (Rep true 1 p) 0 n t
              | Some (O, g) => Hit g :: Keep c :: scan (Rep true 1 p) 0 0 t
              | None => Keep c :: scan (Rep true 1 p) 0 0 t
              end).
      rewrite match_here_run. simpl. destruct (p c); simpl.
      - by rewrite IH1.
      - by rewrite IH0. }
    split; [done|].
    simpl run_length. simpl collapse_go.
    destruct (p c) eqn:Hc.
    + simpl. exact IH1.
    + rewrite H0. simpl. by rewrite Hc.
Qed.

Lemma index_of_run (t : str) :
  index_of (ch ">") t =
    if startswith (u ">") (drop (run_length (isnt (ch ">")) t) t)
    then Some (run_length (isnt (ch ">")) t) else None.
Proof.
  change (u ">") with [ch ">"].
  induction t as [|c t IH]; [done|].
  cbn [index_of run_length]. unfold isnt at 1 3. rewrite IH.
  destruct (c =? ch ">") eqn:Hc;
    cbn [negb drop startswith fmap option_fmap option_map].
  - by rewrite N.eqb_sym, Hc.
  - destruct (drop _ t) as [|b ?]; [done|]. destruct (ch ">" =? b); reflexivity.
Qed.

Lemma match_here_tag (c : N) (t : str) :
  match_here re_tag 0 (c :: t) =
    if c =? ch "<" then
      match tag_end t with Some n => Some (n, []) | None => None end
    else None.
Proof.
  unfold match_here, re_tag. cbn [rmatch].
  change (startswith (u "<") (c :: t)) with ((ch "<" =? c) && true).
  rewrite andb_true_r, (N.eqb_sym (ch "<") c).
  destruct (c =? ch "<"); [|done].
  rewrite rep_greedy_run.
  2:{ intros a s' Ha. unfold isnt in Ha.
      change (startswith (u ">") (a :: s')) with ((ch ">" =? a) && true).
      rewrite N.eqb_sym. by destruct (a =? ch ">"). }
  unfold tag_end. rewrite index_of_run.
  change (drop (length (u "<")) (c :: t)) with t.
  change (length (u ">")) with 1%nat.
  pose proof (run_length_le (isnt (ch ">")) t) as Hle.
  pose proof (length_drop t (run_length (isnt (ch ">")) t)) as Hlen.
  destruct (run_length (isnt (ch ">")) t) as [|n] eqn:Hr.
  - by destruct (startswith _ _).
  - change (1 <=? S n)%nat with true. cbv iota.
    destruct (startswith (u ">") (drop (S n) t)) eqn:Hs; [|done].
    destruct (drop (S n) t) as [|x rest] eqn:Hd; [done|].
    do 2 f_equal. cbn [length drop] in *. rewrite drop_0. lia.
Qed.

Lemma re_sub_tag_remove (s : str) :
  re_sub re_tag 0 (fun _ => []) s = remove_tags s.
Proof.
  unfold re_sub, remove_tags.
  enough (forall k, concat (map (emit (fun _ => [])) (scan re_tag 0 k s))
                    = remove_tags_go k s) as H by apply H.
  induction s as [|c t IH]; intros k.
  - by destruct k.
  - destruct k as [|k]; [|apply IH].
    change (scan re_tag 0 0 (c :: t))
      with (match match_here re_tag 0 (c :: t) with
            | Some (S n, g) => Hit g :: scan re_tag 0 n t
            | Some (O, g) => Hit g :: Keep c :: scan re_tag 0 0 t
            | None => Keep c :: scan re_tag 0 0 t
            end).
    rewrite match_here_tag. simpl remove_tags_go.
    destruct (c =? ch "<").
    + unfold tag_end. destruct (index_of (ch ">") t) as [[|n]|]; simpl;
        by rewrite IH.
    + simpl. by rewrite IH.
Qed.

(** The pattern classes against the words of the specification. *)
Lemma clean_filename_sanitize (L : pylib) (title : str) :
  clean_filename L title = sanitize L (safe_char L) title.
Proof.
  unfold clean_filename, sanitize.
  by rewrite re_sub_tag_remove, re_sub_class_filter, re_sub_run_collapse.
Qed.

(** ** The shape of a sanitized title *)

Lemma forallb_remove_tags (q : N -> bool) (s : str) : forall k,
  forallb q s = true -> forallb q (remove_tags_go k s) = true.
Proof.
  induction s as [|c t IH]; intros k H; [done|].
  cbn [forallb] in H. apply andb_true_iff in H as [Hc Ht].
  cbn [remove_tags_go]. destruct k as [|k]; [|by apply IH].
  destruct (c =? ch "<"); [destruct (tag_end t)|];
    cbn [forallb]; rewrite ?Hc; by apply IH.
Qed.

Lemma forallb_filter (q keep : N -> bool) (s : str) :
  forallb q s = true ->
  forallb q (filter (fun c => keep c = true) s) = true.
Proof.
  induction s as [|c t IH]; intros H; [done|].
  cbn [forallb] in H. apply andb_true_iff in H as [Hc Ht].
  rewrite filter_cons. destruct (decide (keep c = true)); cbn [forallb];
    rewrite ?Hc; by apply IH.
Qed.

Lemma forallb_filter_keep (keep : N -> bool) (s : str) :
  forallb keep (filter (fun c => keep c = true) s) = true.
Proof.
  induction s as [|c t IH]; [done|].
  rewrite filter_cons. destruct (decide (keep c = true)) as [Hc|];
    cbn [forallb]; rewrite ?Hc; by apply IH.
Qed.

Lemma filter_all (keep : N -> bool) (s : str) :
  forallb keep s = true -> filter (fun c => keep c = true) s = s.
Proof.
  induction s as [|c t IH]; intros H; [done|].
  cbn [forallb] in H. apply andb_true_iff in H as [Hc Ht].
  rewrite filter_cons, decide_True by done. by rewrite IH.
Qed.

Section Collapse.
Context (p : N -> bool) (Hdash : p (ch "-") = true).

Lemma forallb_collapse (q : N -> bool) (s : str) : forall b,
  q (ch "-") = true ->
  forallb (fun c => p c || q c) s = true ->
  forallb (fun c => negb (p c) && q c || (c =? ch "-"))
          (collapse_go p b s) = true.
Proof.
  induction s as [|c t IH]; intros b Hq H; [done|].
  cbn [forallb] in H. apply andb_true_iff in H as [Hc Ht].
  cbn [collapse_go]. destruct (p c) eqn:Hp.
  - destruct b; cbn [forallb]; rewrite ?N.eqb_refl, ?orb_true_r;
      by apply IH.
  - cbn [forallb]. rewrite Hp. simpl in Hc. rewrite Hc. simpl.
    by apply IH.
Qed.

Lemma not_dash (c : N) : p c = false -> (c =? ch "-") = false.
Proof.
  intros H. destruct (N.eqb_spec c (ch "-")) as [->|]; [|done].
  by rewrite Hdash in H.
Qed.

Lemma single_dashes_collapse (s : str) : forall b,
  single_dashes (collapse_go p b s) = true
  /\ (b = true -> head (collapse_go p b s) <> Some (ch "-")).
Proof.
  induction s as [|c t IH]; intros b; [done|].
  cbn [collapse_go]. destruct (p c) eqn:Hp.
  - destruct b; [apply IH|].
    split; [|done]. destruct (IH true) as [H1 H2].
    specialize (H2 eq_refl). cbn [single_dashes]. rewrite H1, andb_true_r.
    destruct (collapse_go p true t) as [|x ?]; [done|].
    rewrite N.eqb_refl. simpl.
    destruct (N.eqb_spec x (ch "-")) as [->|]; [|done]. by destruct H2.
  - destruct (IH false) as [H1 _]. split.
    + cbn [single_dashes]. rewrite H1, andb_true_r, (not_dash c Hp).
      by destruct (collapse_go p false t).
    + intros _ [= E]. apply not_dash in Hp. rewrite E, N.eqb_refl in Hp.
      done.
Qed.

(** A text made of single hyphens and of characters outside [p] has no
    run to collapse. *)
Lemma collapse_fixed (s : str) :
  forallb (fun c => negb (p c) || (c =? ch "-")) s = true ->
  single_dashes s = true ->
  collapse_go p false s = s
  /\ (head s <> Some (ch "-") -> collapse_go p true s = s).
Proof.
  induction s as [|c t IH]; intros H Hs; [done|].
  cbn [forallb] in H. apply andb_true_iff in H as [Hc Ht].
  cbn [single_dashes] in Hs. apply andb_true_iff in Hs as [Hct Hst].
  destruct (IH Ht Hst) as [IH0 IH1].
  cbn [collapse_go]. destruct (p c) eqn:Hp.
  - simpl in Hc. apply N.eqb_eq in Hc as ->. split.
    + f_equal. apply IH1. destruct t as [|b t]; [done|].
      rewrite N.eqb_refl in Hct. simpl in Hct. intros [= ->].
      by rewrite N.eqb_refl in Hct.
    + by intros [].
  - split; intros; by rewrite IH0.
Qed.
End Collapse.

Section Strip.
Context (p : N -> bool).

Lemma lstrip_suffix (s : str) : exists a, s = a ++ lstrip_by p s.
Proof.
  induction s as [|c t [a IH]]; [by exists []|].
  cbn [lstrip_by]. destruct (p c); [|by exists []].
  exists (c :: a). cbn. by f_equal.
Qed.

Lemma rstrip_prefix (s : str) : exists b, s = rstrip_by p s ++ b.
Proof.
  unfold rstrip_by. destruct (lstrip_suffix (reverse s)) as [a H].
  exists (reverse a).
  rewrite <- reverse_app, <- H. by rewrite reverse_involutive.
Qed.

Lemma lstrip_head (s : str) (c : N) :
  head (lstrip_by p s) = Some c -> p c = false.
Proof.
  induction s as [|x t IH]; [done|].
  cbn [lstrip_by]. destruct (p x) eqn:Hx; [done|]. by intros [= <-].
Qed.

Lemma rstrip_last (s : str) (c : N) :
  last (rstrip_by p s) = Some c -> p c = false.
Proof. unfold rstrip_by. rewrite last_reverse. apply lstrip_head. Qed.

Lemma lstrip_fixed (s : str) :
  (forall c, head s = Some c -> p c = false) -> lstrip_by p s = s.
Proof.
  destruct s as [|c t]; [done|]. intros H. cbn [lstrip_by].
  by rewrite (H c eq_refl).
Qed.

Lemma rstrip_fixed (s : str) :
  (forall c, last s = Some c -> p c = false) -> rstrip_by p s = s.
Proof.
  intros H. unfold rstrip_by. rewrite lstrip_fixed.
  - apply reverse_involutive.
  - intros c Hc. apply H. by rewrite <- head_reverse.
Qed.

Lemma strip_infix (s : str) : exists a b, s = a ++ strip_by p s ++ b.
Proof.
  unfold strip_by. destruct (lstrip_suffix s) as [a Ha].
  destruct (rstrip_prefix (lstrip_by p s)) as [b Hb].
  exists a, b. by rewrite <- Hb.
Qed.

Lemma strip_head (s : str) (c : N) :
  head (strip_by p s) = Some c -> p c = false.
Proof.
  unfold strip_by. intros H. apply (lstrip_head s).
  remember (lstrip_by p s) as x eqn:Hx. clear Hx.
  destruct (rstrip_prefix x) as [b Hb].
  rewrite Hb, head_app. by rewrite H.
Qed.

Lemma strip_last (s : str) (c : N) :
  last (strip_by p s) = Some c -> p c = false.
Proof. apply rstrip_last. Qed.

Lemma strip_fixed (s : str) :
  (forall c, head s = Some c -> p c = false) ->
  (forall c, last s = Some c -> p c = false) ->
  strip_by p s = s.
Proof.
  intros Hh Hl. unfold strip_by. rewrite lstrip_fixed by done.
  by apply rstrip_fixed.
Qed.
End Strip.

Lemma single_dashes_app (a b : str) :
  single_dashes (a ++ b) = true ->
  single_dashes a = true /\ single_dashes b = true.
Proof.
  induction a as [|x a IH]; [done|].
  cbn [app single_dashes]. intros [H1 H2]%andb_true_iff.
  destruct (IH H2) as [Ha Hb]. split; [|done].
  rewrite Ha, andb_true_r. destruct a as [|y a]; [done|]. exact H1.
Qed.

(** *** Character facts *)

Ltac char_cases :=
  unfold fragment_char, spec_safe, dash_or_space, ascii_word, ascii_tolower,
    ascii_upper, ascii_lower, ascii_digit, is_ascii, isnt, just in *;
  change (ch "-") with 45 in *; change (ch "<") with 60 in *;
  repeat match goal with
         | |- context [?a <=? ?b] => destruct (N.leb_spec a b)
         | |- context [?a <? ?b] => destruct (N.ltb_spec a b)
         | |- context [?a =? ?b] => destruct (N.eqb_spec a b)
         | H : context [?a <=? ?b] |- _ => destruct (N.leb_spec a b)
         | H : context [?a <? ?b] |- _ => destruct (N.ltb_spec a b)
         | H : context [?a =? ?b] |- _ => destruct (N.eqb_spec a b)
         end;
  simpl in *; try done; try lia.

Ltac char_props :=
  unfold fragment_char, spec_safe, ascii_word, ascii_upper, ascii_lower,
    ascii_digit, is_ascii in *;
  change (ch "-") with 45 in *; change (ch "<") with 60 in *;
  rewrite ?orb_true_iff, ?andb_true_iff, ?orb_false_iff, ?andb_false_iff,
    ?N.leb_le, ?N.leb_gt, ?N.ltb_lt, ?N.eqb_eq, ?N.eqb_neq in *.

Lemma word_tolower (c : N) :
  ascii_word c = true -> fragment_char (ascii_tolower c) = true.
Proof.
  intros H. unfold ascii_tolower.
  destruct (ascii_upper c) eqn:Hu; char_props; lia.
Qed.

Lemma tolower_dash (c : N) : (ascii_tolower c =? ch "-") = (c =? ch "-").
Proof. char_cases. Qed.

Lemma fragment_ascii (c : N) : fragment_char c = true -> is_ascii c = true.
Proof. intros H. char_cases. Qed.

Lemma fragment_tolower (c : N) :
  fragment_char c = true -> ascii_tolower c = c.
Proof. intros H. char_cases. Qed.

Lemma fragment_no_lt (c : N) : fragment_char c = true -> (c =? ch "<") = false.
Proof. intros H. char_cases. Qed.

Lemma fragment_spec_safe (c : N) :
  fragment_char c = true -> spec_safe c = true.
Proof.
  unfold fragment_char, spec_safe, ascii_word. intros H.
  destruct (ascii_lower c), (ascii_digit c), (c =? 95), (c =? ch "-");
    simpl in *; try done; by rewrite ?orb_true_r.
Qed.

Lemma isspace_range (c : N) : isspace c = true -> c <= 32 \/ 133 <= c.
Proof.
  unfold isspace.
  rewrite !orb_true_iff, !andb_true_iff, !N.leb_le, !N.eqb_eq. lia.
Qed.

Lemma fragment_no_space (c : N) : fragment_char c = true -> isspace c = false.
Proof.
  intros H. destruct (isspace c) eqn:Hs; [|done].
  apply isspace_range in Hs. char_cases.
Qed.

Lemma word_no_space (c : N) : ascii_word c = true -> isspace c = false.
Proof.
  intros H. destruct (isspace c) eqn:Hs; [|done].
  apply isspace_range in Hs. char_cases.
Qed.

Lemma fragment_no_run (c : N) :
  fragment_char c = true ->
  negb (dash_or_space c) || (c =? ch "-") = true.
Proof.
  intros H. unfold dash_or_space. rewrite (fragment_no_space c H).
  by destruct (c =? ch "-").
Qed.

Lemma word_ascii (c : N) : ascii_word c = true -> is_ascii c = true.
Proof. intros H. char_cases. Qed.

(** On ASCII the class of the pattern is the class of the specification. *)
Lemma safe_char_ascii (L : pylib) (c : N) :
  ascii_lib L -> is_ascii c = true -> safe_char L c = spec_safe c.
Proof.
  intros [H _] Hc. unfold safe_char, spec_safe, isword, ascii_word.
  by rewrite (H c Hc).
Qed.

Lemma forallb_impl (q1 q2 : N -> bool) (s : str) :
  (forall c, q1 c = true -> q2 c = true) ->
  forallb q1 s = true -> forallb q2 s = true.
Proof.
  intros Hq. induction s as [|c t IH]; [done|]. cbn [forallb].
  intros [H1 H2]%andb_true_iff. by rewrite (Hq c H1), IH.
Qed.

Lemma forallb_and (q1 q2 : N -> bool) (s : str) :
  forallb q1 s = true -> forallb q2 s = true ->
  forallb (fun c => q1 c && q2 c) s = true.
Proof.
  induction s as [|c t IH]; [done|]. cbn [forallb].
  intros [H1 H2]%andb_true_iff [H3 H4]%andb_true_iff.
  by rewrite H1, H3, IH.
Qed.

Lemma filter_ext_forallb (k1 k2 : N -> bool) (s : str) :
  forallb (fun c => bool_decide (k1 c = k2 c)) s = true ->
  filter (fun c => k1 c = true) s = filter (fun c => k2 c = true) s.
Proof.
  induction s as [|c t IH]; [done|]. cbn [forallb].
  intros [H1 H2]%andb_true_iff. apply bool_decide_eq_true in H1.
  rewrite !filter_cons, IH by done. rewrite H1.
  by destruct (decide (k2 c = true)).
Qed.

(** The words of the specification are right on ASCII titles. *)
Lemma sanitize_ascii (L : pylib) (title : str) :
  ascii_lib L -> forallb is_ascii title = true ->
  sanitize L (safe_char L) title = sanitize L spec_safe title.
Proof.
  intros HL Ht. unfold sanitize. do 3 f_equal.
  apply filter_ext_forallb.
  apply (forallb_impl is_ascii); [|by apply forallb_remove_tags].
  intros c Hc. apply bool_decide_eq_true. by apply safe_char_ascii.
Qed.

Lemma single_dashes_tolower (s : str) :
  single_dashes (map ascii_tolower s) = single_dashes s.
Proof.
  induction s as [|a t IH]; [done|].
  cbn [map single_dashes]. rewrite IH. f_equal.
  destruct t as [|b t]; [done|]. cbn [map]. by rewrite !tolower_dash.
Qed.

Lemma head_tolower_dash (s : str) :
  head (map ascii_tolower s) = Some (ch "-") -> head s = Some (ch "-").
Proof.
  destruct s as [|c t]; [done|]. cbn. intros [= H]. f_equal.
  apply N.eqb_eq. rewrite <- tolower_dash. by apply N.eqb_eq.
Qed.

Lemma last_tolower_dash (s : str) :
  last (map ascii_tolower s) = Some (ch "-") -> last s = Some (ch "-").
Proof.
  induction s as [|a [|b t] IH]; [done| |].
  - cbn. intros [= H]. f_equal.
    apply N.eqb_eq. rewrite <- tolower_dash. by apply N.eqb_eq.
  - cbn [map]. rewrite !last_cons_cons. exact IH.
Qed.

Lemma remove_tags_fixed (s : str) :
  forallb (isnt (ch "<")) s = true -> remove_tags s = s.
Proof.
  unfold remove_tags. induction s as [|c t IH]; [done|].
  cbn [forallb]. intros [Hc Ht]%andb_true_iff.
  cbn [remove_tags_go]. unfold isnt in Hc. apply negb_true_iff in Hc.
  by rewrite Hc, IH.
Qed.

Lemma map_tolower_fixed (s : str) :
  forallb fragment_char s = true -> map ascii_tolower s = s.
Proof.
  induction s as [|c t IH]; [done|]. cbn [forallb map].
  intros [Hc Ht]%andb_true_iff. by rewrite fragment_tolower, IH.
Qed.

Lemma forallb_map (q : N -> bool) (f : N -> N) (s : str) :
  forallb q (map f s) = forallb (fun c => q (f c)) s.
Proof. induction s as [|c t IH]; [done|]. cbn [map forallb]. by rewrite IH. Qed.

Section Sanitized.
Context (L : pylib) (HL : ascii_lib L).

Lemma collapsed_chars (s : str) :
  forallb is_ascii s = true ->
  forallb word_or_dash
    (collapse dash_or_space
       (filter (fun c => safe_char L c = true) (remove_tags s))) = true.
Proof.
  intros Hs. unfold collapse.
  eapply forallb_impl;
    [|apply (forallb_collapse dash_or_space word_or_dash)].
  - intros c. unfold word_or_dash.
    by destruct (dash_or_space c), (ascii_word c), (c =? ch "-").
  - unfold word_or_dash. by rewrite N.eqb_refl, orb_true_r.
  - eapply forallb_impl;
      [|apply (forallb_and (safe_char L) is_ascii);
        [apply forallb_filter_keep
        |by apply forallb_filter, forallb_remove_tags]].
    intros c [H1 H2]%andb_true_iff. cbv beta.
    rewrite (safe_char_ascii L c HL H2) in H1.
    unfold spec_safe in H1. unfold dash_or_space, word_or_dash.
    destruct (ascii_word c), (isspace c), (c =? ch "-"); done.
Qed.

Lemma word_or_dash_fragment (c : N) :
  word_or_dash c = true -> fragment_char (ascii_tolower c) = true.
Proof.
  unfold word_or_dash. intros [H|H]%orb_true_iff.
  - by apply word_tolower.
  - apply N.eqb_eq in H as ->. reflexivity.
Qed.

Lemma word_or_dash_ascii (c : N) :
  word_or_dash c = true -> is_ascii c = true.
Proof.
  unfold word_or_dash. intros [H|H]%orb_true_iff.
  - by apply word_ascii.
  - apply N.eqb_eq in H as ->. reflexivity.
Qed.

Lemma clean_filename_sanitized (s : str) :
  forallb is_ascii s = true -> sanitized (clean_filename L s).
Proof.
  intros Hs. rewrite clean_filename_sanitize. unfold sanitize.
  pose proof (collapsed_chars s Hs) as Hc.
  destruct (single_dashes_collapse dash_or_space eq_refl
              (filter (fun c => safe_char L c = true) (remove_tags s))
              false) as [Hd _].
  fold (collapse dash_or_space
          (filter (fun c => safe_char L c = true) (remove_tags s))) in Hd.
  remember (collapse dash_or_space
              (filter (fun c => safe_char L c = true) (remove_tags s)))
    as C eqn:HC. clear HC.
  destruct (strip_infix (just (ch "-")) C) as (a & b & Hab).
  pose proof (strip_head (just (ch "-")) C) as Hhead.
  pose proof (strip_last (just (ch "-")) C) as Hlast.
  remember (strip_by (just (ch "-")) C) as D eqn:HD. clear HD.
  subst C.
  rewrite !forallb_app in Hc.
  apply andb_true_iff in Hc as [_ [Hc _]%andb_true_iff].
  apply single_dashes_app in Hd as [_ Hd].
  apply single_dashes_app in Hd as [Hd _].
  destruct HL as [_ Hlower].
  rewrite Hlower by (eapply forallb_impl; [apply word_or_dash_ascii|done]).
  repeat split.
  - rewrite forallb_map.
    eapply forallb_impl; [|exact Hc]. apply word_or_dash_fragment.
  - by rewrite single_dashes_tolower.
  - intros H%head_tolower_dash. apply Hhead in H.
    unfold just in H. by rewrite N.eqb_refl in H.
  - intros H%last_tolower_dash. apply Hlast in H.
    unfold just in H. by rewrite N.eqb_refl in H.
Qed.

Lemma sanitized_fixed (r : str) :
  sanitized r -> clean_filename L r = r.
Proof.
  intros (Hc & Hd & Hh & Hl).
  rewrite clean_filename_sanitize. unfold sanitize.
  rewrite remove_tags_fixed.
  2:{ eapply forallb_impl; [|exact Hc]. intros c H. unfold isnt.
      by rewrite fragment_no_lt. }
  rewrite filter_all.
  2:{ eapply forallb_impl; [|exact Hc]. intros c H.
      rewrite (safe_char_ascii L c HL) by by apply fragment_ascii.
      by apply fragment_spec_safe. }
  unfold collapse.
  rewrite (proj1 (collapse_fixed dash_or_space r
             ltac:(eapply forallb_impl; [apply fragment_no_run|exact Hc])
             Hd)).
  rewrite strip_fixed.
  - destruct HL as [_ Hlower].
    rewrite Hlower
      by (eapply forallb_impl; [apply fragment_ascii|exact Hc]).
    by apply map_tolower_fixed.
  - intros c H. unfold just. apply N.eqb_neq. by intros ->.
  - intros c H. unfold just. apply N.eqb_neq. by intros ->.
Qed.
End Sanitized.

Lemma sanitized_form_fixed (L : pylib) (r : str) :
  sanitized_form L r -> clean_filename L r = r.
Proof.
  intros (Hc & Hd & Hh & Hl & Hlow).
  rewrite clean_filename_sanitize. unfold sanitize.
  rewrite remove_tags_fixed.
  2:{ eapply forallb_impl; [|exact Hc]. intros c. unfold name_char, isnt.
      destruct (c =? ch "-") eqn:E.
      - apply N.eqb_eq in E as ->. reflexivity.
      - cbn [orb]. by intros [_ ?]%andb_true_iff. }
  rewrite filter_all.
  2:{ eapply forallb_impl; [|exact Hc]. intros c.
      unfold name_char, safe_char.
      destruct (c =? ch "-"); [by rewrite orb_true_r|].
      cbn [orb]. by intros [[-> _]%andb_true_iff _]%andb_true_iff. }
  unfold collapse.
  rewrite (proj1 (collapse_fixed dash_or_space r
             ltac:(eapply forallb_impl; [|exact Hc];
                   intros c; unfold name_char, dash_or_space;
                   destruct (c =? ch "-"); [done|]; cbn [orb];
                   intros [[_ ->%negb_true_iff]%andb_true_iff _]
                     %andb_true_iff; done)
             Hd)).
  rewrite strip_fixed; [done| |].
  - intros c H. unfold just. apply N.eqb_neq. by intros ->.
  - intros c H. unfold just. apply N.eqb_neq. by intros ->.
Qed.

Lemma sanitized_sanitized_form (L : pylib) (r : str) :
  ascii_lib L -> sanitized r -> sanitized_form L r.
Proof.
  intros HL (Hc & Hd & Hh & Hl). repeat split; try done.
  - eapply forallb_impl; [|exact Hc]. intros c H. unfold name_char.
    destruct (c =? ch "-") eqn:E; [done|]. cbn [orb].
    rewrite (fragment_no_space c H), (fragment_no_lt c H).
    rewrite andb_true_r. cbn [negb]. rewrite andb_true_r.
    pose proof (safe_char_ascii L c HL (fragment_ascii c H)) as Hs.
    pose proof (fragment_spec_safe c H) as Hf.
    rewrite <- Hs in Hf. unfold safe_char in Hf.
    by rewrite (fragment_no_space c H), E, !orb_false_r in Hf.
  - destruct HL as [_ Hlower].
    rewrite Hlower
      by (eapply forallb_impl; [apply fragment_ascii|exact Hc]).
    by apply map_tolower_fixed.
Qed.

Lemma cpython_ascii_lib : ascii_lib CPython.lib.
Proof.
  split.
  - intros c Hc. apply N.ltb_lt in Hc. cbn [isalnum CPython.lib].
    unfold CPython.isalnum, CPython.between.
    repeat match goal with
           | |- context [c =? ?k] =>
               rewrite (proj2 (N.eqb_neq c k)) by lia
           | |- context [?k <=? c] =>
               rewrite (proj2 (N.leb_gt k c)) by lia
           end.
    cbn [andb]. by rewrite !orb_false_r.
  - intros s Hs. cbn [lower CPython.lib]. unfold CPython.lower.
    induction s as [|c t IH]; [done|]. cbn [forallb] in Hs.
    apply andb_true_iff in Hs as [Hc Ht]. cbn [map concat].
    rewrite IH by done. apply N.ltb_lt in Hc.
    unfold CPython.lower_char, ascii_tolower, CPython.between.
    destruct (ascii_upper c); [done|].
    rewrite (proj2 (N.leb_gt 192 c)), (proj2 (N.leb_gt 216 c)),
      (proj2 (N.eqb_neq c 304)) by lia.
    done.
Qed.

(** No word character of the fragment is whitespace or [<]: there a
    [name_char] is a hyphen or a word character, no more. *)
Lemma cpython_name_char (c : N) :
  name_char CPython.lib c = (c =? ch "-") || isword CPython.lib c.
Proof.
  unfold name_char. destruct (isword CPython.lib c) eqn:Hw; [|done].
  cbn [andb].
  assert (isspace c = false /\ (c =? ch "<") = false) as [-> ->]; [|done].
  unfold isword in Hw. cbn [isalnum CPython.lib] in Hw.
  unfold CPython.isalnum, CPython.between, ascii_upper, ascii_lower,
    ascii_digit in Hw.
  rewrite !orb_true_iff, !andb_true_iff, !N.leb_le, !N.eqb_eq in Hw.
  split.
  - destruct (isspace c) eqn:E; [|done]. unfold isspace in E.
    rewrite !orb_true_iff, !andb_true_iff, !N.leb_le, !N.eqb_eq in E. lia.
  - apply N.eqb_neq. change (ch "<") with 60. lia.
Qed.

(** ** Titles to file names *)

(** C6, as stated, fails: U+00E9 is outside [[A-Za-z0-9_\s-]], and
    [clean_filename] keeps it, because [\w] in a [str] pattern follows the
    Unicode database. *)
Lemma clean_filename_keeps_unicode_letters :
  clean_filename CPython.lib cafe_title = u "caf" ++ [233]
  /\ sanitize CPython.lib spec_safe cafe_title = u "caf"
  /\ clean_filename CPython.lib cafe_title
     <> sanitize CPython.lib spec_safe cafe_title.
Proof. repeat split; vm_compute; done. Qed.

(** C6, amended: [clean_filename] removes embedded tags, deletes every
    character that is neither a word character of [\w] (alphanumeric in
    the Unicode sense, or the underscore), nor whitespace, nor a hyphen,
    collapses runs of whitespace and hyphens to single hyphens, strips
    hyphens at both ends and lower-cases.  On ASCII titles the class is
    [[A-Za-z0-9_\s-]], and [My QCrazyQ Title!!!] gives [my-crazy-title]. *)
Theorem clean_filename_steps (L : pylib) (title : str) :
  clean_filename L title = sanitize L (safe_char L) title
  /\ (ascii_lib L -> forallb is_ascii title = true ->
      clean_filename L title = sanitize L spec_safe title)
  /\ clean_filename CPython.lib crazy_title = u "my-crazy-title".
Proof.
  split; [apply clean_filename_sanitize|]. split.
  - intros HL Ht. rewrite clean_filename_sanitize. by apply sanitize_ascii.
  - vm_compute. reflexivity.
Qed.

Lemma clean_filename_steps_witness :
  clean_filename CPython.lib crazy_title
  = sanitize CPython.lib spec_safe crazy_title.
Proof.
  apply (proj1 (proj2 (clean_filename_steps CPython.lib crazy_title))).
  - exact cpython_ascii_lib.
  - vm_compute. reflexivity.
Defined.

(** C10, as stated, fails: U+0130 lower-cases to [i] followed by U+0307,
    a combining mark that [\w] does not match, so a second pass deletes
    what the first pass produced.  The first result is not in sanitized
    form. *)
Lemma clean_filename_not_idempotent :
  clean_filename CPython.lib [304] = [105; 775]
  /\ clean_filename CPython.lib (clean_filename CPython.lib [304])
     <> clean_filename CPython.lib [304]
  /\ ~ sanitized_form CPython.lib (clean_filename CPython.lib [304]).
Proof.
  split; [vm_compute; done|]. split; [vm_compute; done|].
  intros (H & _). vm_compute in H. done.
Qed.

(** C10, amended: a text in sanitized form is a fixed point of
    [clean_filename], in every alphabet: the form is hyphens and word
    characters of [\w] only, no two hyphens in a row, no hyphen at either
    end, and a text that [lower()] leaves as it is.  So
    [clean_filename(clean_filename(s))] equals [clean_filename(s)] for
    every title [s] whose first result is in that form.  The result of
    every ASCII title is: there the form is lower-case letters, digits,
    underscores and single interior hyphens.  The form asks of a word
    character that it is neither whitespace nor [<]; with the tables of
    Python that is no condition. *)
Theorem clean_filename_idempotent (L : pylib) (s : str) :
  (forall r, sanitized_form L r -> clean_filename L r = r)
  /\ (sanitized_form L (clean_filename L s) ->
      clean_filename L (clean_filename L s) = clean_filename L s)
  /\ (ascii_lib L ->
      (forall r, sanitized r -> sanitized_form L r)
      /\ (forallb is_ascii s = true ->
          sanitized (clean_filename L s)
          /\ clean_filename L (clean_filename L s) = clean_filename L s))
  /\ (forall c,
       name_char CPython.lib c = (c =? ch "-") || isword CPython.lib c).
Proof.
  split; [apply sanitized_form_fixed|].
  split; [apply sanitized_form_fixed|].
  split; [|apply cpython_name_char].
  intros HL. split; [intros r; by apply sanitized_sanitized_form|].
  intros Hs.
  pose proof (clean_filename_sanitized L HL s Hs) as H.
  split; [done|].
  by apply sanitized_form_fixed, sanitized_sanitized_form.
Qed.

Lemma clean_filename_idempotent_witness :
  clean_filename CPython.lib (u "caf" ++ [233]) = u "caf" ++ [233]
  /\ clean_filename CPython.lib (clean_filename CPython.lib cafe_title)
     = clean_filename CPython.lib cafe_title
  /\ clean_filename CPython.lib (clean_filename CPython.lib crazy_title)
     = clean_filename CPython.lib crazy_title.
Proof.
  split; [|split].
  - apply (proj1 (clean_filename_idempotent CPython.lib [])).
    repeat split; vm_compute; congruence.
  - apply (proj1 (proj2 (clean_filename_idempotent CPython.lib cafe_title))).
    repeat split; vm_compute; congruence.
  - refine (proj2 (proj2 (proj1 (proj2 (proj2
              (clean_filename_idempotent CPython.lib crazy_title)))
              cpython_ascii_lib) _)).
    vm_compute. reflexivity.
Defined.

(** ** Literals that occur nowhere *)

Lemma contains_absent_char (c : N) (p s : str) :
  forallb (isnt c) s = true -> contains (c :: p) s = false.
Proof.
  induction s as [|x t IH]; [done|]. cbn [forallb contains startswith].
  intros [Hx Ht]%andb_true_iff. rewrite IH by done.
  unfold isnt in Hx. apply negb_true_iff in Hx.
  by rewrite N.eqb_sym, Hx.
Qed.

Lemma after_lt_none (P : str -> bool) (s : str) :
  forallb (isnt (ch "<")) s = true -> after_lt P s = true.
Proof.
  induction s as [|x t IH]; [done|]. cbn [forallb after_lt].
  intros [Hx Ht]%andb_true_iff. unfold isnt in Hx.
  apply negb_true_iff in Hx. by rewrite Hx, IH.
Qed.

Lemma after_lt_app (P : str -> bool) (a b : str) :
  (forall t w, P t = true -> P (t ++ w) = true) ->
  after_lt P a = true -> after_lt P b = true -> after_lt P (a ++ b) = true.
Proof.
  intros HP. induction a as [|x a IH]; [done|].
  cbn [app after_lt]. intros [Hx Ha]%andb_true_iff Hb.
  rewrite IH by done. rewrite andb_true_r.
  destruct (x =? ch "<"); [by apply HP|done].
Qed.

Lemma head_in_app (T : N -> bool) (t w : str) :
  head_in T t = true -> head_in T (t ++ w) = true.
Proof. by destruct t. Qed.

(** A literal [<c...] is not in a text where no [<] is followed by [c]. *)
Lemma contains_after_lt (T : N -> bool) (p s : str) :
  match p with
  | a :: c :: _ => (a =? ch "<") && negb (T c)
  | _ => false
  end = true ->
  after_lt (head_in T) s = true -> contains p s = false.
Proof.
  destruct p as [|a [|c p]]; try done.
  intros [->%N.eqb_eq Hc%negb_true_iff]%andb_true_iff.
  induction s as [|x t IH]; [done|]. cbn [after_lt contains startswith].
  intros [Hx Ht]%andb_true_iff. rewrite IH by done. rewrite orb_false_r.
  rewrite N.eqb_sym. destruct (x =? ch "<"); [|done].
  destruct t as [|d t]; [done|]. cbn in Hx. cbn [startswith andb].
  destruct (N.eqb_spec c d) as [->|]; [|done]. by rewrite Hx in Hc.
Qed.

(** The same for a literal that would start inside [s] and run on into
    what follows [s]. *)
Lemma starts_nowhere_after_lt (P : str -> bool) (p s z : str) :
  (forall t, P t = true -> startswith p (t ++ z) = false) ->
  after_lt P s = true ->
  forall i, (i < length s)%nat ->
    startswith (ch "<" :: p) (drop i s ++ z) = false.
Proof.
  intros HP. induction s as [|x t IH]; intros Hs i Hi; [simpl in Hi; lia|].
  cbn [after_lt] in Hs. apply andb_true_iff in Hs as [Hx Ht].
  destruct i as [|i].
  - cbn [drop app startswith]. rewrite N.eqb_sym.
    destruct (x =? ch "<"); [|done]. cbn [andb]. by apply HP.
  - cbn [drop]. apply IH; [done|]. simpl in Hi. lia.
Qed.

Lemma starts_nowhere_plain (p s z : str) :
  forallb (isnt (ch "<")) s = true ->
  forall i, (i < length s)%nat ->
    startswith (ch "<" :: p) (drop i s ++ z) = false.
Proof.
  intros Hs. apply (starts_nowhere_after_lt (fun _ => false)); [done|].
  by apply after_lt_none.
Qed.

(** *** One element *)

Lemma forallb_any (s : str) : forallb any s = true.
Proof. by induction s. Qed.

Lemma rep_greedy_stop {A : Type} (p : N -> bool) (c : N) (t : str)
    (k : str -> option A) :
  p c = false -> rep_greedy p 0 (c :: t) k = k (c :: t).
Proof. intros H. cbn [rep_greedy]. by rewrite H. Qed.

Lemma match_element (name : string) (body rest : str) :
  (forall i, (i < length body)%nat ->
     startswith (u "</" ++ u name ++ u ">")
       (drop i body ++ (u "</" ++ u name ++ u ">") ++ rest) = false) ->
  match_here (re_element name) 1
    ((u "<" ++ u name) ++ u ">" ++ body ++ (u "</" ++ u name ++ u ">") ++ rest)
  = Some (length ((u "<" ++ u name) ++ u ">" ++ body
                  ++ (u "</" ++ u name ++ u ">")),
          [Some body]).
Proof.
  intros Hclose. unfold match_here, re_element. cbn [rmatch].
  rewrite startswith_app, drop_app_length.
  set (close := u "</" ++ u name ++ u ">") in *.
  set (s0 := body ++ close ++ rest).
  change (u ">" ++ s0) with (ch ">" :: s0).
  rewrite rep_greedy_stop by (unfold isnt; by rewrite N.eqb_refl).
  replace (startswith (u ">") (ch ">" :: s0)) with true by reflexivity.
  change (drop (length (u ">")) (ch ">" :: s0)) with s0.
  unfold s0 at 1. rewrite rep_lazy_first; [|apply forallb_any|].
  2:{ intros i Hi. by rewrite Hclose. }
  erewrite rep_lazy_now; [reflexivity|].
  rewrite startswith_app, drop_app_length.
  do 2 f_equal.
  - unfold s0. rewrite !length_app, length_cons, !length_app.
    change (length (u ">")) with 1%nat. lia.
  - unfold s0. rewrite !length_app.
    replace (_ + _ - _)%nat with (length body) by lia.
    by rewrite take_app_length.
Qed.

Lemma scan_element (name : string) (body rest : str) :
  (forall i, (i < length body)%nat ->
     startswith (u "</" ++ u name ++ u ">")
       (drop i body ++ (u "</" ++ u name ++ u ">") ++ rest) = false) ->
  scan (re_element name) 1 0
    (((u "<" ++ u name) ++ u ">" ++ body ++ (u "</" ++ u name ++ u ">"))
     ++ rest)
  = Hit [Some body] :: scan (re_element name) 1 0 rest.
Proof.
  intros H. apply scan_hit.
  - change (u "<") with [ch "<"]. done.
  - rewrite <- (match_element name body rest H).
    by rewrite <- !app_assoc.
Qed.

Lemma scan_element_end (name : string) :
  scan (re_element name) 1 0 [] = [].
Proof. reflexivity. Qed.

(** *** The items of a list *)

Lemma li_html_shape (x : str) :
  li_html x = (u "<" ++ u "li") ++ u ">" ++ x ++ (u "</" ++ u "li" ++ u ">").
Proof. reflexivity. Qed.

Lemma findall_items (items : list str) :
  Forall (fun x => forallb (isnt (ch "<")) x = true) items ->
  re_findall (re_element "li") 1 (concat (map li_html items))
  = map (fun x => [Some x]) items.
Proof.
  unfold re_findall. induction 1 as [|x items Hx _ IH]; [done|].
  cbn [map concat]. rewrite li_html_shape, scan_element.
  - cbn [omap list_omap]. cbn [omap list_omap] in IH. by rewrite IH.
  - intros i Hi. by apply starts_nowhere_plain.
Qed.

Lemma plain_no_lt (x : str) :
  forallb plain_char x = true -> forallb (isnt (ch "<")) x = true.
Proof.
  apply forallb_impl. intros c. unfold plain_char, isnt.
  by destruct (c =? ch "<").
Qed.

Lemma plain_no_amp (x : str) :
  forallb plain_char x = true -> forallb (isnt (ch "&")) x = true.
Proof.
  apply forallb_impl. intros c. unfold plain_char, isnt.
  by destruct (c =? ch "<"), (c =? ch "&").
Qed.

Lemma plain_no_nl (x : str) :
  forallb plain_char x = true -> forallb (isnt nl) x = true.
Proof.
  apply forallb_impl. intros c. unfold plain_char, isnt.
  by destruct (c =? ch "<"), (c =? ch "&"), (c =? nl).
Qed.

Lemma list_item_plain (ordered : bool) (i : nat) (x : str) :
  plain_item x ->
  list_item ordered i [Some x]
  = if ordered then numbered i (strip x) else dashed (strip x).
Proof.
  intros (Hp & _). unfold list_item, numbered, dashed.
  change (grp [Some x] 0) with x.
  rewrite re_sub_tag_remove, remove_tags_fixed by by apply plain_no_lt.
  by rewrite Nat.add_1_r.
Qed.

Lemma plain_item_trimmed (x : str) : plain_item x -> trimmed_item (strip x).
Proof.
  intros (Hp & Hne). split; [done|]. split.
  - destruct (strip_infix isspace x) as (a & b & Hab).
    fold (strip x) in Hab. rewrite Hab, !forallb_app in Hp.
    by apply andb_true_iff in Hp as [_ [Hp _]%andb_true_iff].
  - apply strip_fixed; intros c Hc.
    + by apply strip_head in Hc.
    + by apply strip_last in Hc.
Qed.

Lemma Forall_plain_trimmed (items : list str) :
  Forall plain_item items -> Forall trimmed_item (map strip items).
Proof.
  induction 1 as [|x l Hx _ IH]; [constructor|].
  cbn [map]. constructor; [by apply plain_item_trimmed|done].
Qed.

Lemma imap_items (f : nat -> caps -> str) (g : nat -> str -> str)
    (items : list str) :
  Forall plain_item items ->
  (forall i x, plain_item x -> f i [Some x] = g i (strip x)) ->
  imap f (map (fun x => [Some x]) items) = imap g (map strip items).
Proof.
  intros H. revert f g. induction H as [|x items Hx _ IH]; intros f g Hfg;
    [done|].
  cbn [map]. rewrite !imap_cons. rewrite Hfg by done. f_equal.
  apply IH. intros i y Hy. by apply Hfg.
Qed.

Lemma imap_dashed (items : list str) :
  imap (fun _ => dashed) items = map dashed items.
Proof.
  induction items as [|x items IH]; [done|].
  rewrite imap_cons. cbn [map]. by rewrite <- IH.
Qed.

Lemma convert_list_items (ordered : bool) (items : list str) :
  Forall plain_item items ->
  convert_list (concat (map li_html items)) ordered
  = [nl] ++ join [nl] (if ordered then imap numbered (map strip items)
                        else map dashed (map strip items)) ++ [nl].
Proof.
  intros H. unfold convert_list. rewrite findall_items.
  2:{ eapply Forall_impl; [exact H|]. intros x (Hp & _).
      by apply plain_no_lt. }
  do 3 f_equal. destruct ordered.
  - apply imap_items; [done|]. intros i x Hx. by apply list_item_plain.
  - rewrite <- imap_dashed. apply imap_items; [done|].
    intros i x Hx. by apply list_item_plain.
Qed.

(** *** The lines of a converted list *)

Lemma digits_of_uint_digits (d : Decimal.uint) :
  forallb ascii_digit (digits_of_uint d) = true.
Proof. induction d; cbn [digits_of_uint forallb]; by rewrite ?IHd. Qed.

Lemma str_of_nat_digits (n : nat) : forallb ascii_digit (str_of_nat n) = true.
Proof. apply digits_of_uint_digits. Qed.

Lemma str_of_nat_head (n : nat) :
  exists c t, str_of_nat n = c :: t /\ ascii_digit c = true.
Proof.
  pose proof (str_of_nat_digits n) as H. unfold str_of_nat in *.
  destruct (Nat.to_uint n) eqn:E;
    try (cbn [digits_of_uint forallb] in *; eexists _, _; split;
         [reflexivity|reflexivity]).
  pose proof (DecimalNat.Unsigned.of_to n) as Hn. rewrite E in Hn.
  cbn in Hn. subst n. discriminate E.
Qed.

Lemma digit_no_space (c : N) : ascii_digit c = true -> isspace c = false.
Proof.
  intros H. destruct (isspace c) eqn:Hs; [|done].
  apply isspace_range in Hs. unfold ascii_digit in H.
  apply andb_true_iff in H as [H1%N.leb_le H2%N.leb_le]. lia.
Qed.

Lemma digit_plain (c : N) : ascii_digit c = true -> plain_char c = true.
Proof.
  unfold ascii_digit, plain_char. change (ch "<") with 60.
  change (ch "&") with 38. change nl with 10.
  intros [H1%N.leb_le H2%N.leb_le]%andb_true_iff.
  rewrite !(proj2 (N.eqb_neq c _)) by lia. done.
Qed.

Lemma stripped_ends (x : str) :
  strip x = x ->
  (forall c, head x = Some c -> isspace c = false)
  /\ (forall c, last x = Some c -> isspace c = false).
Proof.
  unfold strip. intros H. split; intros c Hc; rewrite <- H in Hc.
  - by apply strip_head in Hc.
  - by apply strip_last in Hc.
Qed.

Lemma numbered_plain (i : nat) (x : str) :
  forallb plain_char x = true -> forallb plain_char (numbered i x) = true.
Proof.
  intros H. unfold numbered. rewrite !forallb_app, H.
  replace (forallb plain_char (u ". ")) with true by reflexivity.
  rewrite (forallb_impl ascii_digit plain_char _ digit_plain
             (str_of_nat_digits (S i))).
  done.
Qed.

Lemma dashed_plain (x : str) :
  forallb plain_char x = true -> forallb plain_char (dashed x) = true.
Proof. intros H. unfold dashed. by rewrite forallb_app, H. Qed.

Lemma numbered_solid (i : nat) (x : str) : trimmed_item x -> solid (numbered i x).
Proof.
  intros (Hne & Hp & Hs). destruct (stripped_ends x Hs) as [_ Hl].
  destruct (str_of_nat_head (S i)) as (c & t & E & Hc).
  unfold solid, numbered. rewrite E. repeat split.
  - done.
  - rewrite <- E. apply plain_no_nl. by apply (numbered_plain i x).
  - cbn. intros ? [= <-]. by apply digit_no_space.
  - intros d Hd. apply Hl. rewrite !app_assoc in Hd.
    rewrite last_app in Hd. destruct (last x) eqn:Hx; [congruence|].
    apply last_is_Some in Hne. rewrite Hx in Hne. by destruct Hne.
Qed.

Lemma dashed_solid (x : str) : trimmed_item x -> solid (dashed x).
Proof.
  intros (Hne & Hp & Hs). destruct (stripped_ends x Hs) as [_ Hl].
  unfold solid, dashed. repeat split.
  - done.
  - apply plain_no_nl. by apply (dashed_plain x).
  - cbn. by intros ? [= <-].
  - intros d Hd. apply Hl. rewrite last_app in Hd.
    destruct (last x) eqn:Hx; [congruence|].
    apply last_is_Some in Hne. rewrite Hx in Hne. by destruct Hne.
Qed.

Lemma Forall_imap_numbered (P : str -> Prop) (items : list str) :
  Forall trimmed_item items ->
  (forall i x, trimmed_item x -> P (numbered i x)) ->
  Forall P (imap numbered items).
Proof.
  intros H. generalize numbered as f.
  induction H as [|x items Hx _ IH]; intros f Hf; [constructor|].
  rewrite imap_cons. constructor; [by apply Hf|].
  apply IH. intros i y Hy. by apply Hf.
Qed.

Lemma forallb_join (q : N -> bool) (sep : str) (ls : list str) :
  forallb q sep = true -> Forall (fun l => forallb q l = true) ls ->
  forallb q (join sep ls) = true.
Proof.
  intros Hsep. induction 1 as [|l ls Hl _ IH]; [done|].
  destruct ls as [|l' ls]; [done|].
  change (join sep (l :: l' :: ls)) with (l ++ sep ++ join sep (l' :: ls)).
  by rewrite !forallb_app, Hl, Hsep, IH.
Qed.

Lemma nl_next_skip (a b : str) :
  forallb (isnt nl) a = true -> nl_next (a ++ b) = nl_next b.
Proof.
  induction a as [|c a IH]; [done|]. cbn [forallb app nl_next].
  intros [Hc Ha]%andb_true_iff. unfold isnt in Hc.
  apply negb_true_iff in Hc. by rewrite Hc, IH.
Qed.

(** The lines joined by line feeds, with one more after the last. *)
Lemma joined_lines (ls : list str) :
  Forall solid ls -> ls <> [] ->
  nl_next (join [nl] ls ++ [nl]) = true
  /\ (forall c, head (join [nl] ls ++ [nl]) = Some c -> isspace c = false)
  /\ join [nl] ls <> []
  /\ (forall c, last (join [nl] ls) = Some c -> isspace c = false).
Proof.
  induction 1 as [|l ls Hl _ IH]; [done|]. intros _.
  destruct Hl as (Hne & Hnl & Hh & Ht).
  destruct ls as [|l' ls].
  - cbn [join]. rewrite nl_next_skip by done. repeat split; try done.
    intros c. rewrite head_app. destruct (head l) eqn:E; [|by destruct l].
    intros [= <-]. by apply Hh.
  - destruct (IH ltac:(done)) as (I1 & I2 & I3 & I4).
    change (join [nl] (l :: l' :: ls))
      with (l ++ [nl] ++ join [nl] (l' :: ls)).
    remember (join [nl] (l' :: ls)) as J eqn:HJ. clear HJ.
    repeat split.
    + rewrite <- !app_assoc. rewrite nl_next_skip by done.
      cbn [app nl_next]. rewrite N.eqb_refl, I1, andb_true_r.
      destruct (J ++ [nl]) as [|d ?] eqn:E; [done|].
      by rewrite (I2 d eq_refl).
    + intros c. rewrite <- !app_assoc, head_app.
      destruct (head l) eqn:E; [|by destruct l]. intros [= <-]. by apply Hh.
    + by destruct l.
    + intros c. rewrite !last_app. destruct (last J) eqn:E.
      * intros [= <-]. by apply I4.
      * apply last_is_Some in I3. rewrite E in I3. by destruct I3.
Qed.

Lemma lstrip_space_nl (s : str) :
  lstrip_by isspace (nl :: s) = lstrip_by isspace s.
Proof. reflexivity. Qed.

Lemma rstrip_space_nl (s : str) :
  rstrip_by isspace (s ++ [nl]) = rstrip_by isspace s.
Proof. unfold rstrip_by. by rewrite reverse_app. Qed.

Lemma strip_joined_lines (ls : list str) :
  Forall solid ls -> ls <> [] ->
  strip ([nl] ++ join [nl] ls ++ [nl]) = join [nl] ls.
Proof.
  intros H Hne. destruct (joined_lines ls H Hne) as (_ & H2 & H3 & H4).
  unfold strip, strip_by. cbn [app]. rewrite lstrip_space_nl.
  rewrite lstrip_fixed by done. rewrite rstrip_space_nl.
  by apply rstrip_fixed.
Qed.

(** [blank_lines] finds nothing where no line is blank. *)
Lemma match_here_blank_lines (c : N) (t : str) :
  (c =? nl) = false \/ head_in (fun d => negb (isspace d)) t = true
                       \/ t = [] ->
  match_here blank_lines 0 (c :: t) = None.
Proof.
  intros H. unfold match_here, blank_lines. cbn [rmatch startswith].
  rewrite (N.eqb_sym nl c). destruct (c =? nl) eqn:Hc; [|done].
  cbn [andb length drop]. rewrite drop_0.
  destruct H as [H|[H| ->]]; [done| |done].
  destruct t as [|d t]; [done|]. cbn in H. apply negb_true_iff in H.
  rewrite rep_greedy_stop by done. cbn [startswith].
  destruct (N.eqb_spec nl d) as [<-|]; [done|done].
Qed.

Lemma re_sub_blank_lines_absent (repl : caps -> str) (s : str) :
  nl_next s = true -> re_sub blank_lines 0 repl s = s.
Proof.
  induction s as [|c t IH]; [done|]. cbn [nl_next].
  intros [Hc Ht]%andb_true_iff.
  rewrite re_sub_miss, IH; [done|done|].
  apply match_here_blank_lines.
  destruct (c =? nl); [|by left]. right.
  destruct t as [|d t]; [by right|by left].
Qed.

(** ** A flat list through [html_to_markdown] *)

Lemma contains_no_lt (p s : str) :
  head p = Some (ch "<") -> forallb (isnt (ch "<")) s = true ->
  contains p s = false.
Proof.
  destruct p as [|a p]; [done|]. intros [= ->]. apply contains_absent_char.
Qed.

Lemma re_sub_element_absent (name : string) (repl : caps -> str) (s : str) :
  contains (u "<" ++ u name) s = false ->
  re_sub (re_element name) 1 repl s = s.
Proof. apply re_sub_absent. Qed.

Lemma re_sub_element_whole (name : string) (repl : caps -> str) (body : str) :
  (forall i, (i < length body)%nat ->
     startswith (u "</" ++ u name ++ u ">")
       (drop i body ++ (u "</" ++ u name ++ u ">") ++ []) = false) ->
  re_sub (re_element name) 1 repl
    (u "<" ++ u name ++ u ">" ++ body ++ u "</" ++ u name ++ u ">")
  = repl [Some body].
Proof.
  intros H. unfold re_sub.
  replace (u "<" ++ u name ++ u ">" ++ body ++ u "</" ++ u name ++ u ">")
    with (((u "<" ++ u name) ++ u ">" ++ body ++ (u "</" ++ u name ++ u ">"))
          ++ []) by (by rewrite app_nil_r, <- !app_assoc).
  rewrite scan_element by done. rewrite scan_element_end.
  cbn [map emit concat]. by rewrite app_nil_r.
Qed.

Lemma items_forallb (q : N -> bool) (items : list str) :
  Forall (fun x => forallb q x = true) items ->
  forallb q (u "<li>") = true -> forallb q (u "</li>") = true ->
  forallb q (concat (map li_html items)) = true.
Proof.
  intros Hq H1 H2. induction Hq as [|x l Hx _ IH]; [done|].
  cbn [map concat]. unfold li_html at 1.
  by rewrite !forallb_app, H1, H2, Hx, IH.
Qed.

Lemma li_follows_app (t w : str) :
  li_follows t = true -> li_follows (t ++ w) = true.
Proof.
  destruct t as [|a [|b t]]; try done.
  cbn. rewrite andb_false_r, orb_false_r. by intros ->.
Qed.

Lemma items_after_lt (P : str -> bool) (items : list str) :
  Forall plain_item items ->
  (forall t w, P t = true -> P (t ++ w) = true) ->
  (forall z, P (u "li>" ++ z) = true) ->
  (forall z, P (u "/li>" ++ z) = true) ->
  after_lt P (concat (map li_html items)) = true.
Proof.
  intros Hitems HP H1 H2.
  induction Hitems as [|x l Hx _ IH]; [done|].
  cbn [map concat]. unfold li_html at 1. rewrite <- !app_assoc.
  change (u "<li>" ++ x ++ u "</li>" ++ concat (map li_html l))
    with (ch "<" :: u "li>" ++ x ++ u "</li>" ++ concat (map li_html l)).
  cbn [after_lt]. rewrite N.eqb_refl, H1. cbn [andb].
  change (u "li>" ++ x ++ u "</li>" ++ concat (map li_html l))
    with (ch "l" :: ch "i" :: ch ">"
          :: x ++ u "</li>" ++ concat (map li_html l)).
  cbn [after_lt]. change (ch "l" =? ch "<") with false.
  change (ch "i" =? ch "<") with false.
  change (ch ">" =? ch "<") with false. cbn [andb].
  apply after_lt_app; [done| |].
  { apply after_lt_none. destruct Hx as (Hp & _).
    by apply plain_no_lt. }
  change (u "</li>" ++ concat (map li_html l))
    with (ch "<" :: u "/li>" ++ concat (map li_html l)).
  cbn [after_lt]. rewrite N.eqb_refl, H2. cbn [andb].
  change (u "/li>" ++ concat (map li_html l))
    with (ch "/" :: ch "l" :: ch "i" :: ch ">" :: concat (map li_html l)).
  cbn [after_lt]. by apply IH.
Qed.
Lemma html_to_markdown_nonempty (L : pylib) (c : N) (t : str) :
  html_to_markdown L (c :: t) =
  strip
    (re_sub (Lit (u "&nbsp;")) 0 (fun _ => u " ")
    (re_sub blank_lines 0 (fun _ => [nl; nl])
    (re_sub re_tag 0 (fun _ => [])
    (re_sub (re_element "code") 1 (wrap "`" "`")
    (re_sub pre_pattern 1
       (fun m => u "```" ++ [nl] ++ grp m 0 ++ [nl] ++ u "```")
    (re_sub (re_element "blockquote") 1
       (fun m => u "> " ++ replace [nl] (nl :: u "> ") (strip (grp m 0)))
    (re_sub (re_element "ol") 1 (fun m => convert_list (grp m 0) true)
    (re_sub (re_element "ul") 1 (fun m => convert_list (grp m 0) false)
    (re_sub (re_element "i") 1 (wrap "*" "*")
    (re_sub (re_element "em") 1 (wrap "*" "*")
    (re_sub (re_element "b") 1 (wrap "**" "**")
    (re_sub (re_element "strong") 1 (wrap "**" "**")
    (re_sub br_pattern 0 (fun _ => [nl])
    (re_sub (re_element "p") 1 (fun m => grp m 0 ++ [nl; nl])
    (re_sub heading_pattern 2 (fun m => hashes (grp m 0) ++ u " " ++ grp m 1)
    (re_sub link_pattern 2
       (fun m => u "[" ++ grp m 1 ++ u "](" ++ grp m 0 ++ u ")")
    (re_sub img_pattern 2
       (fun m => u "![" ++ grp m 1 ++ u "](" ++ grp m 0 ++ u ")")
       (unescape L (c :: t))))))))))))))))))).
Proof. reflexivity. Qed.

(** The rules before the lists leave a text alone when it has no
    ampersand and no [<] followed by the first letter of their tags. *)
Lemma inline_rules_absent (L : pylib) (T : N -> bool) (s : str) :
  unescape_lib L ->
  forallb (isnt (ch "&")) s = true ->
  after_lt (head_in T) s = true ->
  forallb (fun x => negb (T x)) (u "iahpbse") = true ->
  re_sub (re_element "i") 1 (wrap "*" "*")
    (re_sub (re_element "em") 1 (wrap "*" "*")
    (re_sub (re_element "b") 1 (wrap "**" "**")
    (re_sub (re_element "strong") 1 (wrap "**" "**")
    (re_sub br_pattern 0 (fun _ => [nl])
    (re_sub (re_element "p") 1 (fun m => grp m 0 ++ [nl; nl])
    (re_sub heading_pattern 2 (fun m => hashes (grp m 0) ++ u " " ++ grp m 1)
    (re_sub link_pattern 2
       (fun m => u "[" ++ grp m 1 ++ u "](" ++ grp m 0 ++ u ")")
    (re_sub img_pattern 2
       (fun m => u "![" ++ grp m 1 ++ u "](" ++ grp m 0 ++ u ")")
       (unescape L s)))))))))
  = s.
Proof.
  intros HU Hamp Hlt HT.
  rewrite HU by by apply (contains_absent_char (ch "&") []).
  change (u "iahpbse")
    with [ch "i"; ch "a"; ch "h"; ch "p"; ch "b"; ch "s"; ch "e"] in HT.
  cbn [forallb] in HT.
  repeat match type of HT with
         | _ && _ = true => let H := fresh "Hc" in
                            apply andb_true_iff in HT as [H HT]
         end.
  assert (forall p, match p with
                    | a :: c :: _ => (a =? ch "<") && negb (T c)
                    | _ => false
                    end = true -> contains p s = false) as Habs.
  { intros p Hp. by apply (contains_after_lt T). }
  unfold img_pattern, link_pattern, heading_pattern, br_pattern.
  rewrite (re_sub_absent (u "<img") _ _ _ s) by by apply Habs.
  rewrite (re_sub_absent (u "<a") _ _ _ s) by by apply Habs.
  rewrite (re_sub_absent (u "<h") _ _ _ s) by by apply Habs.
  rewrite (re_sub_element_absent "p" _ s) by by apply Habs.
  rewrite (re_sub_absent (u "<br") _ _ _ s) by by apply Habs.
  rewrite (re_sub_element_absent "strong" _ s) by by apply Habs.
  rewrite (re_sub_element_absent "b" _ s) by by apply Habs.
  rewrite (re_sub_element_absent "em" _ s) by by apply Habs.
  by rewrite (re_sub_element_absent "i" _ s) by by apply Habs.
Qed.

(** The rules after the lists leave the lines of a list alone, and the
    final [strip] takes the line feeds around them. *)
Lemma block_rules_absent (ls : list str) :
  Forall solid ls -> ls <> [] ->
  Forall (fun l => forallb plain_char l = true) ls ->
  strip
    (re_sub (Lit (u "&nbsp;")) 0 (fun _ => u " ")
    (re_sub blank_lines 0 (fun _ => [nl; nl])
    (re_sub re_tag 0 (fun _ => [])
    (re_sub (re_element "code") 1 (wrap "`" "`")
    (re_sub pre_pattern 1
       (fun m => u "```" ++ [nl] ++ grp m 0 ++ [nl] ++ u "```")
    (re_sub (re_element "blockquote") 1
       (fun m => u "> " ++ replace [nl] (nl :: u "> ") (strip (grp m 0)))
       ([nl] ++ join [nl] ls ++ [nl])))))))
  = join [nl] ls.
Proof.
  intros Hsolid Hne Hplain.
  set (R := [nl] ++ join [nl] ls ++ [nl]).
  assert (forall q, q nl = true ->
            (forall x, forallb plain_char x = true -> forallb q x = true) ->
            forallb q R = true) as HR.
  { intros q Hq Himp. unfold R. rewrite !forallb_app. cbn [forallb].
    rewrite Hq. cbn [andb]. rewrite andb_true_r.
    apply forallb_join; [by cbn; rewrite Hq|].
    eapply Forall_impl; [exact Hplain|]. exact Himp. }
  assert (forallb (isnt (ch "<")) R = true) as Hlt
    by (apply HR; [reflexivity|apply plain_no_lt]).
  assert (forallb (isnt (ch "&")) R = true) as Hamp
    by (apply HR; [reflexivity|apply plain_no_amp]).
  assert (forall p, head p = Some (ch "<") -> contains p R = false) as Habs.
  { intros p Hp. by apply contains_no_lt. }
  destruct (joined_lines ls Hsolid Hne) as (Hnl & Hhead & _ & _).
  unfold pre_pattern, re_tag.
  rewrite (re_sub_element_absent "blockquote" _ R) by by apply Habs.
  rewrite (re_sub_absent (u "<pre") _ _ _ R) by by apply Habs.
  rewrite (re_sub_element_absent "code" _ R) by by apply Habs.
  rewrite (re_sub_absent (u "<") _ _ _ R) by by apply Habs.
  rewrite re_sub_blank_lines_absent.
  2:{ unfold R. cbn [app nl_next]. rewrite N.eqb_refl, Hnl, andb_true_r.
      destruct (join [nl] ls ++ [nl]) as [|d ?]; [done|].
      by rewrite (Hhead d eq_refl). }
  rewrite re_sub_lit_absent
    by by apply (contains_absent_char (ch "&") (u "nbsp;")).
  by apply strip_joined_lines.
Qed.

Lemma joined_forallb (q : N -> bool) (ls : list str) :
  q nl = true ->
  Forall (fun l => forallb q l = true) ls ->
  forallb q ([nl] ++ join [nl] ls ++ [nl]) = true.
Proof.
  intros Hq H. rewrite !forallb_app. cbn [forallb].
  rewrite Hq. cbn [andb]. rewrite andb_true_r.
  apply forallb_join; [by cbn; rewrite Hq|done].
Qed.

Lemma Forall_map_dashed (P : str -> Prop) (items : list str) :
  Forall trimmed_item items ->
  (forall x, trimmed_item x -> P (dashed x)) ->
  Forall P (map dashed items).
Proof.
  intros H HP. induction H as [|x l Hx _ IH]; [constructor|].
  cbn [map]. constructor; [by apply HP|done].
Qed.

Lemma list_html_no_amp (tag : string) (items : list str) :
  forallb (isnt (ch "&")) (u tag) = true ->
  Forall plain_item items ->
  forallb (isnt (ch "&")) (list_html tag items) = true.
Proof.
  intros Htag H. unfold list_html. rewrite !forallb_app, Htag.
  rewrite items_forallb; [done| |done|done].
  eapply Forall_impl; [exact H|]. intros x (Hp & _).
  by apply plain_no_amp.
Qed.

Lemma list_html_after_lt (tag : string) (c : N) (items : list str) :
  head (u tag) = Some c ->
  forallb (isnt (ch "<")) (u tag) = true ->
  Forall plain_item items ->
  after_lt (head_in (list_tag_char c)) (list_html tag items) = true.
Proof.
  intros Hc Htag H. unfold list_html.
  destruct (u tag) as [|c' tg] eqn:E; [done|]. injection Hc as ->.
  change (u "<" ++ (c :: tg) ++ u ">" ++ concat (map li_html items)
          ++ u "</" ++ (c :: tg) ++ u ">")
    with (ch "<" :: (c :: tg) ++ u ">" ++ concat (map li_html items)
          ++ ch "<" :: ch "/" :: (c :: tg) ++ u ">").
  cbn [after_lt app head_in]. rewrite N.eqb_refl.
  unfold list_tag_char at 1. rewrite N.eqb_refl. cbn [orb andb].
  cbn [forallb] in Htag. apply andb_true_iff in Htag as [Hc Htg].
  unfold isnt in Hc at 1. apply negb_true_iff in Hc. rewrite Hc.
  cbn [andb].
  apply after_lt_app; [apply head_in_app|by apply after_lt_none|].
  apply after_lt_app; [apply head_in_app|reflexivity|].
  apply after_lt_app; [apply head_in_app| |].
  - apply items_after_lt; [done|apply head_in_app| |]; intros z.
    + change (list_tag_char c (ch "l") = true). unfold list_tag_char.
      by rewrite N.eqb_refl, orb_true_r.
    + change (list_tag_char c (ch "/") = true). unfold list_tag_char.
      by rewrite N.eqb_refl, orb_true_r.
  - cbn [after_lt app head_in]. rewrite N.eqb_refl.
    unfold list_tag_char at 1. rewrite N.eqb_refl, orb_true_r.
    cbn [andb]. change (ch "/" =? ch "<") with false. cbn [andb].
    rewrite Hc. cbn [andb].
    apply after_lt_app; [apply head_in_app|by apply after_lt_none|].
    reflexivity.
Qed.

Lemma close_nowhere (tag : string) (items : list str) (z : str) :
  (exists c t, u tag = c :: t /\ (c =? ch "l") = false) ->
  Forall plain_item items ->
  forall i, (i < length (concat (map li_html items)))%nat ->
    startswith (u "</" ++ u tag ++ u ">")
      (drop i (concat (map li_html items)) ++ z) = false.
Proof.
  intros (c & t & E & Hc) H. rewrite E.
  change (u "</" ++ (c :: t) ++ u ">")
    with (ch "<" :: ch "/" :: c :: t ++ u ">").
  apply (starts_nowhere_after_lt li_follows).
  - intros [|a [|b s]] Hs; try done.
    + cbn in Hs. rewrite andb_false_r, orb_false_r in Hs.
      apply N.eqb_eq in Hs as ->. reflexivity.
    + cbn in Hs. cbn [app startswith].
      apply orb_true_iff in Hs as [->%N.eqb_eq|Hs]; [reflexivity|].
      apply andb_true_iff in Hs as [->%N.eqb_eq ->%N.eqb_eq].
      rewrite N.eqb_refl, Hc. reflexivity.
  - apply items_after_lt; [done|apply li_follows_app| |]; intros ?;
      reflexivity.
Qed.

Lemma ordered_list_to_markdown (L : pylib) (items : list str) :
  unescape_lib L -> Forall plain_item items ->
  html_to_markdown L (list_html "ol" items)
  = join [nl] (imap numbered (map strip items)).
Proof.
  intros HU Hitems.
  change (list_html "ol" items)
    with (ch "<" :: (u "ol" ++ u ">" ++ concat (map li_html items)
                     ++ u "</" ++ u "ol" ++ u ">")).
  rewrite html_to_markdown_nonempty.
  change (ch "<" :: (u "ol" ++ u ">" ++ concat (map li_html items)
                     ++ u "</" ++ u "ol" ++ u ">"))
    with (list_html "ol" items).
  pose proof (list_html_after_lt "ol" (ch "o") items eq_refl eq_refl Hitems)
    as Hlt.
  rewrite (inline_rules_absent L (list_tag_char (ch "o")));
    [|done|by apply list_html_no_amp|done|reflexivity].
  rewrite (re_sub_element_absent "ul" _ (list_html "ol" items))
    by (by apply (contains_after_lt (list_tag_char (ch "o")))).
  unfold list_html. rewrite re_sub_element_whole.
  2:{ apply close_nowhere; [|done]. by eexists _, _. }
  change (grp [Some (concat (map li_html items))] 0)
    with (concat (map li_html items)).
  rewrite convert_list_items by done.
  destruct items as [|x items]; [reflexivity|].
  apply Forall_plain_trimmed in Hitems.
  apply block_rules_absent.
  - apply Forall_imap_numbered; [done|]. intros. by apply numbered_solid.
  - cbn [map]. by rewrite imap_cons.
  - apply Forall_imap_numbered; [done|]. intros i y (_ & Hp & _).
    by apply numbered_plain.
Qed.

Lemma unordered_list_to_markdown (L : pylib) (items : list str) :
  unescape_lib L -> Forall plain_item items ->
  html_to_markdown L (list_html "ul" items)
  = join [nl] (map dashed (map strip items)).
Proof.
  intros HU Hitems.
  change (list_html "ul" items)
    with (ch "<" :: (u "ul" ++ u ">" ++ concat (map li_html items)
                     ++ u "</" ++ u "ul" ++ u ">")).
  rewrite html_to_markdown_nonempty.
  change (ch "<" :: (u "ul" ++ u ">" ++ concat (map li_html items)
                     ++ u "</" ++ u "ul" ++ u ">"))
    with (list_html "ul" items).
  pose proof (list_html_after_lt "ul" (ch "u") items eq_refl eq_refl Hitems)
    as Hlt.
  rewrite (inline_rules_absent L (list_tag_char (ch "u")));
    [|done|by apply list_html_no_amp|done|reflexivity].
  unfold list_html. rewrite re_sub_element_whole.
  2:{ apply close_nowhere; [|done]. by eexists _, _. }
  change (grp [Some (concat (map li_html items))] 0)
    with (concat (map li_html items)).
  rewrite convert_list_items by done.
  pose proof (Forall_plain_trimmed items Hitems) as Htrim.
  assert (Forall (fun l => forallb plain_char l = true)
            (map dashed (map strip items))) as Hplain.
  { apply Forall_map_dashed; [done|]. intros y (_ & Hp & _).
    by apply dashed_plain. }
  rewrite (re_sub_element_absent "ol" _
             ([nl] ++ join [nl] (map dashed (map strip items)) ++ [nl])).
  2:{ apply contains_no_lt; [reflexivity|].
      apply joined_forallb; [reflexivity|].
      eapply Forall_impl; [exact Hplain|]. apply plain_no_lt. }
  destruct items as [|x items]; [reflexivity|].
  apply block_rules_absent; [|done|done].
  apply Forall_map_dashed; [done|]. intros. by apply dashed_solid.
Qed.

(** ** Lists *)



Lemma cpython_unescape_lib : unescape_lib CPython.lib.
Proof.
  intros s Hs. cbn [unescape CPython.lib]. unfold CPython.unescape.
  by rewrite Hs.
Qed.


(** ** The optional group of [img_pattern] *)

Lemma rmatch_cat {A : Type} (r1 r2 : re) (s : str) (g : caps)
    (k : str -> caps -> option A) :
  rmatch (r1 +++ r2) s g k = rmatch r1 s g (fun s' g' => rmatch r2 s' g' k).
Proof. reflexivity. Qed.

Lemma isnt_false (c x : N) : isnt c x = false -> x = c.
Proof. unfold isnt. intros H%negb_false_iff. by apply N.eqb_eq. Qed.

(** After the [src] attribute the [[^>]*] runs up to the closing [>], where
    the optional group cannot match, and the match ends with the groups as
    they were. *)
Lemma img_tail_groups {B : Type} (alt : re) (l : str) (s : str) (g g' : caps)
    (res : str -> B) (b : B) :
  head l = Some (ch "a") ->
  rmatch (Rep true 0 (isnt (ch ">")) +++ Opt (Lit l +++ alt)
          +++ Rep true 0 (isnt (ch ">")) +++ Lit (u ">"))%re
    s g (fun s' g0 => Some (res s', g0)) = Some (b, g') ->
  g' = g.
Proof.
  intros Hl H.
  pose proof (drop_run_length (isnt (ch ">")) s) as Hd.
  destruct (drop (run_length (isnt (ch ">")) s) s) as [|c rest] eqn:E.
  - exfalso. apply run_length_all in E.
    rewrite rmatch_cat in H.
    apply rmatch_result in H as (m1 & s1 & g1 & -> & _ & H & _).
    rewrite rmatch_cat in H.
    apply rmatch_result in H as (m2 & s2 & g2 & -> & _ & H & _).
    rewrite rmatch_cat in H.
    apply rmatch_result in H as (m3 & s3 & g3 & -> & _ & H & _).
    cbn [rmatch] in H. destruct (startswith (u ">") s3) eqn:E3; [|done].
    apply startswith_prefix in E3. rewrite E3 in E.
    rewrite !forallb_app in E.
    change (u ">") with [ch ">"] in E. cbn [forallb] in E.
    unfold isnt at 4 in E. rewrite N.eqb_refl in E. cbn [negb andb] in E.
    by rewrite !andb_false_r in E.
  - apply isnt_false in Hd as ->.
    rewrite rmatch_cat in H. cbn [rmatch] in H.
    rewrite (rep_greedy_longest _ _ _ (res rest, g)) in H;
      [by inversion H|].
    rewrite E. destruct l as [|a l]; [done|]. injection Hl as ->.
    cbn [startswith]. change (ch "a" =? ch ">") with false. cbn [andb].
    rewrite rep_greedy_stop by done.
    by replace (startswith (u ">") (ch ">" :: rest)) with true by reflexivity.
Qed.

(** Whatever [img_pattern] matches, its second group has taken no part:
    the alternative text of the replacement is always empty. *)
Lemma img_alt_never_captured (s : str) (n : nat) (g : caps) :
  match_here img_pattern 2 s = Some (n, g) -> grp g 1 = [].
Proof.
  unfold match_here, img_pattern. intros H.
  rewrite rmatch_cat in H.
  apply rmatch_result in H as (m1 & s1 & g1 & _ & _ & H & Hg1).
  rewrite rmatch_cat in H.
  apply rmatch_result in H as (m2 & s2 & g2 & _ & _ & H & Hg2).
  rewrite rmatch_cat in H.
  apply rmatch_result in H as (m3 & s3 & g3 & _ & _ & H & Hg3).
  rewrite rmatch_cat in H.
  apply rmatch_result in H as (m4 & s4 & g4 & _ & _ & H & Hg4).
  rewrite rmatch_cat in H.
  apply rmatch_result in H as (m5 & s5 & g5 & _ & _ & H & Hg5).
  apply img_tail_groups in H as ->; [|reflexivity].
  unfold grp.
  by rewrite (Hg5 1%nat), (Hg4 1%nat), (Hg3 1%nat), (Hg2 1%nat), (Hg1 1%nat).
Qed.

(** C2: whatever [img_pattern] matches, its second group has taken no
    part, because the [[^>]*] before the optional group has already run
    over the [alt] attribute when the group is tried; so on
    [<img src=Qphoto.pngQ alt=QA catQ>] (with [Q] the double quote) the
    converter gives [![](photo.png)] and the alternative text is lost. *)
Theorem img_alt_is_dropped :
  (forall s n g, match_here img_pattern 2 s = Some (n, g) -> grp g 1 = [])
  /\ html_to_markdown CPython.lib (img_tag (u "photo.png") (u "A cat"))
     = u "![](photo.png)".
Proof.
  split; [apply img_alt_never_captured|]. vm_compute. reflexivity.
Qed.

Lemma img_alt_is_dropped_witness :
  grp [Some (u "photo.png"); None] 1 = [].
Proof.
  apply (proj1 img_alt_is_dropped (img_tag (u "photo.png") (u "A cat"))
           33%nat).
  vm_compute. reflexivity.
Defined.

(** ** Image references and links *)

Lemma run_length_app (p : N -> bool) (a b : str) :
  forallb p a = true -> head_in p b = false ->
  run_length p (a ++ b) = length a.
Proof.
  intros Ha Hb. induction a as [|c a IH].
  - destruct b as [|d b]; [done|]. cbn in *. by rewrite Hb.
  - cbn [forallb] in Ha. apply andb_true_iff in Ha as [Hc Ha].
    cbn [app run_length length]. by rewrite Hc, IH.
Qed.

Lemma startswith_isnt (a : N) (l : str) (c : N) (t : str) :
  isnt a c = true -> startswith (a :: l) (c :: t) = false.
Proof.
  unfold isnt. intros H%negb_true_iff. cbn [startswith].
  by rewrite N.eqb_sym, H.
Qed.

Lemma rmatch_link {A : Type} (text path rest : str) (g : caps)
    (k : str -> caps -> option A) :
  forallb (isnt (ch "]")) text = true ->
  path <> [] -> forallb (isnt (ch ")")) path = true ->
  rmatch link_syntax (link_md text path ++ rest) g k
  = k rest (<[1%nat := Some path]> (<[0%nat := Some text]> g)).
Proof.
  intros Ht Hne Hp. unfold link_syntax, link_md.
  rewrite <- !app_assoc. cbn [rmatch].
  rewrite startswith_app, drop_app_length.
  change (u "](") with (ch "]" :: u "(").
  change (u ")") with [ch ")"].
  rewrite rep_greedy_run.
  2:{ intros c t Hc. by rewrite startswith_isnt. }
  rewrite run_length_app; [|done|by cbn; unfold isnt; rewrite N.eqb_refl].
  cbn [Nat.leb]. rewrite drop_app_length.
  rewrite startswith_app, drop_app_length.
  rewrite rep_greedy_run.
  2:{ intros c t Hc. by rewrite startswith_isnt. }
  rewrite run_length_app; [|done|by cbn; unfold isnt; rewrite N.eqb_refl].
  destruct path as [|c0 path0] eqn:Epath; [done|]. rewrite <- Epath in *.
  replace (1 <=? length path)%nat with true by (by rewrite Epath).
  rewrite drop_app_length, startswith_app, drop_app_length.
  rewrite (length_app path), (length_app text), !Nat.add_sub.
  by rewrite !take_app_length.
Qed.

Lemma match_link (text path rest : str) :
  forallb (isnt (ch "]")) text = true ->
  path <> [] -> forallb (isnt (ch ")")) path = true ->
  match_here link_syntax 2 (link_md text path ++ rest)
  = Some (length (link_md text path), [Some text; Some path]).
Proof.
  intros Ht Hne Hp. unfold match_here. rewrite rmatch_link by done.
  do 2 f_equal. rewrite length_app. lia.
Qed.

Lemma match_image (alt path rest : str) :
  forallb (isnt (ch "]")) alt = true ->
  path <> [] -> forallb (isnt (ch ")")) path = true ->
  match_here image_syntax 2 (image_md alt path ++ rest)
  = Some (length (image_md alt path), [Some alt; Some path]).
Proof.
  intros Ht Hne Hp. unfold match_here, image_syntax.
  change (image_md alt path) with (u "!" ++ link_md alt path).
  rewrite <- app_assoc. cbn [rmatch].
  rewrite startswith_app, drop_app_length, rmatch_link by done.
  do 2 f_equal. rewrite !length_app. lia.
Qed.

(** *** [os.path.basename] *)

Lemma basename_go_chars (q : N -> bool) (p : str) : forall acc,
  forallb q acc = true -> forallb q p = true ->
  forallb q (basename_go acc p) = true.
Proof.
  induction p as [|c t IH]; intros acc Ha Hp; [done|].
  cbn [forallb] in Hp. apply andb_true_iff in Hp as [Hc Ht].
  cbn [basename_go]. destruct (c =? ch "/"); by apply IH.
Qed.

Lemma basename_go_no_slash (p : str) : forall a,
  forallb (isnt (ch "/")) a = true ->
  forallb (isnt (ch "/")) (basename_go (a ++ p) p) = true.
Proof.
  induction p as [|c t IH]; intros a Ha.
  - by rewrite app_nil_r.
  - cbn [basename_go]. destruct (c =? ch "/") eqn:Hc.
    + by apply (IH []).
    + replace (a ++ c :: t) with ((a ++ [c]) ++ t) by by rewrite <- app_assoc.
      apply IH. rewrite forallb_app, Ha. cbn. unfold isnt. by rewrite Hc.
Qed.

Lemma basename_no_slash (p : str) :
  forallb (isnt (ch "/")) (basename p) = true.
Proof. apply (basename_go_no_slash p []). reflexivity. Qed.

Lemma basename_go_plain (b : str) : forall acc,
  forallb (isnt (ch "/")) b = true -> basename_go acc b = acc.
Proof.
  induction b as [|c t IH]; intros acc Hb; [done|].
  cbn [forallb] in Hb. apply andb_true_iff in Hb as [Hc Ht].
  cbn [basename_go]. unfold isnt in Hc. apply negb_true_iff in Hc.
  rewrite Hc. by apply IH.
Qed.

Lemma basename_after_slash (x b : str) :
  forallb (isnt (ch "/")) b = true ->
  basename (x ++ ch "/" :: b) = b.
Proof.
  intros Hb. unfold basename. generalize (x ++ ch "/" :: b) at 1 as acc.
  induction x as [|c x IH]; intros acc.
  - cbn [app basename_go]. change (ch "/" =? ch "/") with true. cbv iota.
    by apply basename_go_plain.
  - cbn [app basename_go]. destruct (c =? ch "/"); apply IH.
Qed.

Lemma re_sub_whole (r : re) (ng : nat) (repl : caps -> str) (m : str)
    (g : caps) :
  m <> [] -> match_here r ng [] = None ->
  match_here r ng (m ++ []) = Some (length m, g) ->
  re_sub r ng repl m = repl g.
Proof.
  intros Hm Hnil H. rewrite <- (app_nil_r m) at 1.
  rewrite (re_sub_hit r ng repl m [] g Hm H), re_sub_nil by done.
  by rewrite app_nil_r.
Qed.


(** C5: an image reference [![alt](path)] comes out pointing at
    [tumblrmedia/basename(path)], but with a second exclamation mark before
    it whenever the new target has a recognized image extension: the second
    substitution matches the bracketed part of the image that the first has
    just rewritten.  A link [[text](path)] to an image target becomes
    [![text](tumblrmedia/basename(path))], and a link to another target is
    left as it is.  ([alt] and [text] hold no closing bracket, [path] is not
    empty and holds no closing parenthesis, and [text] and [path] hold no
    exclamation mark.) *)
Theorem image_reference_gets_two_marks (L : pylib) (alt text path : str) :
  forallb (isnt (ch "]")) alt = true ->
  forallb (isnt (ch "]")) text = true ->
  forallb (isnt (ch "!")) text = true ->
  path <> [] ->
  forallb (isnt (ch ")")) path = true ->
  let target := u "tumblrmedia/" ++ basename path in
  convert_image_paths L (image_md alt path)
    = (if looks_like_image L target then u "!" else []) ++ image_md alt target
  /\ (forallb (isnt (ch "!")) path = true ->
      convert_image_paths L (link_md text path)
        = if looks_like_image L path then image_md text target
          else link_md text path).
Proof.
  intros Halt Htext Hbang Hne Hp target.
  assert (target <> []) as Htne by done.
  assert (forallb (isnt (ch ")")) target = true) as Htp.
  { unfold target. rewrite forallb_app. apply andb_true_iff.
    split; [reflexivity|]. by apply basename_go_chars. }
  assert (basename target = basename path) as Hbase.
  { unfold target. change (u "tumblrmedia/") with (u "tumblrmedia" ++ [ch "/"]).
    rewrite <- app_assoc. apply basename_after_slash, basename_no_slash. }
  unfold convert_image_paths. split.
  - rewrite (re_sub_whole image_syntax 2 _ (image_md alt path)
               [Some alt; Some path]); [|done|done|by apply match_image].
    change (replace_markdown_image_path [Some alt; Some path])
      with (ch "!" :: link_md alt target).
    rewrite re_sub_miss by done.
    rewrite (re_sub_whole link_syntax 2 _ (link_md alt target)
               [Some alt; Some target]); [|done|done|by apply match_link].
    unfold replace_image_links.
    change (grp [Some alt; Some target] 1) with target.
    change (grp [Some alt; Some target] 0) with alt.
    fold (looks_like_image L target). rewrite Hbase.
    by destruct (looks_like_image L target).
  - intros Hpb. unfold image_syntax.
    rewrite re_sub_absent.
    2:{ apply (contains_absent_char (ch "!") []). unfold link_md.
        by rewrite !forallb_app, Hbang, Hpb. }
    rewrite (re_sub_whole link_syntax 2 _ (link_md text path)
               [Some text; Some path]); [|done|done|by apply match_link].
    unfold replace_image_links.
    change (grp [Some text; Some path] 1) with path.
    change (grp [Some text; Some path] 0) with text.
    by fold (looks_like_image L path).
Qed.

Lemma image_reference_gets_two_marks_witness :
  convert_image_paths CPython.lib (u "![a](img/x.png)")
    = u "!![a](tumblrmedia/x.png)"
  /\ (forallb (isnt (ch "!")) (u "img/x.png") = true ->
      convert_image_paths CPython.lib (u "[pic](img/x.png)")
        = u "![pic](tumblrmedia/x.png)").
Proof.
  apply (image_reference_gets_two_marks CPython.lib (u "a") (u "pic")
           (u "img/x.png")); vm_compute; congruence.
Defined.

(** ** What a run leaves alone *)

Lemma endswith_app (p s : str) : endswith p (s ++ p) = true.
Proof. unfold endswith. rewrite reverse_app. apply startswith_app. Qed.

Lemma file_name_md (draft : bool) (d : option str) (t : str) :
  endswith (u ".md") (file_name draft d t) = true.
Proof.
  unfold file_name. rewrite !app_assoc. apply endswith_app.
Qed.

Lemma convert_entry_md (L : pylib) (fs : file_system) (e : entry)
    (f c : str) :
  convert_entry L fs e = Written f c -> endswith (u ".md") f = true.
Proof.
  intros (published & text & title & _ & _ & _ & _ & -> & _)
    %convert_entry_written.
  apply file_name_md.
Qed.

Lemma convert_entries_other (L : pylib) (fs : file_system) (f : str)
    (entries : list entry) :
  endswith (u ".md") f = false ->
  forall n w, files (convert_entries L fs entries n w).1 !! f = files w !! f.
Proof.
  intros Hf. induction entries as [|e rest IH]; intros n w; simpl; [done|].
  destruct (convert_entry L fs e) as [|name c|x] eqn:E; simpl;
    [apply IH| |done].
  rewrite IH. simpl. apply lookup_insert_ne.
  intros ->. apply convert_entry_md in E. congruence.
Qed.

(** X1: a run of [extract_blog_entries], finished or stopped by an
    exception, creates and overwrites only files whose names end in [.md];
    every other file of the output directory is as it was before. *)
Theorem only_markdown_files_are_written (L : pylib) (fs : file_system)
    (entries : list entry) (w : world) (f : str) :
  endswith (u ".md") f = false ->
  files (final (extract_blog_entries L fs entries w)) !! f = files w !! f.
Proof.
  intros Hf. unfold extract_blog_entries.
  pose proof (convert_entries_other L fs f entries Hf 0%nat w) as H.
  destruct (convert_entries L fs entries 0 w) as [w' [n|x]]; simpl in *; done.
Qed.

Lemma only_markdown_files_are_written_witness :
  files (final (extract_blog_entries CPython.lib blog_posts [hello_entry]
                  {| files := {[ u "notes.txt" := u "mine" ]};
                     stdout := [] |})) !! u "notes.txt"
  = files {| files := {[ u "notes.txt" := u "mine" ]}; stdout := [] |}
      !! u "notes.txt".
Proof.
  apply (only_markdown_files_are_written CPython.lib blog_posts
           [hello_entry]
           {| files := {[ u "notes.txt" := u "mine" ]}; stdout := [] |}
           (u "notes.txt")).
  vm_compute. reflexivity.
Defined.

(** ** A title element without text *)

Lemma convert_entries_app (L : pylib) (fs : file_system)
    (l1 l2 : list entry) (n : nat) (w : world) :
  forallb (fun e => negb (fails L fs e)) l1 = true ->
  convert_entries L fs (l1 ++ l2) n w
  = convert_entries L fs l2 (n + length (written L fs l1))
      {| files := write_all (files w) (written L fs l1);
         stdout := stdout w ++ map created (written L fs l1) |}.
Proof.
  revert n w. induction l1 as [|e rest IH]; intros n w Hok; simpl.
  - rewrite app_nil_r, Nat.add_0_r. by destruct w.
  - simpl in Hok. apply andb_true_iff in Hok as [He Hrest].
    unfold written, fails in *. simpl.
    destruct (convert_entry L fs e) as [|f c|x] eqn:E; simpl in *.
    + by apply IH.
    + rewrite IH by done. simpl.
      rewrite <- app_assoc. simpl. do 2 f_equal. lia.
    + done.
Qed.

(** X2: an entry that has a published date and a content but whose
    [atom:title] element is empty stops the run: [clean_filename] is handed
    [None] and raises [TypeError], which nothing catches.  The files of the
    entries before it stay, the entries after it are never looked at, and
    no summary is printed. *)
Theorem empty_title_stops_the_run (L : pylib) (fs : file_system)
    (before after : list entry) (e : entry) (w : world) :
  forallb (fun e => negb (fails L fs e)) before = true ->
  title_text e = Some None ->
  is_settings e = false ->
  is_Some (published_text e) ->
  is_Some (content_text e) ->
  extract_blog_entries L fs (before ++ e :: after) w
  = Raised TypeError
      {| files := write_all (files w) (written L fs before);
         stdout := stdout w ++ map created (written L fs before) |}.
Proof.
  intros Hok Ht Hs [p Hp] [c Hc].
  unfold extract_blog_entries.
  rewrite convert_entries_app by done. simpl.
  unfold convert_entry, title_of. by rewrite Hs, Hp, Hc, Ht.
Qed.

Lemma empty_title_stops_the_run_witness :
  extract_blog_entries CPython.lib blog_posts
    ([hello_entry] ++ empty_title_entry :: [undated_entry None; hello_entry])
    empty_world
  = Raised TypeError
      {| files := write_all (files empty_world)
                    (written CPython.lib blog_posts [hello_entry]);
         stdout := stdout empty_world
                   ++ map created
                        (written CPython.lib blog_posts [hello_entry]) |}.
Proof.
  apply (empty_title_stops_the_run CPython.lib blog_posts [hello_entry]
           [undated_entry None; hello_entry] empty_title_entry empty_world).
  - vm_compute. reflexivity.
  - reflexivity.
  - reflexivity.
  - eexists. reflexivity.
  - eexists. reflexivity.
Defined.

(** ** An entry without a title element *)

Lemma clean_filename_untitled (L : pylib) :
  ascii_lib L -> clean_filename L (u "Untitled") = u "untitled".
Proof.
  intros HL. rewrite clean_filename_sanitize, sanitize_ascii by done.
  unfold sanitize.
  replace (strip_by (just (ch "-"))
             (collapse dash_or_space
                (filter (fun c => spec_safe c = true)
                   (remove_tags (u "Untitled")))))
    with (u "Untitled") by (vm_compute; reflexivity).
  destruct HL as [_ Hlow]. by rewrite Hlow.
Qed.

(** X3: an entry without [atom:title] is converted under the title
    [Untitled]: its file name ends in [-untitled.md] and its document opens
    with the heading [# Untitled] and an empty line. *)
Theorem missing_title_is_untitled (L : pylib) (fs : file_system)
    (e : entry) (f c : str) :
  ascii_lib L ->
  title_text e = None ->
  convert_entry L fs e = Written f c ->
  endswith (u "-untitled.md") f = true
  /\ startswith (u "# Untitled" ++ [nl; nl]) c = true.
Proof.
  intros HL Ht
    (published & text & title & _ & _ & _ & Htitle & -> & -> & _)
    %convert_entry_written.
  unfold title_of in Htitle. rewrite Ht in Htitle.
  injection Htitle as <-.
  rewrite clean_filename_untitled by done. split.
  - unfold file_name.
    change (u "-" ++ u "untitled" ++ u ".md") with (u "-untitled.md").
    rewrite app_assoc. apply endswith_app.
  - unfold file_content. rewrite <- !app_assoc.
    change (u "# " ++ u "Untitled" ++ [nl; nl] ++ ?x)
      with ((u "# Untitled" ++ [nl; nl]) ++ x).
    apply startswith_app.
Qed.

Lemma missing_title_is_untitled_witness :
  endswith (u "-untitled.md") (u "2024-12-18-untitled.md") = true
  /\ startswith (u "# Untitled" ++ [nl; nl])
       (u "# Untitled" ++ [nl; nl] ++ u "**Date:** 2024-12-18" ++ [nl; nl]
        ++ u "Hi" ++ [nl]) = true.
Proof.
  apply (missing_title_is_untitled CPython.lib blog_posts
           {| category_term := None; control_draft := None;
              title_text := None;
              published_text := Some (Some (u "2024-12-18"));
              content_text := Some (Some (u "Hi")) |}).
  - apply cpython_ascii_lib.
  - reflexivity.
  - vm_compute. reflexivity.
Defined.

(** ** Tags are removed once and for all *)

Lemma index_of_none (c : N) (s : str) :
  index_of c s = None <-> forallb (isnt c) s = true.
Proof.
  induction s as [|x t IH]; simpl; [done|]. unfold isnt at 1.
  destruct (x =? c); simpl; [done|].
  rewrite <- IH. destruct (index_of c t); simpl; split; done.
Qed.

Lemma tag_end_remove_tags (t : str) :
  tag_end t = None -> tag_end (remove_tags_go 0 t) = None.
Proof.
  unfold tag_end. destruct (index_of (ch ">") t) as [[|n]|] eqn:E; try done.
  - intros _. destruct t as [|x t]; [done|]. simpl in E.
    destruct (x =? ch ">") eqn:Ex.
    + apply N.eqb_eq in Ex as ->. simpl. done.
    + by destruct (index_of (ch ">") t).
  - intros _. apply index_of_none in E.
    apply (forallb_remove_tags _ _ 0%nat) in E.
    apply index_of_none in E. by rewrite E.
Qed.

Lemma remove_tags_after_lt (s : str) : forall k,
  after_lt no_tag (remove_tags_go k s) = true.
Proof.
  induction s as [|c t IH]; intros k; simpl; [done|].
  destruct k as [|k]; [|apply IH].
  destruct (c =? ch "<") eqn:Ec.
  - destruct (tag_end t) as [n|] eqn:Et; [apply IH|].
    simpl. rewrite Ec, IH, andb_true_r. unfold no_tag.
    apply bool_decide_eq_true. by apply tag_end_remove_tags.
  - simpl. by rewrite Ec, IH.
Qed.

Lemma after_lt_drop (P : str -> bool) (s : str) : forall i,
  after_lt P s = true -> after_lt P (drop i s) = true.
Proof.
  induction s as [|c t IH]; intros [|i] H; try done.
  simpl in *. apply andb_true_iff in H as [_ H]. by apply IH.
Qed.

Lemma no_tag_fixed (s : str) :
  after_lt no_tag s = true -> remove_tags s = s.
Proof.
  unfold remove_tags. induction s as [|c t IH]; simpl; [done|].
  intros [Hc Ht]%andb_true_iff. rewrite IH by done.
  destruct (c =? ch "<"); [|done].
  unfold no_tag in Hc. apply bool_decide_eq_true in Hc. by rewrite Hc.
Qed.

(** X4: where [<[^>]+>] has been replaced by nothing, the pattern matches
    at no position of what is left, so a second sweep changes nothing.
    This is the step that closes [html_to_markdown] and opens
    [clean_filename], and the one [convert_list] applies to each item. *)
Theorem no_tag_is_left (s : str) :
  (forall i, match_here re_tag 0
               (drop i (re_sub re_tag 0 (fun _ => []) s)) = None)
  /\ re_sub re_tag 0 (fun _ => []) (re_sub re_tag 0 (fun _ => []) s)
     = re_sub re_tag 0 (fun _ => []) s.
Proof.
  rewrite !re_sub_tag_remove.
  pose proof (remove_tags_after_lt s 0) as H. fold (remove_tags s) in H.
  split.
  - intros i. apply (after_lt_drop _ _ i) in H.
    destruct (drop i (remove_tags s)) as [|c t]; [vm_compute; reflexivity|].
    rewrite match_here_tag. simpl in H.
    destruct (c =? ch "<"); [|done].
    apply andb_true_iff in H as [H _]. unfold no_tag in H.
    apply bool_decide_eq_true in H. by rewrite H.
  - by apply no_tag_fixed.
Qed.

(** ** Text without markup *)

Lemma forallb_scan (q : N -> bool) (r : re) (ng : nat)
    (repl : caps -> str) (s : str) : forall k,
  (forall g, forallb q (repl g) = true) ->
  forallb q s = true ->
  forallb q (concat (map (emit repl) (scan r ng k s))) = true.
Proof.
  intros k Hrepl. revert k.
  induction s as [|c t IH]; intros k Hs.
  - destruct k; cbn [scan]; [|done].
    destruct (match_here r ng []) as [[? g]|]; [|done].
    cbn. by rewrite app_nil_r.
  - cbn [forallb] in Hs. apply andb_true_iff in Hs as [Hc Ht].
    destruct k as [|k]; cbn [scan]; [|by apply IH].
    destruct (match_here r ng (c :: t)) as [[[|n] g]|];
      cbn [map emit concat]; rewrite ?forallb_app, ?Hrepl; cbn [forallb andb];
      rewrite ?Hc; cbn [andb]; by apply IH.
Qed.

Lemma forallb_re_sub (q : N -> bool) (r : re) (ng : nat)
    (repl : caps -> str) (s : str) :
  (forall g, forallb q (repl g) = true) ->
  forallb q s = true ->
  forallb q (re_sub r ng repl s) = true.
Proof. apply forallb_scan. Qed.

(** The rules from the lists to the sweep of tags leave a text without
    [<] alone. *)
Lemma markup_rules_absent (L : pylib) (s : str) :
  unescape_lib L ->
  forallb (isnt (ch "<")) s = true ->
  forallb (isnt (ch "&")) s = true ->
  re_sub re_tag 0 (fun _ => [])
    (re_sub (re_element "code") 1 (wrap "`" "`")
    (re_sub pre_pattern 1
       (fun m => u "```" ++ [nl] ++ grp m 0 ++ [nl] ++ u "```")
    (re_sub (re_element "blockquote") 1
       (fun m => u "> " ++ replace [nl] (nl :: u "> ") (strip (grp m 0)))
    (re_sub (re_element "ol") 1 (fun m => convert_list (grp m 0) true)
    (re_sub (re_element "ul") 1 (fun m => convert_list (grp m 0) false)
    (re_sub (re_element "i") 1 (wrap "*" "*")
    (re_sub (re_element "em") 1 (wrap "*" "*")
    (re_sub (re_element "b") 1 (wrap "**" "**")
    (re_sub (re_element "strong") 1 (wrap "**" "**")
    (re_sub br_pattern 0 (fun _ => [nl])
    (re_sub (re_element "p") 1 (fun m => grp m 0 ++ [nl; nl])
    (re_sub heading_pattern 2 (fun m => hashes (grp m 0) ++ u " " ++ grp m 1)
    (re_sub link_pattern 2
       (fun m => u "[" ++ grp m 1 ++ u "](" ++ grp m 0 ++ u ")")
    (re_sub img_pattern 2
       (fun m => u "![" ++ grp m 1 ++ u "](" ++ grp m 0 ++ u ")")
       (unescape L s)))))))))))))))
  = s.
Proof.
  intros HU Hlt Hamp.
  rewrite (inline_rules_absent L (fun _ => false));
    [|done|done|by apply after_lt_none|reflexivity].
  assert (forall p, head p = Some (ch "<") -> contains p s = false) as Habs.
  { intros p Hp. by apply contains_no_lt. }
  unfold pre_pattern.
  rewrite (re_sub_element_absent "ul" _ s) by by apply Habs.
  rewrite (re_sub_element_absent "ol" _ s) by by apply Habs.
  rewrite (re_sub_element_absent "blockquote" _ s) by by apply Habs.
  rewrite (re_sub_absent (u "<pre") _ _ _ s) by by apply Habs.
  rewrite (re_sub_element_absent "code" _ s) by by apply Habs.
  rewrite re_sub_tag_remove. by apply remove_tags_fixed.
Qed.

(** X5: a text with no [<] and no ampersand goes through
    [html_to_markdown] untouched by the seventeen rules for markup: what
    comes out is the text with its runs of blank lines reduced to one empty
    line and the whitespace at both ends removed.  Where no line feed is
    followed by whitespace, it is the text stripped. *)
Theorem plain_text_is_kept (L : pylib) (s : str) :
  unescape_lib L ->
  forallb (isnt (ch "<")) s = true ->
  forallb (isnt (ch "&")) s = true ->
  html_to_markdown L s = strip (re_sub blank_lines 0 (fun _ => [nl; nl]) s)
  /\ (nl_next s = true -> html_to_markdown L s = strip s).
Proof.
  intros HU Hlt Hamp.
  assert (html_to_markdown L s
          = strip (re_sub blank_lines 0 (fun _ => [nl; nl]) s)) as H.
  { destruct s as [|c t]; [reflexivity|].
    rewrite html_to_markdown_nonempty, markup_rules_absent by done.
    rewrite re_sub_lit_absent; [done|].
    apply (contains_absent_char (ch "&") (u "nbsp;")).
    by apply forallb_re_sub. }
  split; [done|]. intros Hnl.
  by rewrite H, re_sub_blank_lines_absent.
Qed.

Lemma plain_text_is_kept_witness :
  html_to_markdown CPython.lib (u " two words " ++ [nl; nl; nl] ++ u "more")
  = strip (re_sub blank_lines 0 (fun _ => [nl; nl])
             (u " two words " ++ [nl; nl; nl] ++ u "more")).
Proof.
  apply (plain_text_is_kept CPython.lib
           (u " two words " ++ [nl; nl; nl] ++ u "more")).
  - apply cpython_unescape_lib.
  - vm_compute. reflexivity.
  - vm_compute. reflexivity.
Defined.

(** X6: whatever the HTML and whatever the library tables, the Markdown
    that [html_to_markdown] hands back neither begins nor ends with
    whitespace, so stripping it again changes nothing. *)
Theorem markdown_has_no_outer_whitespace (L : pylib) (html_content : str) :
  (forall c, head (html_to_markdown L html_content) = Some c ->
             isspace c = false)
  /\ (forall c, last (html_to_markdown L html_content) = Some c ->
                isspace c = false)
  /\ strip (html_to_markdown L html_content)
     = html_to_markdown L html_content.
Proof.
  destruct html_content as [|a t]; [by repeat split|].
  rewrite html_to_markdown_nonempty.
  set (R := re_sub _ _ _ _). unfold strip.
  assert (forall c, head (strip_by isspace R) = Some c -> isspace c = false)
    as Hh by apply strip_head.
  assert (forall c, last (strip_by isspace R) = Some c -> isspace c = false)
    as Hl by apply strip_last.
  split; [done|]. split; [done|]. by apply strip_fixed.
Qed.

(** ** One rule at a time *)

Lemma html_to_markdown_rules (L : pylib) (c : N) (t : str) :
  html_to_markdown L (c :: t)
  = strip (re_sub (Lit (u "&nbsp;")) 0 (fun _ => u " ")
             (re_sub blank_lines 0 (fun _ => [nl; nl])
                (apply_rules markup_rules (unescape L (c :: t))))).
Proof. reflexivity. Qed.

Lemma apply_rules_app (l1 l2 : list (str -> str)) (s : str) :
  apply_rules (l1 ++ l2) s = apply_rules l2 (apply_rules l1 s).
Proof. apply foldl_app. Qed.

Lemma apply_rules_cons (rule : str -> str) (l : list (str -> str)) (s : str) :
  apply_rules (rule :: l) s = apply_rules l (rule s).
Proof. reflexivity. Qed.

Lemma apply_rules_fixed (l : list (str -> str)) (s : str) :
  Forall (fun rule => rule s = s) l -> apply_rules l s = s.
Proof.
  induction 1 as [|rule l Hr _ IH]; [done|].
  unfold apply_rules in *. simpl. by rewrite Hr.
Qed.

(** Every rule needs a [<]. *)
Lemma markup_rules_plain (s : str) :
  forallb (isnt (ch "<")) s = true ->
  Forall (fun rule => rule s = s) markup_rules.
Proof.
  intros Hlt.
  assert (forall p, head p = Some (ch "<") -> contains p s = false) as Habs.
  { intros p Hp. by apply contains_no_lt. }
  unfold markup_rules.
  repeat apply Forall_cons_2; try apply Forall_nil_2;
    try (apply re_sub_absent; by apply Habs).
Qed.

Lemma Forall_drop_rules (s : str) (k : nat) :
  forallb (isnt (ch "<")) s = true ->
  Forall (fun rule => rule s = s) (drop k markup_rules).
Proof. intros H. apply Forall_drop. by apply markup_rules_plain. Qed.

Lemma clash_app (p a z : str) :
  clash p a = true -> startswith p (a ++ z) = false.
Proof.
  unfold clash. revert a.
  induction p as [|x p IH]; intros [|y a] H; simpl in *; try done.
  rewrite (N.eqb_sym y x) in H.
  destruct (x =? y); [|done]. simpl in *. by apply IH.
Qed.

Lemma contains_app_plain (p x b : str) :
  head p = Some (ch "<") -> forallb (isnt (ch "<")) x = true ->
  contains p (x ++ b) = contains p b.
Proof.
  destruct p as [|a p]; [done|]. intros [= ->].
  induction x as [|c x IH]; [done|].
  cbn [forallb]. intros [Hc Hx]%andb_true_iff.
  cbn [app contains]. rewrite IH by done.
  rewrite (startswith_isnt (ch "<") p c) by done. done.
Qed.

Lemma contains_ctx (p a x b : str) :
  head p = Some (ch "<") -> clash_all p a = true ->
  forallb (isnt (ch "<")) x = true -> contains p b = false ->
  contains p (a ++ x ++ b) = false.
Proof.
  intros Hp Ha Hx Hb. induction a as [|c a IH].
  - cbn [app]. by rewrite contains_app_plain.
  - cbn [clash_all] in Ha. apply andb_true_iff in Ha as [Hc Ha].
    change ((c :: a) ++ x ++ b) with (c :: (a ++ x ++ b)).
    cbn [contains]. rewrite IH by done.
    change (c :: (a ++ x ++ b)) with ((c :: a) ++ x ++ b).
    by rewrite clash_app.
Qed.

Lemma nl_next_plain (s : str) : forallb (isnt nl) s = true -> nl_next s = true.
Proof.
  intros H. rewrite <- (app_nil_r s). by rewrite nl_next_skip.
Qed.

(** What the cleaning of whitespace does to a line. *)
Lemma whitespace_rules_line (s : str) :
  forallb plain_char s = true ->
  (forall c, head s = Some c -> isspace c = false) ->
  (forall c, last s = Some c -> isspace c = false) ->
  strip (re_sub (Lit (u "&nbsp;")) 0 (fun _ => u " ")
           (re_sub blank_lines 0 (fun _ => [nl; nl]) s)) = s.
Proof.
  intros Hp Hh Hl.
  rewrite re_sub_blank_lines_absent
    by (apply nl_next_plain; by apply plain_no_nl).
  rewrite re_sub_lit_absent
    by (apply (contains_absent_char (ch "&") (u "nbsp;"));
        by apply plain_no_amp).
  by apply strip_fixed.
Qed.

Lemma element_close_nowhere (name : string) (x z : str) :
  forallb (isnt (ch "<")) x = true ->
  forall i, (i < length x)%nat ->
    startswith (u "</" ++ u name ++ u ">") (drop i x ++ z) = false.
Proof.
  intros Hx.
  change (u "</" ++ u name ++ u ">") with (ch "<" :: (u "/" ++ u name ++ u ">")).
  by apply starts_nowhere_plain.
Qed.

(** The rules before the one for [name], and that rule, on an element
    around plain text. *)
Lemma emphasis_rule (L : pylib) (k : nat) (name mark : string) (x : str) :
  unescape_lib L ->
  forallb plain_char x = true ->
  markup_rules !! k = Some (re_sub (re_element name) 1 (wrap mark mark)) ->
  forallb (isnt (ch "&")) (u name) = true ->
  forallb plain_char (u mark) = true ->
  (exists c, head (u mark) = Some c /\ last (u mark) = Some c
             /\ isspace c = false) ->
  Forall (fun rule => rule (element name x) = element name x)
         (take k markup_rules) ->
  html_to_markdown L (element name x) = u mark ++ x ++ u mark.
Proof.
  intros HU Hx Hk Hname Hmark (c & Hh & Hl & Hc) Hbefore.
  pose proof (plain_no_lt x Hx) as Hlt.
  pose proof (plain_no_amp x Hx) as Hamp.
  change (element name x)
    with (ch "<" :: (u name ++ u ">" ++ x ++ u "</" ++ u name ++ u ">")).
  rewrite html_to_markdown_rules.
  change (ch "<" :: (u name ++ u ">" ++ x ++ u "</" ++ u name ++ u ">"))
    with (element name x).
  rewrite HU.
  2:{ apply (contains_absent_char (ch "&") []). unfold element.
      by rewrite !forallb_app, Hname, Hamp. }
  rewrite <- (take_drop_middle _ _ _ Hk), apply_rules_app.
  rewrite (apply_rules_fixed (take k markup_rules)) by done.
  rewrite apply_rules_cons.
  unfold element at 1. rewrite re_sub_element_whole
    by (by apply element_close_nowhere).
  unfold wrap. change (grp [Some x] 0) with x.
  assert (forallb plain_char (u mark ++ x ++ u mark) = true) as Hp
    by (by rewrite !forallb_app, Hmark, Hx).
  rewrite apply_rules_fixed
    by (apply Forall_drop_rules; by apply plain_no_lt).
  apply whitespace_rules_line; [done| |].
  - intros d. destruct (u mark) as [|m ms]; [done|].
    cbn in *. congruence.
  - intros d. rewrite !last_app, Hl. congruence.
Qed.

(** X7: an element [<strong>], [<b>], [<em>] or [<i>] around a text
    without markup, ampersand or line feed becomes that text between two
    asterisks on each side for the first two and one for the others. *)
Theorem emphasis_to_markdown (L : pylib) (x : str) :
  unescape_lib L ->
  forallb plain_char x = true ->
  html_to_markdown L (element "strong" x) = u "**" ++ x ++ u "**"
  /\ html_to_markdown L (element "b" x) = u "**" ++ x ++ u "**"
  /\ html_to_markdown L (element "em" x) = u "*" ++ x ++ u "*"
  /\ html_to_markdown L (element "i" x) = u "*" ++ x ++ u "*".
Proof.
  intros HU Hx. pose proof (plain_no_lt x Hx) as Hlt.
  assert (forall name p r ng repl,
            head p = Some (ch "<") ->
            clash_all p (u "<" ++ u name ++ u ">") = true ->
            contains p (u "</" ++ u name ++ u ">") = false ->
            re_sub (Lit p +++ r) ng repl (element name x) = element name x)
    as Habs.
  { intros name p r ng repl Hp Ha Hb. apply re_sub_absent.
    replace (element name x)
      with ((u "<" ++ u name ++ u ">") ++ x ++ (u "</" ++ u name ++ u ">"))
      by (unfold element; by rewrite <- !app_assoc).
    by apply contains_ctx. }
  repeat split.
  - apply (emphasis_rule L 5 "strong" "**"); try done.
    + by exists (ch "*").
    + repeat apply Forall_cons_2; try apply Forall_nil_2;
        by apply Habs.
  - apply (emphasis_rule L 6 "b" "**"); try done.
    + by exists (ch "*").
    + repeat apply Forall_cons_2; try apply Forall_nil_2;
        by apply Habs.
  - apply (emphasis_rule L 7 "em" "*"); try done.
    + by exists (ch "*").
    + repeat apply Forall_cons_2; try apply Forall_nil_2;
        by apply Habs.
  - apply (emphasis_rule L 8 "i" "*"); try done.
    + by exists (ch "*").
    + repeat apply Forall_cons_2; try apply Forall_nil_2;
        by apply Habs.
Qed.

Lemma emphasis_to_markdown_witness :
  html_to_markdown CPython.lib (element "strong" (u "very good"))
    = u "**" ++ u "very good" ++ u "**"
  /\ html_to_markdown CPython.lib (element "b" (u "very good"))
     = u "**" ++ u "very good" ++ u "**"
  /\ html_to_markdown CPython.lib (element "em" (u "very good"))
     = u "*" ++ u "very good" ++ u "*"
  /\ html_to_markdown CPython.lib (element "i" (u "very good"))
     = u "*" ++ u "very good" ++ u "*".
Proof.
  apply (emphasis_to_markdown CPython.lib (u "very good")).
  - apply cpython_unescape_lib.
  - vm_compute. reflexivity.
Defined.

(** ** Headings *)

Lemma level_digit_plain (d : N) :
  level_digit d = true ->
  (d =? ch "<") = false /\ (d =? ch "&") = false /\ (d =? ch ">") = false.
Proof.
  unfold level_digit. change (ch "<") with 60. change (ch "&") with 38.
  change (ch ">") with 62.
  rewrite andb_true_iff, !N.leb_le, !N.eqb_neq. lia.
Qed.

Lemma match_heading (d1 d2 : N) (x rest : str) :
  level_digit d1 = true -> level_digit d2 = true ->
  forallb (isnt (ch "<")) x = true ->
  match_here heading_pattern 2
    (u "<h" ++ d1 :: ch ">" :: x ++ u "</h" ++ d2 :: ch ">" :: rest)
  = Some ((length x + 9)%nat, [Some [d1]; Some x]).
Proof.
  intros H1 H2 Hx. unfold match_here, heading_pattern.
  cbn [rmatch].
  rewrite startswith_app, drop_app_length.
  rewrite H1.
  set (s0 := x ++ u "</h" ++ d2 :: ch ">" :: rest).
  rewrite rep_greedy_stop by (unfold isnt; by rewrite N.eqb_refl).
  replace (startswith (u ">") (ch ">" :: s0)) with true by reflexivity.
  change (drop (length (u ">")) (ch ">" :: s0)) with s0.
  unfold s0 at 1. rewrite rep_lazy_first; [|apply forallb_any|].
  2:{ intros i Hi. rewrite (starts_nowhere_plain (u "/h")); done. }
  erewrite rep_lazy_now; [reflexivity|].
  rewrite startswith_app, drop_app_length. rewrite H2.
  replace (startswith (u ">") (ch ">" :: rest)) with true by reflexivity.
  change (drop (length (u ">")) (ch ">" :: rest)) with rest.
  do 2 f_equal.
  - unfold s0. repeat (rewrite length_app || rewrite length_cons).
    change (length (u "<h")) with 2%nat.
    change (length (u "</h")) with 3%nat. lia.
  - rewrite !length_cons.
    replace (S (S _) - _)%nat with 1%nat by lia.
    unfold s0. repeat (rewrite length_app || rewrite length_cons).
    replace (_ + _ - _)%nat with (length x) by lia.
    by rewrite take_app_length.
Qed.

Lemma heading_rule (L : pylib) (d1 d2 : N) (x : str) :
  unescape_lib L ->
  level_digit d1 = true -> level_digit d2 = true ->
  forallb plain_char x = true ->
  x <> [] ->
  (forall c, last x = Some c -> isspace c = false) ->
  html_to_markdown L (u "<h" ++ d1 :: ch ">" :: x ++ u "</h" ++ d2 :: u ">")
  = hashes [d1] ++ u " " ++ x.
Proof.
  intros HU H1 H2 Hx Hne Hlast.
  pose proof (plain_no_lt x Hx) as Hlt.
  pose proof (plain_no_amp x Hx) as Hamp.
  destruct (level_digit_plain d1 H1) as (Hd1 & Hd1' & _).
  destruct (level_digit_plain d2 H2) as (Hd2 & Hd2' & _).
  set (s := u "<h" ++ d1 :: ch ">" :: x ++ u "</h" ++ d2 :: u ">").
  change s with (ch "<" :: (ch "h" :: d1 :: ch ">"
                            :: x ++ u "</h" ++ d2 :: u ">")).
  rewrite html_to_markdown_rules.
  change (ch "<" :: (ch "h" :: d1 :: ch ">" :: x ++ u "</h" ++ d2 :: u ">"))
    with s.
  rewrite HU.
  2:{ apply (contains_absent_char (ch "&") []). unfold s.
      rewrite forallb_app. cbn [forallb]. rewrite !forallb_app, Hamp.
      cbn [forallb]. unfold isnt. rewrite Hd1', Hd2'. reflexivity. }
  assert (after_lt (head_in heading_tag_char) s = true) as Hafter.
  { unfold s. change (u "<h" ++ d1 :: ch ">" :: ?z)
      with (ch "<" :: ch "h" :: d1 :: ch ">" :: z).
    cbn [after_lt head_in]. rewrite Hd1. rewrite N.eqb_refl.
    change (ch "h" =? ch "<") with false.
    change (ch ">" =? ch "<") with false.
    change (heading_tag_char (ch "h")) with true. cbn [andb].
    apply after_lt_app; [apply head_in_app|by apply after_lt_none|].
    change (u "</h" ++ d2 :: u ">")
      with (ch "<" :: ch "/" :: ch "h" :: d2 :: [ch ">"]).
    cbn [after_lt head_in]. by rewrite Hd2. }
  change markup_rules with (take 2 markup_rules ++ drop 2 markup_rules).
  rewrite apply_rules_app.
  rewrite (apply_rules_fixed (take 2 markup_rules)).
  2:{ repeat apply Forall_cons_2; try apply Forall_nil_2;
        apply re_sub_absent; by apply (contains_after_lt heading_tag_char). }
  change (drop 2 markup_rules)
    with (re_sub heading_pattern 2
            (fun m => hashes (grp m 0) ++ u " " ++ grp m 1)
          :: drop 3 markup_rules).
  rewrite apply_rules_cons.
  rewrite (re_sub_whole heading_pattern 2 _ s [Some [d1]; Some x]);
    [|done|reflexivity|].
  2:{ rewrite app_nil_r. unfold s. change (u ">") with [ch ">"].
      rewrite match_heading by done.
      do 2 f_equal. repeat (rewrite length_app || rewrite length_cons).
      change (length (u "<h")) with 2%nat.
      change (length (u "</h")) with 3%nat. cbn [length]. lia. }
  change (grp [Some [d1]; Some x] 0) with [d1].
  change (grp [Some [d1]; Some x] 1) with x.
  assert (exists n, hashes [d1] = ch "#" :: replicate n (ch "#")) as [n Hn].
  { unfold hashes. unfold level_digit in H1.
    apply andb_true_iff in H1 as [H1 _]. apply N.leb_le in H1.
    exists (Nat.pred (N.to_nat (d1 - 48))).
    replace (N.to_nat (d1 - 48)) with (S (Nat.pred (N.to_nat (d1 - 48))))
      at 1 by lia. done. }
  assert (forallb plain_char (hashes [d1] ++ u " " ++ x) = true) as Hp.
  { rewrite !forallb_app, Hx, Hn.
    assert (forallb plain_char (replicate n (ch "#")) = true) as Hr
      by (clear; induction n as [|n IH]; [done|exact IH]).
    cbn [forallb]. rewrite Hr. reflexivity. }
  rewrite apply_rules_fixed
    by (apply Forall_drop_rules; by apply plain_no_lt).
  apply whitespace_rules_line; [done| |].
  - rewrite Hn. by intros c [= <-].
  - intros c. rewrite !last_app.
    destruct (last x) as [y|] eqn:E; [intros [= <-]; by apply Hlast|].
    by apply last_None in E.
Qed.

Lemma level_char (k : nat) :
  (1 <= k <= 6)%nat ->
  exists d, str_of_nat k = [d] /\ level_digit d = true
            /\ hashes [d] = replicate k (ch "#").
Proof.
  intros Hk.
  assert (k = 1 \/ k = 2 \/ k = 3 \/ k = 4 \/ k = 5 \/ k = 6)%nat
    as [->|[->|[->|[->|[->| ->]]]]] by lia;
    eexists; (split; [reflexivity|]); by split.
Qed.

(** X8: a heading element of level [k] (1 to 6), without attributes,
    around one line of text becomes [k] number signs, a space and the
    text, where the line is not empty, holds no [<], no ampersand and no
    line feed, and does not end with whitespace.  The level is read off
    the opening tag alone: the closing tag may name any of the six
    levels. *)
Theorem heading_to_markdown (L : pylib) (k j : nat) (x : str) :
  unescape_lib L ->
  (1 <= k <= 6)%nat -> (1 <= j <= 6)%nat ->
  forallb plain_char x = true ->
  x <> [] ->
  (forall c, last x = Some c -> isspace c = false) ->
  html_to_markdown L (heading_html k j x)
  = replicate k (ch "#") ++ u " " ++ x.
Proof.
  intros HU Hk Hj Hx Hne Hlast. unfold heading_html.
  destruct (level_char k Hk) as (d1 & -> & H1 & <-).
  destruct (level_char j Hj) as (d2 & -> & H2 & _).
  by apply heading_rule.
Qed.

Lemma heading_to_markdown_witness :
  html_to_markdown CPython.lib (heading_html 2 3 (u "News of the day"))
  = replicate 2 (ch "#") ++ u " " ++ u "News of the day".
Proof.
  apply (heading_to_markdown CPython.lib 2 3 (u "News of the day")).
  - apply cpython_unescape_lib.
  - lia.
  - lia.
  - vm_compute. reflexivity.
  - done.
  - intros c [= <-]. reflexivity.
Defined.

(** ** Lines *)

Lemma join_cons_cons (sep x y : str) (l : list str) :
  join sep (x :: y :: l) = x ++ sep ++ join sep (y :: l).
Proof. reflexivity. Qed.

Lemma join_nonempty (sep : str) (ls : list str) :
  ls <> [] -> Forall (fun l => l <> []) ls -> join sep ls <> [].
Proof.
  destruct ls as [|x [|y l]]; [done| |].
  - intros _ H. by apply Forall_cons_1 in H as [H _].
  - intros _ H. apply Forall_cons_1 in H as [H _]. rewrite join_cons_cons.
    by destruct x.
Qed.

Lemma head_join (sep : str) (x : str) (ls : list str) :
  x <> [] -> head (join sep (x :: ls)) = head x.
Proof.
  intros Hx. destruct ls as [|y l]; [done|]. rewrite join_cons_cons.
  by destruct x.
Qed.

Lemma last_join (sep : str) (ls : list str) (x : str) :
  x <> [] -> last (join sep (ls ++ [x])) = last x.
Proof.
  intros Hx. induction ls as [|y l IH]; [done|].
  cbn [app]. destruct (l ++ [x]) as [|z l'] eqn:E; [by destruct l|].
  rewrite join_cons_cons, !last_app, IH.
  destruct (last x) eqn:El; [done|]. by apply last_None in El.
Qed.

Lemma plain_lines_chars (q : N -> bool) (sep : str) (ls : list str) :
  (forall x, forallb plain_char x = true -> forallb q x = true) ->
  forallb q sep = true ->
  Forall plain_line ls -> forallb q (join sep ls) = true.
Proof.
  intros Himp Hsep H. apply forallb_join; [done|].
  eapply Forall_impl; [exact H|]. intros l [_ Hl]. by apply Himp.
Qed.

Lemma after_lt_join (P : str -> bool) (sep : str) (ls : list str) :
  (forall t w, P t = true -> P (t ++ w) = true) ->
  after_lt P sep = true ->
  Forall (fun l => after_lt P l = true) ls ->
  after_lt P (join sep ls) = true.
Proof.
  intros HP Hsep H. induction H as [|x l Hx Hl IH]; [done|].
  destruct l as [|y l]; [done|]. rewrite join_cons_cons.
  apply after_lt_app; [done|done|]. by apply after_lt_app.
Qed.

Lemma nl_next_app_l (a b : str) : nl_next (a ++ b) = true -> nl_next a = true.
Proof.
  induction a as [|c a IH]; [done|]. cbn [app nl_next].
  intros [Hc Ha]%andb_true_iff. rewrite IH by done. rewrite andb_true_r.
  destruct (c =? nl); [|done]. destruct a as [|d a]; [done|]. exact Hc.
Qed.

(** The cleaning of whitespace leaves lines without markup alone. *)
Lemma whitespace_rules_lines (ls : list str) :
  Forall plain_line ls -> ls <> [] ->
  strip (re_sub (Lit (u "&nbsp;")) 0 (fun _ => u " ")
           (re_sub blank_lines 0 (fun _ => [nl; nl]) (join [nl] ls)))
  = join [nl] ls.
Proof.
  intros H Hne.
  assert (Forall solid ls) as Hsolid
    by (eapply Forall_impl; [exact H|]; by intros l [? _]).
  destruct (joined_lines ls Hsolid Hne) as (Hnl & Hhead & Hj & Hlast).
  rewrite re_sub_blank_lines_absent by (by apply nl_next_app_l in Hnl).
  rewrite re_sub_lit_absent.
  2:{ apply (contains_absent_char (ch "&") (u "nbsp;")).
      apply plain_lines_chars; [apply plain_no_amp|reflexivity|done]. }
  apply strip_fixed; [|done].
  intros c Hc. apply Hhead. destruct (join [nl] ls); [done|]. exact Hc.
Qed.

Lemma re_sub_plain_prefix (p : str) (r : re) (ng : nat) (repl : caps -> str)
    (x rest : str) :
  head p = Some (ch "<") -> forallb (isnt (ch "<")) x = true ->
  re_sub (Lit p +++ r) ng repl (x ++ rest)
  = x ++ re_sub (Lit p +++ r) ng repl rest.
Proof.
  destruct p as [|a p]; [done|]. intros [= ->].
  induction x as [|c x IH]; [done|]. cbn [forallb app].
  intros [Hc Hx]%andb_true_iff.
  rewrite re_sub_miss, IH; [done|done|].
  apply match_here_lit_absent. by apply startswith_isnt.
Qed.

Lemma rep_greedy_all {A : Type} (p : N -> bool) (ws rest : str)
    (k : str -> option A) (a : A) :
  forallb p ws = true -> head_in p rest = false ->
  k rest = Some a -> rep_greedy p 0 (ws ++ rest) k = Some a.
Proof.
  intros Hws Hrest Hk. apply rep_greedy_longest.
  by rewrite run_length_app, drop_app_length.
Qed.

Lemma match_br (ws : str) (slash : bool) (rest : str) :
  forallb isspace ws = true ->
  match_here br_pattern 0 (br_tag ws slash ++ rest)
  = Some (length (br_tag ws slash), []).
Proof.
  intros Hws. unfold match_here, br_pattern, br_tag.
  rewrite <- !app_assoc. cbn [rmatch].
  rewrite startswith_app, drop_app_length.
  erewrite rep_greedy_all; [reflexivity|done|by destruct slash|].
  destruct slash.
  - rewrite startswith_app, drop_app_length, startswith_app, drop_app_length.
    do 2 f_equal. rewrite !length_app. lia.
  - cbn [app]. change (startswith (u "/") (u ">" ++ rest)) with false.
    cbn match. rewrite startswith_app, drop_app_length.
    do 2 f_equal. rewrite !length_app. lia.
Qed.

Lemma re_sub_br_lines (ws : str) (slash : bool) (ls : list str) :
  forallb isspace ws = true ->
  Forall plain_line ls ->
  re_sub br_pattern 0 (fun _ => [nl]) (join (br_tag ws slash) ls)
  = join [nl] ls.
Proof.
  intros Hws H. induction H as [|x l [_ Hx] Hl IH]; [reflexivity|].
  apply plain_no_lt in Hx.
  destruct l as [|y l].
  - cbn [join]. rewrite <- (app_nil_r x) at 1.
    unfold br_pattern. rewrite re_sub_plain_prefix by done.
    by rewrite app_nil_r.
  - rewrite !join_cons_cons. unfold br_pattern at 1.
    rewrite re_sub_plain_prefix by done. fold br_pattern.
    rewrite (re_sub_hit br_pattern 0 _ (br_tag ws slash) _ []);
      [by rewrite IH|by destruct slash|by apply match_br].
Qed.

Lemma space_not_markup (c : N) :
  isspace c = true -> (c =? ch "<") = false /\ (c =? ch "&") = false.
Proof.
  intros H%isspace_range. change (ch "<") with 60. change (ch "&") with 38.
  rewrite !N.eqb_neq. lia.
Qed.

Lemma br_tag_chars (ws : str) (slash : bool) :
  forallb isspace ws = true ->
  forallb (isnt (ch "&")) (br_tag ws slash) = true
  /\ after_lt (head_in (just (ch "b"))) (br_tag ws slash) = true.
Proof.
  intros Hws.
  assert (forallb (isnt (ch "&")) ws = true /\ forallb (isnt (ch "<")) ws = true)
    as [Hamp Hlt].
  { split; (eapply forallb_impl; [|exact Hws]); intros c Hc;
      destruct (space_not_markup c Hc) as [H1 H2]; unfold isnt;
      by rewrite ?H1, ?H2. }
  unfold br_tag. split.
  - rewrite !forallb_app, Hamp. by destruct slash.
  - change (u "<br" ++ ?z) with (ch "<" :: ch "b" :: ch "r" :: z).
    cbn [after_lt head_in]. change (just (ch "b") (ch "b")) with true.
    change (ch "b" =? ch "<") with false.
    change (ch "r" =? ch "<") with false. cbn [andb].
    apply after_lt_app; [apply head_in_app|by apply after_lt_none|].
    by destruct slash.
Qed.

(** X9: lines of text that are separated by a line break tag ([<br>],
    [<br/>], [<br />], with any whitespace after [br], the same tag
    between each two lines) come out as the same lines separated by line
    feeds, where each line is not empty, holds no [<], no ampersand and no
    line feed, and neither begins nor ends with whitespace. *)
Theorem line_breaks_to_line_feeds (L : pylib) (ws : str) (slash : bool)
    (ls : list str) :
  unescape_lib L ->
  forallb isspace ws = true ->
  Forall plain_line ls -> ls <> [] ->
  html_to_markdown L (join (br_tag ws slash) ls) = join [nl] ls.
Proof.
  intros HU Hws H Hne.
  destruct (br_tag_chars ws slash Hws) as [Hamp Hafter].
  set (s := join (br_tag ws slash) ls).
  assert (s <> []) as Hs.
  { apply join_nonempty; [done|]. eapply Forall_impl; [exact H|].
    by intros l [[? _] _]. }
  destruct s as [|c t] eqn:E; [done|]. clear Hs.
  rewrite html_to_markdown_rules, <- E.
  rewrite HU.
  2:{ apply (contains_absent_char (ch "&") []). unfold s.
      apply plain_lines_chars; [apply plain_no_amp|done|done]. }
  assert (after_lt (head_in (just (ch "b"))) s = true) as Hlt.
  { apply after_lt_join; [apply head_in_app|done|].
    eapply Forall_impl; [exact H|]. intros l [_ Hl].
    apply after_lt_none. by apply plain_no_lt. }
  change markup_rules with (take 4 markup_rules ++ drop 4 markup_rules).
  rewrite apply_rules_app.
  rewrite (apply_rules_fixed (take 4 markup_rules)).
  2:{ repeat apply Forall_cons_2; try apply Forall_nil_2;
        apply re_sub_absent; by apply (contains_after_lt (just (ch "b"))). }
  change (drop 4 markup_rules)
    with (re_sub br_pattern 0 (fun _ => [nl]) :: drop 5 markup_rules).
  rewrite apply_rules_cons. unfold s. rewrite re_sub_br_lines by done.
  rewrite apply_rules_fixed.
  2:{ apply Forall_drop_rules.
      apply plain_lines_chars; [apply plain_no_lt|reflexivity|done]. }
  by apply whitespace_rules_lines.
Qed.

Lemma line_breaks_to_line_feeds_witness :
  html_to_markdown CPython.lib
    (join (br_tag (u " ") true) [u "Roses are red"; u "Violets are blue"])
  = join [nl] [u "Roses are red"; u "Violets are blue"].
Proof.
  apply (line_breaks_to_line_feeds CPython.lib (u " ") true
           [u "Roses are red"; u "Violets are blue"]).
  - apply cpython_unescape_lib.
  - reflexivity.
  - repeat apply Forall_cons_2; try apply Forall_nil_2;
      (split; [|vm_compute; reflexivity]);
      (split; [done|]); (split; [vm_compute; reflexivity|]);
      split; intros c [= <-]; reflexivity.
  - done.
Defined.

(** ** Paragraphs *)

Lemma element_shape (name : string) (x rest : str) :
  element name x ++ rest
  = (u "<" ++ u name) ++ u ">" ++ x ++ (u "</" ++ u name ++ u ">") ++ rest.
Proof. unfold element. by rewrite <- !app_assoc. Qed.

Lemma match_plain_element (name : string) (x rest : str) :
  forallb (isnt (ch "<")) x = true ->
  match_here (re_element name) 1 (element name x ++ rest)
  = Some (length (element name x), [Some x]).
Proof.
  intros Hx.
  rewrite element_shape, match_element by (by apply element_close_nowhere).
  unfold element. by rewrite <- !app_assoc.
Qed.

Lemma re_sub_elements (name : string) (repl : caps -> str) (xs : list str) :
  Forall (fun x => forallb (isnt (ch "<")) x = true) xs ->
  re_sub (re_element name) 1 repl (concat (map (element name) xs))
  = concat (map (fun x => repl [Some x]) xs).
Proof.
  induction 1 as [|x l Hx _ IH]; [reflexivity|]. cbn [map concat].
  rewrite (re_sub_hit _ _ _ (element name x) _ [Some x]);
    [by rewrite IH|done|by apply match_plain_element].
Qed.

Lemma element_after_lt (T : N -> bool) (name : string) (x : str) :
  head_in T (u name) = true -> T (ch "/") = true ->
  forallb (isnt (ch "<")) (u name) = true ->
  forallb (isnt (ch "<")) x = true ->
  after_lt (head_in T) (element name x) = true.
Proof.
  intros Hopen Hclose Hname Hx. unfold element.
  change (u "<" ++ ?z) with (ch "<" :: z). cbn [after_lt].
  rewrite N.eqb_refl, head_in_app by done. cbn [andb].
  apply after_lt_app; [apply head_in_app|by apply after_lt_none|].
  apply after_lt_app; [apply head_in_app|reflexivity|].
  apply after_lt_app; [apply head_in_app|by apply after_lt_none|].
  change (u "</" ++ ?z) with (ch "<" :: ch "/" :: z). cbn [after_lt head_in].
  rewrite N.eqb_refl, Hclose. change (ch "/" =? ch "<") with false.
  cbn [andb].
  apply after_lt_app; [apply head_in_app|by apply after_lt_none|reflexivity].
Qed.

Lemma elements_after_lt (T : N -> bool) (name : string) (xs : list str) :
  head_in T (u name) = true -> T (ch "/") = true ->
  forallb (isnt (ch "<")) (u name) = true ->
  Forall (fun x => forallb (isnt (ch "<")) x = true) xs ->
  after_lt (head_in T) (concat (map (element name) xs)) = true.
Proof.
  intros Hopen Hclose Hname. induction 1 as [|x l Hx _ IH]; [done|].
  cbn [map concat].
  apply after_lt_app; [apply head_in_app|by apply element_after_lt|done].
Qed.

Lemma elements_chars (q : N -> bool) (name : string) (xs : list str) :
  forallb q (u "</>") = true -> forallb q (u name) = true ->
  Forall (fun x => forallb q x = true) xs ->
  forallb q (concat (map (element name) xs)) = true.
Proof.
  intros Hq Hname. change (u "</>") with [ch "<"; ch "/"; ch ">"] in Hq.
  cbn [forallb] in Hq.
  apply andb_true_iff in Hq as [Hlt Hq].
  apply andb_true_iff in Hq as [Hsl Hq].
  apply andb_true_iff in Hq as [Hgt _].
  induction 1 as [|x l Hx _ IH]; [done|].
  cbn [map concat]. unfold element at 1.
  rewrite !forallb_app, Hname, Hx, IH.
  change (u "<") with [ch "<"]. change (u ">") with [ch ">"].
  change (u "</") with [ch "<"; ch "/"]. cbn [forallb].
  by rewrite Hlt, Hsl, Hgt.
Qed.

Lemma plain_line_no_lt (ls : list str) :
  Forall plain_line ls ->
  Forall (fun x => forallb (isnt (ch "<")) x = true) ls.
Proof.
  intros H. eapply Forall_impl; [exact H|]. intros l [_ Hl].
  by apply plain_no_lt.
Qed.

Lemma match_here_blank_pair (rest : str) :
  rest = [] \/ head_in (fun d => negb (isspace d)) rest = true ->
  match_here blank_lines 0 (nl :: nl :: rest) = None.
Proof.
  intros H. unfold match_here, blank_lines. cbn [rmatch].
  change (startswith [nl] (nl :: nl :: rest)) with true. cbn match.
  change (drop (length [nl]) (nl :: nl :: rest)) with (nl :: rest).
  cbn [rep_greedy]. change (isspace nl) with true. cbn match.
  change (Nat.pred 0) with 0%nat.
  destruct H as [->|H].
  - reflexivity.
  - destruct rest as [|d t]; [done|]. cbn in H. apply negb_true_iff in H.
    rewrite !rep_greedy_stop by done.
    assert ((nl =? d) = false) as Hd
      by (destruct (N.eqb_spec nl d) as [<-|]; done).
    cbn [startswith]. rewrite Hd. cbn [andb]. cbn match.
    rewrite N.eqb_refl. cbn [andb drop length].
    rewrite rep_greedy_stop by done. cbn [startswith]. by rewrite Hd.
Qed.

Lemma re_sub_blank_skip (repl : caps -> str) (x z : str) :
  forallb (isnt nl) x = true ->
  re_sub blank_lines 0 repl (x ++ z) = x ++ re_sub blank_lines 0 repl z.
Proof.
  induction x as [|c x IH]; [done|]. cbn [forallb app].
  intros [Hc Hx]%andb_true_iff.
  rewrite re_sub_miss, IH; [done|done|].
  apply match_here_blank_lines. left. unfold isnt in Hc.
  by apply negb_true_iff in Hc.
Qed.

Lemma paragraphs_head (ps : list str) :
  Forall plain_line ps ->
  concat (map (fun x => x ++ [nl; nl]) ps) = []
  \/ head_in (fun d => negb (isspace d))
       (concat (map (fun x => x ++ [nl; nl]) ps)) = true.
Proof.
  intros [|x l [(Hne & _ & Hh & _) _] _]; [by left|right].
  cbn [map concat]. destruct x as [|c x]; [done|]. cbn.
  by rewrite (Hh c eq_refl).
Qed.

Lemma re_sub_blank_paragraphs (repl : caps -> str) (ps : list str) :
  Forall plain_line ps ->
  re_sub blank_lines 0 repl (concat (map (fun x => x ++ [nl; nl]) ps))
  = concat (map (fun x => x ++ [nl; nl]) ps).
Proof.
  induction 1 as [|x l Hx Hl IH]; [reflexivity|]. cbn [map concat].
  rewrite <- !app_assoc.
  rewrite re_sub_blank_skip by (destruct Hx as [_ Hp]; by apply plain_no_nl).
  cbn [app].
  rewrite re_sub_miss by (apply match_here_blank_pair; by apply paragraphs_head).
  rewrite re_sub_miss.
  2:{ apply match_here_blank_lines. right.
      destruct (paragraphs_head l Hl) as [->|H]; [by right|by left]. }
  by rewrite IH.
Qed.

Lemma concat_sep_join (sep : str) (ps : list str) :
  ps <> [] ->
  concat (map (fun x => x ++ sep) ps) = join sep ps ++ sep.
Proof.
  induction ps as [|x [|y l] IH]; [done| |]; intros _.
  - cbn. by rewrite app_nil_r.
  - rewrite join_cons_cons. cbn [map concat] in *.
    rewrite IH by done. by rewrite <- !app_assoc.
Qed.

Lemma joined_ends (sep : str) (ls : list str) :
  Forall solid ls -> ls <> [] ->
  join sep ls <> []
  /\ (forall c, head (join sep ls) = Some c -> isspace c = false)
  /\ (forall c, last (join sep ls) = Some c -> isspace c = false).
Proof.
  intros H Hne. split; [|split].
  - apply join_nonempty; [done|]. eapply Forall_impl; [exact H|].
    by intros l [? _].
  - destruct ls as [|x l]; [done|]. apply Forall_cons_1 in H as [Hx _].
    destruct Hx as (Hx & _ & Hh & _). by rewrite head_join.
  - destruct (exists_last Hne) as (l & x & ->).
    apply Forall_app in H as [_ Hx]. apply Forall_cons_1 in Hx as [Hx _].
    destruct Hx as (Hx & _ & _ & Hl). by rewrite last_join.
Qed.

Lemma strip_blank_line (s : str) :
  s <> [] ->
  (forall c, head s = Some c -> isspace c = false) ->
  (forall c, last s = Some c -> isspace c = false) ->
  strip (s ++ [nl; nl]) = s.
Proof.
  intros Hne Hh Hl. unfold strip, strip_by.
  rewrite lstrip_fixed by (destruct s; [done|exact Hh]).
  change (s ++ [nl; nl]) with (s ++ [nl] ++ [nl]).
  rewrite app_assoc, !rstrip_space_nl. by apply rstrip_fixed.
Qed.

(** X10: paragraphs, each a [<p>] element without attributes around one
    line of text, come out as those lines with one empty line between each
    two of them, where each line is not empty, holds no [<], no ampersand
    and no line feed, and neither begins nor ends with whitespace. *)
Theorem paragraphs_to_markdown (L : pylib) (ps : list str) :
  unescape_lib L ->
  Forall plain_line ps -> ps <> [] ->
  html_to_markdown L (concat (map (element "p") ps)) = join [nl; nl] ps.
Proof.
  intros HU H Hne. pose proof (plain_line_no_lt ps H) as Hlt.
  set (s := concat (map (element "p") ps)).
  assert (exists c t, s = c :: t) as (c & t & E)
    by (unfold s; destruct ps; [done|by eexists _, _]).
  rewrite E, html_to_markdown_rules, <- E.
  rewrite HU.
  2:{ apply (contains_absent_char (ch "&") []).
      apply elements_chars; [reflexivity|reflexivity|].
      eapply Forall_impl; [exact H|]. intros l [_ Hl].
      by apply plain_no_amp. }
  assert (after_lt (head_in (tag_char (ch "p"))) s = true) as Hafter
    by (by apply elements_after_lt).
  change markup_rules with (take 3 markup_rules ++ drop 3 markup_rules).
  rewrite apply_rules_app.
  rewrite (apply_rules_fixed (take 3 markup_rules)).
  2:{ repeat apply Forall_cons_2; try apply Forall_nil_2;
        apply re_sub_absent; by apply (contains_after_lt (tag_char (ch "p"))). }
  change (drop 3 markup_rules)
    with (re_sub (re_element "p") 1 (fun m => grp m 0 ++ [nl; nl])
          :: drop 4 markup_rules).
  rewrite apply_rules_cons. unfold s. rewrite re_sub_elements by done.
  change (fun x : str => grp [Some x] 0 ++ [nl; nl])
    with (fun x : str => x ++ [nl; nl]).
  set (R := concat (map (fun x => x ++ [nl; nl]) ps)).
  assert (forall q, q nl = true ->
            (forall x, forallb plain_char x = true -> forallb q x = true) ->
            forallb q R = true) as HR.
  { intros q Hq Himp. unfold R. clear -H Hq Himp.
    induction H as [|x l [_ Hx] _ IH]; [done|]. cbn [map concat].
    rewrite !forallb_app, (Himp x Hx), IH. cbn. by rewrite Hq. }
  rewrite apply_rules_fixed
    by (apply Forall_drop_rules, HR; [reflexivity|apply plain_no_lt]).
  unfold R. rewrite re_sub_blank_paragraphs by done. fold R.
  rewrite re_sub_lit_absent
    by (apply (contains_absent_char (ch "&") (u "nbsp;")), HR;
        [reflexivity|apply plain_no_amp]).
  unfold R. rewrite concat_sep_join by done.
  assert (Forall solid ps) as Hsolid
    by (eapply Forall_impl; [exact H|]; by intros l [? _]).
  destruct (joined_ends [nl; nl] ps Hsolid Hne) as (? & ? & ?).
  by apply strip_blank_line.
Qed.

Lemma paragraphs_to_markdown_witness :
  html_to_markdown CPython.lib
    (concat (map (element "p") [u "First thoughts."; u "Second thoughts."]))
  = join [nl; nl] [u "First thoughts."; u "Second thoughts."].
Proof.
  apply (paragraphs_to_markdown CPython.lib
           [u "First thoughts."; u "Second thoughts."]).
  - apply cpython_unescape_lib.
  - repeat apply Forall_cons_2; try apply Forall_nil_2;
      (split; [|vm_compute; reflexivity]);
      (split; [done|]); (split; [vm_compute; reflexivity|]);
      split; intros c [= <-]; reflexivity.
  - done.
Defined.

(** ** Quotations *)

Lemma contains_app_r (p m s : str) :
  contains p s = true -> contains p (m ++ s) = true.
Proof.
  intros H. induction m as [|c m IH]; [done|].
  cbn [app contains]. by rewrite IH, orb_true_r.
Qed.

Lemma contains_start (p s : str) :
  startswith p s = true -> contains p s = true.
Proof. intros H. destruct s; cbn [contains]; by rewrite H. Qed.

(** A match of a pattern that ends with a literal holds the literal. *)
Lemma rmatch_lit_contains {A : Type} (l : str) (s : str) (g : caps)
    (k : str -> caps -> option A) (a : A) :
  rmatch (Lit l) s g k = Some a -> contains l s = true.
Proof.
  cbn [rmatch]. destruct (startswith l s) eqn:E; [|done].
  intros _. by apply contains_start.
Qed.

Lemma rmatch_cat_contains {A : Type} (r1 r2 : re) (l : str) :
  (forall s g (k : str -> caps -> option A) a,
     rmatch r2 s g k = Some a -> contains l s = true) ->
  forall s g (k : str -> caps -> option A) a,
    rmatch (r1 +++ r2) s g k = Some a -> contains l s = true.
Proof.
  intros H2 s g k a H. rewrite rmatch_cat in H.
  apply rmatch_result in H as (m & s' & g' & -> & _ & H & _).
  apply contains_app_r. by eapply H2.
Qed.

Lemma match_element_closed (name : string) (s : str) (n : nat) (g : caps) :
  match_here (re_element name) 1 s = Some (n, g) ->
  contains (u "</" ++ u name ++ u ">") s = true.
Proof.
  unfold match_here, re_element.
  do 4 apply rmatch_cat_contains. apply rmatch_lit_contains.
Qed.

(** An element rule leaves a text alone when its closing tag is
    nowhere. *)
Lemma re_sub_element_unclosed (name : string) (repl : caps -> str)
    (s : str) :
  contains (u "</" ++ u name ++ u ">") s = false ->
  re_sub (re_element name) 1 repl s = s.
Proof.
  induction s as [|c t IH]; intros H.
  - apply re_sub_nil. reflexivity.
  - pose proof (contains_cons _ _ _ H) as [_ Ht].
    rewrite re_sub_miss, IH; [done|done|].
    destruct (match_here (re_element name) 1 (c :: t)) as [[n g]|] eqn:E;
      [|done].
    apply match_element_closed in E. congruence.
Qed.

Lemma replace_go_skip (new x z : str) :
  forallb (isnt nl) x = true ->
  replace_go [nl] new 0 (x ++ z) = x ++ replace_go [nl] new 0 z.
Proof.
  induction x as [|c x IH]; [done|]. cbn [forallb app].
  intros [Hc Hx]%andb_true_iff. cbn [replace_go startswith].
  unfold isnt in Hc. apply negb_true_iff in Hc.
  rewrite (N.eqb_sym nl c), Hc. cbn [andb]. by rewrite IH.
Qed.

Lemma replace_lines (new : str) (ls : list str) :
  Forall (fun l => forallb (isnt nl) l = true) ls ->
  replace [nl] new (join [nl] ls) = join new ls.
Proof.
  unfold replace. induction 1 as [|x l Hx Hl IH]; [done|].
  destruct l as [|y l].
  - cbn [join]. rewrite <- (app_nil_r x) at 1.
    rewrite replace_go_skip by done. cbn. by rewrite app_nil_r.
  - rewrite !join_cons_cons, replace_go_skip by done.
    cbn [app replace_go startswith]. rewrite N.eqb_refl. cbn [andb length].
    change (Nat.pred 1) with 0%nat. by rewrite IH.
Qed.

Lemma quoted_lines (ls : list str) :
  ls <> [] ->
  u "> " ++ join (nl :: u "> ") ls = join [nl] (map quoted ls).
Proof.
  induction ls as [|x [|y l] IH]; [done|done|]. intros _.
  cbn [map]. rewrite !join_cons_cons. unfold quoted at 1.
  rewrite <- app_assoc. f_equal. f_equal. cbn [app]. f_equal.
  by apply IH.
Qed.

Lemma quoted_plain_line (l : str) : plain_line l -> plain_line (quoted l).
Proof.
  intros [(Hne & Hnl & Hh & Hl) Hp]. unfold quoted. repeat split.
  - done.
  - by rewrite forallb_app, Hnl.
  - by intros c [= <-].
  - intros c. rewrite last_app.
    destruct (last l) eqn:E; [by intros [= <-]; apply Hl|].
    by apply last_None in E.
  - by rewrite forallb_app, Hp.
Qed.

(** X11: a [<blockquote>] element without attributes around lines of text
    becomes those lines, each after a [>] and a space, where each line is
    not empty, holds no [<] and no ampersand, and neither begins nor ends
    with whitespace.  The rule for [<b>] comes earlier and its pattern
    also matches the opening tag of the quotation, but it finds no [</b>]
    to close it. *)
Theorem blockquote_to_markdown (L : pylib) (ls : list str) :
  unescape_lib L ->
  Forall plain_line ls -> ls <> [] ->
  html_to_markdown L (element "blockquote" (join [nl] ls))
  = join [nl] (map quoted ls).
Proof.
  intros HU H Hne.
  set (body := join [nl] ls).
  assert (forall q, q nl = true ->
            (forall x, forallb plain_char x = true -> forallb q x = true) ->
            forallb q body = true) as Hbody.
  { intros q Hq Himp. apply plain_lines_chars; [done|by cbn; rewrite Hq|done]. }
  assert (forallb (isnt (ch "<")) body = true) as Hlt
    by (apply Hbody; [reflexivity|apply plain_no_lt]).
  set (s := element "blockquote" body).
  change s with (ch "<" :: (u "blockquote" ++ u ">" ++ body
                            ++ u "</" ++ u "blockquote" ++ u ">")).
  rewrite html_to_markdown_rules.
  change (ch "<" :: (u "blockquote" ++ u ">" ++ body
                     ++ u "</" ++ u "blockquote" ++ u ">")) with s.
  rewrite HU.
  2:{ apply (contains_absent_char (ch "&") []). unfold s, element.
      rewrite !forallb_app, Hbody; [reflexivity|reflexivity|].
      apply plain_no_amp. }
  assert (after_lt (head_in (tag_char (ch "b"))) s = true) as Hafter
    by (by apply element_after_lt).
  assert (forall p, head p = Some (ch "<") ->
            clash_all p (u "<blockquote>") = true ->
            contains p (u "</blockquote>") = false ->
            contains p s = false) as Hctx.
  { intros p Hp Ha Hb.
    change s with (u "<blockquote>" ++ body ++ u "</blockquote>").
    by apply contains_ctx. }
  change markup_rules with (take 11 markup_rules ++ drop 11 markup_rules).
  rewrite apply_rules_app.
  rewrite (apply_rules_fixed (take 11 markup_rules)).
  2:{ repeat apply Forall_cons_2; try apply Forall_nil_2;
        first [ apply re_sub_absent;
                by apply (contains_after_lt (tag_char (ch "b")))
              | apply re_sub_absent; by apply Hctx
              | apply re_sub_element_unclosed; by apply Hctx ]. }
  change (drop 11 markup_rules)
    with (re_sub (re_element "blockquote") 1
            (fun m => u "> " ++ replace [nl] (nl :: u "> ") (strip (grp m 0)))
          :: drop 12 markup_rules).
  rewrite apply_rules_cons. unfold s, element.
  rewrite re_sub_element_whole by (by apply element_close_nowhere).
  change (grp [Some body] 0) with body.
  assert (Forall solid ls) as Hsolid
    by (eapply Forall_impl; [exact H|]; by intros l [? _]).
  destruct (joined_ends [nl] ls Hsolid Hne) as (_ & Hh & Hl).
  unfold strip at 2. rewrite (strip_fixed isspace body) by done.
  unfold body. rewrite replace_lines.
  2:{ eapply Forall_impl; [exact Hsolid|]. by intros l (_ & ? & _). }
  rewrite quoted_lines by done.
  assert (Forall plain_line (map quoted ls)) as Hq.
  { apply Forall_map. eapply Forall_impl; [exact H|].
    apply quoted_plain_line. }
  rewrite apply_rules_fixed.
  2:{ apply Forall_drop_rules.
      apply plain_lines_chars; [apply plain_no_lt|reflexivity|done]. }
  apply whitespace_rules_lines; [done|]. by destruct ls.
Qed.

Lemma blockquote_to_markdown_witness :
  html_to_markdown CPython.lib
    (element "blockquote" (join [nl] [u "To be,"; u "or not to be."]))
  = join [nl] (map quoted [u "To be,"; u "or not to be."]).
Proof.
  apply (blockquote_to_markdown CPython.lib [u "To be,"; u "or not to be."]).
  - apply cpython_unescape_lib.
  - repeat apply Forall_cons_2; try apply Forall_nil_2;
      (split; [|vm_compute; reflexivity]);
      (split; [done|]); (split; [vm_compute; reflexivity|]);
      split; intros c [= <-]; reflexivity.
  - done.
Defined.

(** ** Code *)

(** X12: a [<code>] element around a text without markup, ampersand or
    line feed becomes that text between two backticks. *)
Theorem inline_code_to_markdown (L : pylib) (x : str) :
  unescape_lib L ->
  forallb plain_char x = true ->
  html_to_markdown L (element "code" x) = u "`" ++ x ++ u "`".
Proof.
  intros HU Hx. pose proof (plain_no_lt x Hx) as Hlt.
  assert (forall p r ng repl,
            head p = Some (ch "<") ->
            clash_all p (u "<code>") = true ->
            contains p (u "</code>") = false ->
            re_sub (Lit p +++ r) ng repl (element "code" x)
            = element "code" x) as Habs.
  { intros p r ng repl Hp Ha Hb. apply re_sub_absent.
    change (element "code" x) with (u "<code>" ++ x ++ u "</code>").
    by apply contains_ctx. }
  apply (emphasis_rule L 13 "code" "`"); try done.
  - by exists (ch "`").
  - repeat apply Forall_cons_2; try apply Forall_nil_2; by apply Habs.
Qed.

Lemma inline_code_to_markdown_witness :
  html_to_markdown CPython.lib (element "code" (u "x = y + 1"))
  = u "`" ++ u "x = y + 1" ++ u "`".
Proof.
  apply (inline_code_to_markdown CPython.lib (u "x = y + 1")).
  - apply cpython_unescape_lib.
  - vm_compute. reflexivity.
Defined.

Lemma match_code_block (body : str) :
  forallb (isnt (ch "<")) body = true ->
  match_here pre_pattern 1 (code_block body ++ [])
  = Some (length (code_block body), [Some body]).
Proof.
  intros Hb. rewrite app_nil_r. unfold match_here, pre_pattern, code_block.
  change (u "<pre><code>" ++ body ++ u "</code></pre>")
    with (u "<pre" ++ ch ">" :: u "<code" ++ ch ">"
          :: body ++ u "</code></pre>").
  cbn [rmatch]. rewrite startswith_app, drop_app_length.
  rewrite rep_greedy_stop by reflexivity.
  change (ch ">" :: u "<code" ++ ?z) with (u "><code" ++ z).
  rewrite startswith_app, drop_app_length.
  rewrite rep_greedy_stop by reflexivity.
  set (s0 := body ++ u "</code></pre>").
  replace (startswith (u ">") (ch ">" :: s0)) with true by reflexivity.
  change (drop (length (u ">")) (ch ">" :: s0)) with s0.
  unfold s0 at 1. rewrite rep_lazy_first; [|apply forallb_any|].
  2:{ intros i Hi.
      by rewrite (starts_nowhere_plain (u "/code></pre>") body). }
  erewrite rep_lazy_now; [reflexivity|].
  change (startswith (u "</code></pre>") (u "</code></pre>")) with true.
  change (drop (length (u "</code></pre>")) (u "</code></pre>"))
    with (@nil N).
  cbn match. do 2 f_equal.
  cbn [replicate list_insert]. unfold s0. rewrite length_app.
  replace (_ + _ - _)%nat with (length body) by lia.
  by rewrite take_app_length.
Qed.

Lemma join_snoc (sep : str) (ls : list str) (x : str) :
  ls <> [] -> join sep (ls ++ [x]) = join sep ls ++ sep ++ x.
Proof.
  induction ls as [|a [|b l] IH]; [done|done|]. intros _.
  cbn [app] in *. rewrite !join_cons_cons, IH by done.
  by rewrite <- !app_assoc.
Qed.

Lemma fenced_lines (ls : list str) :
  ls <> [] ->
  join [nl] (fence :: ls ++ [fence])
  = u "```" ++ [nl] ++ join [nl] ls ++ [nl] ++ u "```".
Proof.
  intros Hne. destruct ls as [|x l]; [done|].
  change (fence :: (x :: l) ++ [fence]) with (fence :: x :: (l ++ [fence])).
  rewrite join_cons_cons.
  change (x :: l ++ [fence]) with ((x :: l) ++ [fence]).
  by rewrite join_snoc.
Qed.

Lemma fence_line : plain_line fence.
Proof.
  repeat split; try done; by intros c [= <-].
Qed.

(** X13: a code block, [<pre><code>] without attributes around lines of
    text, becomes those lines between two fences of three backticks, where
    each line is not empty, holds no [<] and no ampersand, and neither
    begins nor ends with whitespace (so no line is indented).  The rule
    for paragraphs comes earlier and its pattern also matches [<pre>], but
    it finds no [</p>] to close it. *)
Theorem code_block_to_markdown (L : pylib) (ls : list str) :
  unescape_lib L ->
  Forall plain_line ls -> ls <> [] ->
  html_to_markdown L (code_block (join [nl] ls))
  = join [nl] (fence :: ls ++ [fence]).
Proof.
  intros HU H Hne.
  set (body := join [nl] ls).
  assert (forall q, q nl = true ->
            (forall x, forallb plain_char x = true -> forallb q x = true) ->
            forallb q body = true) as Hbody.
  { intros q Hq Himp. apply plain_lines_chars; [done|by cbn; rewrite Hq|done]. }
  assert (forallb (isnt (ch "<")) body = true) as Hlt
    by (apply Hbody; [reflexivity|apply plain_no_lt]).
  set (s := code_block body).
  change s with (ch "<" :: (u "pre><code>" ++ body ++ u "</code></pre>")).
  rewrite html_to_markdown_rules.
  change (ch "<" :: (u "pre><code>" ++ body ++ u "</code></pre>")) with s.
  change s with (u "<pre><code>" ++ body ++ u "</code></pre>") at 1.
  rewrite HU.
  2:{ apply (contains_absent_char (ch "&") []).
      rewrite !forallb_app, Hbody; [reflexivity|reflexivity|].
      apply plain_no_amp. }
  assert (after_lt (head_in code_tag_char)
            (u "<pre><code>" ++ body ++ u "</code></pre>") = true) as Hafter.
  { apply after_lt_app; [apply head_in_app|reflexivity|].
    apply after_lt_app; [apply head_in_app|by apply after_lt_none|].
    reflexivity. }
  assert (forall p, head p = Some (ch "<") ->
            clash_all p (u "<pre><code>") = true ->
            contains p (u "</code></pre>") = false ->
            contains p (u "<pre><code>" ++ body ++ u "</code></pre>") = false)
    as Hctx.
  { intros p Hp Ha Hb. by apply contains_ctx. }
  change markup_rules with (take 12 markup_rules ++ drop 12 markup_rules).
  rewrite apply_rules_app.
  rewrite (apply_rules_fixed (take 12 markup_rules)).
  2:{ repeat apply Forall_cons_2; try apply Forall_nil_2;
        first [ apply re_sub_absent;
                by apply (contains_after_lt code_tag_char)
              | apply re_sub_element_unclosed; by apply Hctx ]. }
  change (drop 12 markup_rules)
    with (re_sub pre_pattern 1
            (fun m => u "```" ++ [nl] ++ grp m 0 ++ [nl] ++ u "```")
          :: drop 13 markup_rules).
  rewrite apply_rules_cons.
  change (u "<pre><code>" ++ body ++ u "</code></pre>") with (code_block body).
  rewrite (re_sub_whole pre_pattern 1 _ (code_block body) [Some body]);
    [|done|reflexivity|by apply match_code_block].
  change (grp [Some body] 0) with body.
  replace (u "```" ++ [nl] ++ body ++ [nl] ++ u "```")
    with (join [nl] (fence :: ls ++ [fence])).
  2:{ unfold body. by apply fenced_lines. }
  assert (Forall plain_line (fence :: ls ++ [fence])) as Hq.
  { apply Forall_cons_2; [apply fence_line|].
    apply Forall_app. split; [done|].
    apply Forall_cons_2; [apply fence_line|done]. }
  rewrite apply_rules_fixed.
  2:{ apply Forall_drop_rules.
      apply plain_lines_chars; [apply plain_no_lt|reflexivity|done]. }
  by apply whitespace_rules_lines.
Qed.

Lemma code_block_to_markdown_witness :
  html_to_markdown CPython.lib
    (code_block (join [nl] [u "x = 1"; u "print(x)"]))
  = join [nl] (fence :: [u "x = 1"; u "print(x)"] ++ [fence]).
Proof.
  apply (code_block_to_markdown CPython.lib [u "x = 1"; u "print(x)"]).
  - apply cpython_unescape_lib.
  - repeat apply Forall_cons_2; try apply Forall_nil_2;
      (split; [|vm_compute; reflexivity]);
      (split; [done|]); (split; [vm_compute; reflexivity|]);
      split; intros c [= <-]; reflexivity.
  - done.
Defined.

(** ** Links *)

Lemma rep_greedy_none {A : Type} (p : N -> bool) (k : str -> option A)
    (t : str) :
  (forall j, (j <= run_length p t)%nat -> k (drop j t) = None) ->
  rep_greedy p 0 t k = None.
Proof.
  induction t as [|d t IH]; intros H.
  - exact (H 0%nat (Nat.le_0_l _)).
  - cbn [rep_greedy]. change (Nat.pred 0) with 0%nat.
    pose proof (H 0%nat (Nat.le_0_l _)) as H0. cbn in H0.
    destruct (p d) eqn:Hd; [|done].
    rewrite IH; [done|]. intros j Hj. apply (H (S j)).
    cbn [run_length]. rewrite Hd. lia.
Qed.

(** A greedy repetition gives back all it has taken but its first
    character when what follows matches nowhere else. *)
Lemma rep_greedy_first_char {A : Type} (p : N -> bool) (c : N) (t : str)
    (k : str -> option A) :
  p c = true ->
  (forall j, (0 < j <= run_length p t)%nat -> k (drop j t) = None) ->
  rep_greedy p 1 (c :: t) k = k t.
Proof.
  intros Hc H. cbn [rep_greedy]. rewrite Hc. change (Nat.pred 1) with 0%nat.
  assert (rep_greedy p 0 t k = k t) as ->; [|by destruct (k t)].
  destruct t as [|d t]; [done|]. cbn [rep_greedy].
  change (Nat.pred 0) with 0%nat.
  destruct (p d) eqn:Hd; [|done].
  rewrite rep_greedy_none; [done|]. intros j Hj. apply (H (S j)).
  cbn [run_length]. rewrite Hd. lia.
Qed.

Lemma startswith_before_quote (d : N) (p v z : str) :
  forallb (isnt d) p = true ->
  startswith (p ++ [d]) (v ++ d :: z) = true -> startswith p v = true.
Proof.
  revert v. induction p as [|a p IH]; intros v Hp H; [done|].
  cbn [forallb] in Hp. apply andb_true_iff in Hp as [Ha Hp].
  destruct v as [|b v].
  - cbn in H. apply andb_true_iff in H as [H _]. unfold isnt in Ha.
    by rewrite H in Ha.
  - cbn [app startswith] in *. apply andb_true_iff in H as [-> H].
    by apply IH.
Qed.

Lemma contains_drop (p s : str) : forall i,
  startswith p (drop i s) = true -> contains p s = true.
Proof.
  induction s as [|c s IH]; intros i H.
  - rewrite drop_nil in H. by apply contains_start.
  - destruct i as [|i]; [by apply contains_start|].
    cbn [drop] in H. cbn [contains]. by rewrite (IH i), orb_true_r.
Qed.

Lemma href_nowhere_else (href rest : str) :
  contains (u "href=") href = false ->
  forall j, (0 < j <= length href + 7)%nat ->
    startswith (u "href=" ++ [dq])
      (drop j ((u "href=" ++ [dq]) ++ href ++ dq :: ch ">" :: rest)) = false.
Proof.
  intros Hno j Hj.
  do 6 (destruct j as [|j]; [try lia; reflexivity|]).
  change (drop (S (S (S (S (S (S j))))))
            ((u "href=" ++ [dq]) ++ href ++ dq :: ch ">" :: rest))
    with (drop j (href ++ dq :: ch ">" :: rest)).
  destruct (decide (j <= length href)%nat) as [Hle|Hgt].
  - rewrite drop_app_le by done.
    destruct (startswith _ _) eqn:E; [|done].
    apply startswith_before_quote in E; [|reflexivity].
    apply contains_drop in E. congruence.
  - rewrite drop_app_ge by lia.
    replace (j - length href)%nat with 1%nat by lia. reflexivity.
Qed.

Lemma href_run (href rest : str) :
  forallb (isnt (ch ">")) href = true ->
  run_length (isnt (ch ">"))
    ((u "href=" ++ [dq]) ++ href ++ dq :: ch ">" :: rest)
  = (length href + 7)%nat.
Proof.
  intros H.
  replace ((u "href=" ++ [dq]) ++ href ++ dq :: ch ">" :: rest)
    with (((u "href=" ++ [dq]) ++ href ++ [dq]) ++ ch ">" :: rest)
    by (by rewrite <- !app_assoc).
  rewrite run_length_app.
  - rewrite !length_app. change (length (u "href=")) with 5%nat.
    cbn [length]. lia.
  - by rewrite !forallb_app, H.
  - reflexivity.
Qed.

Lemma match_anchor (href text : str) :
  href <> [] ->
  forallb (isnt dq) href = true ->
  forallb (isnt (ch ">")) href = true ->
  contains (u "href=") href = false ->
  forallb (isnt (ch "<")) text = true ->
  match_here link_pattern 2 (anchor href text ++ [])
  = Some (length (anchor href text), [Some href; Some text]).
Proof.
  intros Hne Hdq Hgt Hno Htext. rewrite app_nil_r.
  unfold match_here, link_pattern, anchor.
  change (u "<a href=" ++ [dq] ++ href ++ [dq] ++ u ">" ++ text ++ u "</a>")
    with (u "<a" ++ ch " " :: (u "href=" ++ [dq]) ++ href
          ++ dq :: ch ">" :: text ++ u "</a>").
  cbn [rmatch]. rewrite startswith_app, drop_app_length.
  rewrite rep_greedy_first_char; [|reflexivity|].
  2:{ intros j Hj. rewrite href_run in Hj by done.
      by rewrite href_nowhere_else. }
  rewrite startswith_app, drop_app_length.
  rewrite rep_greedy_run.
  2:{ intros c t Hc. by rewrite startswith_isnt. }
  rewrite run_length_app; [|done|reflexivity].
  destruct href as [|c0 href0] eqn:Ehref; [done|]. rewrite <- Ehref in *.
  replace (1 <=? length href)%nat with true by (by rewrite Ehref).
  rewrite drop_app_length.
  change (dq :: ch ">" :: text ++ u "</a>")
    with ([dq] ++ ch ">" :: text ++ u "</a>").
  rewrite startswith_app, drop_app_length.
  rewrite rep_greedy_stop by reflexivity.
  change (ch ">" :: text ++ u "</a>") with (u ">" ++ text ++ u "</a>").
  rewrite startswith_app, drop_app_length.
  rewrite rep_lazy_first; [|apply forallb_any|].
  2:{ intros i Hi. by rewrite (starts_nowhere_plain (u "/a>") text). }
  erewrite rep_lazy_now; [reflexivity|].
  change (startswith (u "</a>") (u "</a>")) with true.
  change (drop (length (u "</a>")) (u "</a>")) with (@nil N).
  cbn match. do 2 f_equal.
  rewrite (length_app href), (length_app text), !Nat.add_sub.
  by rewrite !take_app_length.
Qed.

(** X14: a link [<a href=QaddressQ>text</a>] (with [Q] the double quote)
    becomes [[text](address)], where the address and the text hold no [<],
    no ampersand and no line feed, and the address is not empty and holds
    no double quote, no [>] and no [href=]. *)
Theorem link_to_markdown (L : pylib) (href text : str) :
  unescape_lib L ->
  href <> [] ->
  forallb plain_char href = true ->
  forallb (isnt dq) href = true ->
  forallb (isnt (ch ">")) href = true ->
  contains (u "href=") href = false ->
  forallb plain_char text = true ->
  html_to_markdown L (anchor href text) = link_md text href.
Proof.
  intros HU Hne Hp Hdq Hgt Hno Ht.
  set (s := anchor href text).
  change s with (ch "<" :: (u "a href=" ++ [dq] ++ href ++ [dq] ++ u ">"
                            ++ text ++ u "</a>")).
  rewrite html_to_markdown_rules.
  change (ch "<" :: (u "a href=" ++ [dq] ++ href ++ [dq] ++ u ">"
                     ++ text ++ u "</a>")) with s.
  rewrite HU.
  2:{ apply (contains_absent_char (ch "&") []). unfold s, anchor.
      by rewrite !forallb_app, (plain_no_amp href), (plain_no_amp text). }
  assert (after_lt (head_in (tag_char (ch "a"))) s = true) as Hafter.
  { unfold s, anchor.
    apply after_lt_app; [apply head_in_app|reflexivity|].
    apply after_lt_app; [apply head_in_app|reflexivity|].
    apply after_lt_app;
      [apply head_in_app|by apply after_lt_none, plain_no_lt|].
    apply after_lt_app; [apply head_in_app|reflexivity|].
    apply after_lt_app; [apply head_in_app|reflexivity|].
    apply after_lt_app;
      [apply head_in_app|by apply after_lt_none, plain_no_lt|reflexivity]. }
  change markup_rules with (take 1 markup_rules ++ drop 1 markup_rules).
  rewrite apply_rules_app.
  rewrite (apply_rules_fixed (take 1 markup_rules)).
  2:{ repeat apply Forall_cons_2; try apply Forall_nil_2;
        apply re_sub_absent; by apply (contains_after_lt (tag_char (ch "a"))). }
  change (drop 1 markup_rules)
    with (re_sub link_pattern 2
            (fun m => u "[" ++ grp m 1 ++ u "](" ++ grp m 0 ++ u ")")
          :: drop 2 markup_rules).
  rewrite apply_rules_cons.
  rewrite (re_sub_whole link_pattern 2 _ s [Some href; Some text]);
    [|done|reflexivity|apply match_anchor; try done; by apply plain_no_lt].
  change (grp [Some href; Some text] 1) with text.
  change (grp [Some href; Some text] 0) with href.
  fold (link_md text href).
  assert (forallb plain_char (link_md text href) = true) as Hq
    by (unfold link_md; by rewrite !forallb_app, Hp, Ht).
  rewrite apply_rules_fixed
    by (apply Forall_drop_rules; by apply plain_no_lt).
  apply whitespace_rules_line; [done| |].
  - by intros c [= <-].
  - intros c. unfold link_md. rewrite !last_app. by intros [= <-].
Qed.

Lemma link_to_markdown_witness :
  html_to_markdown CPython.lib
    (anchor (u "https://example.org/a?b=1") (u "an example"))
  = link_md (u "an example") (u "https://example.org/a?b=1").
Proof.
  apply (link_to_markdown CPython.lib (u "https://example.org/a?b=1")
           (u "an example")).
  - apply cpython_unescape_lib.
  - discriminate.
  - vm_compute. reflexivity.
  - vm_compute. reflexivity.
  - vm_compute. reflexivity.
  - vm_compute. reflexivity.
  - vm_compute. reflexivity.
Defined.

(** ** Images *)

Lemma startswith_straddle (d : N) (p v z : str) :
  forallb (isnt d) p = true ->
  startswith p (v ++ d :: z) = true -> startswith p v = true.
Proof.
  revert v. induction p as [|a p IH]; intros v Hp H; [done|].
  cbn [forallb] in Hp. apply andb_true_iff in Hp as [Ha Hp].
  destruct v as [|b v].
  - cbn in H. apply andb_true_iff in H as [H _]. unfold isnt in Ha.
    by rewrite H in Ha.
  - cbn [app startswith] in *. apply andb_true_iff in H as [-> H].
    by apply IH.
Qed.

Lemma startswith_app_l (p q s : str) :
  startswith (p ++ q) s = true -> startswith p s = true.
Proof.
  revert s. induction p as [|a p IH]; intros s H; [done|].
  destruct s as [|b s]; [done|]. cbn [app startswith] in *.
  apply andb_true_iff in H as [-> H]. by apply IH.
Qed.

Lemma src_nowhere_else (src tail rest : str) :
  contains (u "src=") src = false ->
  contains (u "src=") tail = false ->
  forall j, (0 < j <= length src + length tail + 6)%nat ->
    startswith (u "src=" ++ [dq])
      (drop j ((u "src=" ++ [dq]) ++ src ++ dq :: tail ++ ch ">" :: rest))
    = false.
Proof.
  intros Hsrc Htail j Hj.
  do 5 (destruct j as [|j]; [try lia; reflexivity|]).
  change (drop (S (S (S (S (S j)))))
            ((u "src=" ++ [dq]) ++ src ++ dq :: tail ++ ch ">" :: rest))
    with (drop j (src ++ dq :: tail ++ ch ">" :: rest)).
  destruct (decide (j <= length src)%nat) as [Hle|Hgt].
  - rewrite drop_app_le by done.
    destruct (startswith _ _) eqn:E; [|done].
    apply startswith_before_quote in E; [|reflexivity].
    apply contains_drop in E. congruence.
  - rewrite drop_app_ge by lia.
    destruct (j - length src)%nat as [|i] eqn:Ei; [lia|]. cbn [drop].
    rewrite drop_app_le by lia.
    destruct (startswith _ _) eqn:E; [|done].
    apply startswith_straddle in E; [|reflexivity].
    apply startswith_app_l, contains_drop in E. congruence.
Qed.

Lemma src_run (src tail rest : str) :
  forallb (isnt (ch ">")) src = true ->
  forallb (isnt (ch ">")) tail = true ->
  run_length (isnt (ch ">"))
    ((u "src=" ++ [dq]) ++ src ++ dq :: tail ++ ch ">" :: rest)
  = (length src + length tail + 6)%nat.
Proof.
  intros Hs Ht.
  replace ((u "src=" ++ [dq]) ++ src ++ dq :: tail ++ ch ">" :: rest)
    with (((u "src=" ++ [dq]) ++ src ++ [dq] ++ tail) ++ ch ">" :: rest)
    by (by rewrite <- !app_assoc).
  rewrite run_length_app.
  - rewrite !length_app. change (length (u "src=")) with 4%nat.
    cbn [length]. lia.
  - by rewrite !forallb_app, Hs, Ht.
  - reflexivity.
Qed.

Lemma match_img (src tail : str) :
  src <> [] ->
  forallb (isnt dq) src = true ->
  forallb (isnt (ch ">")) src = true ->
  contains (u "src=") src = false ->
  forallb (isnt (ch ">")) tail = true ->
  contains (u "src=") tail = false ->
  match_here img_pattern 2 (img_with src tail ++ [])
  = Some (length (img_with src tail), [Some src; None]).
Proof.
  intros Hne Hdq Hgt Hno Htgt Htno. rewrite app_nil_r.
  unfold match_here, img_pattern, img_with.
  change (u "<img src=" ++ [dq] ++ src ++ [dq] ++ tail ++ u ">")
    with (u "<img" ++ ch " " :: (u "src=" ++ [dq]) ++ src
          ++ dq :: tail ++ ch ">" :: []).
  cbn [rmatch]. rewrite startswith_app, drop_app_length.
  rewrite rep_greedy_first_char; [|reflexivity|].
  2:{ intros j Hj. rewrite src_run in Hj by done.
      by rewrite src_nowhere_else. }
  rewrite startswith_app, drop_app_length.
  rewrite rep_greedy_run.
  2:{ intros c t Hc. by rewrite startswith_isnt. }
  rewrite run_length_app; [|done|reflexivity].
  destruct src as [|c0 src0] eqn:Esrc; [done|]. rewrite <- Esrc in *.
  replace (1 <=? length src)%nat with true by (by rewrite Esrc).
  rewrite drop_app_length.
  change (dq :: tail ++ [ch ">"]) with ([dq] ++ tail ++ [ch ">"]).
  rewrite startswith_app, drop_app_length.
  erewrite rep_greedy_all; [reflexivity|done|reflexivity|].
  change (startswith (u "alt=" ++ [dq]) [ch ">"]) with false. cbn match.
  rewrite rep_greedy_stop by reflexivity.
  change (startswith (u ">") [ch ">"]) with true. cbn match.
  do 2 f_equal.
  rewrite (length_app src), Nat.add_sub, take_app_length. reflexivity.
Qed.



(** ** Emphasis inside a paragraph *)

Lemma tag_follows_app (c : N) (t w : str) :
  tag_follows c t = true -> tag_follows c (t ++ w) = true.
Proof.
  destruct t as [|a [|b t]]; try done.
  cbn. rewrite andb_false_r, orb_false_r. by intros ->.
Qed.

Lemma re_sub_plain (p : str) (r : re) (ng : nat) (repl : caps -> str)
    (s : str) :
  head p = Some (ch "<") -> forallb (isnt (ch "<")) s = true ->
  re_sub (Lit p +++ r) ng repl s = s.
Proof. intros Hp Hs. apply re_sub_absent. by apply contains_no_lt. Qed.

(** X16: a paragraph [<p>] that holds a [<b>] element between two
    stretches of text, [a] before it and [c] after it, comes out as one
    line, [a], the text of the element between two pairs of asterisks, and
    [c]: the rule for paragraphs takes the whole paragraph and the rule
    for [<b>] then finds its element inside what is left.  Here neither
    tag has attributes, the three texts hold no [<], no ampersand and no
    line feed, [a] does not begin with whitespace and [c] does not end
    with whitespace. *)
Theorem bold_inside_paragraph (L : pylib) (a x c : str) :
  unescape_lib L ->
  forallb plain_char a = true ->
  forallb plain_char x = true ->
  forallb plain_char c = true ->
  (forall d, head a = Some d -> isspace d = false) ->
  (forall d, last c = Some d -> isspace d = false) ->
  html_to_markdown L (element "p" (a ++ element "b" x ++ c))
  = a ++ u "**" ++ x ++ u "**" ++ c.
Proof.
  intros HU Ha Hx Hc Hhead Hlast.
  pose proof (plain_no_lt a Ha) as Halt.
  pose proof (plain_no_lt x Hx) as Hxlt.
  pose proof (plain_no_lt c Hc) as Hclt.
  set (body := a ++ element "b" x ++ c).
  set (s := element "p" body).
  change s with (ch "<" :: (u "p" ++ u ">" ++ body ++ u "</" ++ u "p"
                            ++ u ">")).
  rewrite html_to_markdown_rules.
  change (ch "<" :: (u "p" ++ u ">" ++ body ++ u "</" ++ u "p" ++ u ">"))
    with s.
  rewrite HU.
  2:{ apply (contains_absent_char (ch "&") []). unfold s, body, element.
      by rewrite !forallb_app, (plain_no_amp a), (plain_no_amp x),
           (plain_no_amp c). }
  assert (forall p z, head p = Some (ch "<") ->
            clash_all p (u "<b>") = true ->
            clash_all p (u "</b>") = true ->
            contains p z = false ->
            contains p (body ++ z) = false) as Hbody.
  { intros p z Hp H1 H2 Hz. unfold body, element. rewrite <- !app_assoc.
    rewrite contains_app_plain by done.
    change (u "<" ++ u "b" ++ u ">" ++ x ++ u "</" ++ u "b" ++ u ">"
            ++ c ++ z)
      with (u "<b>" ++ x ++ u "</b>" ++ c ++ z).
    apply contains_ctx; [done|done|done|].
    by apply contains_ctx. }
  assert (forall p, head p = Some (ch "<") ->
            clash_all p (u "<p>") = true ->
            clash_all p (u "<b>") = true ->
            clash_all p (u "</b>") = true ->
            contains p (u "</p>") = false ->
            contains p s = false) as Hs.
  { intros p Hp H0 H1 H2 H3.
    change s with (u "<p>" ++ [] ++ body ++ u "</p>").
    apply contains_ctx; [done|done|done|]. by apply Hbody. }
  change markup_rules with (take 3 markup_rules ++ drop 3 markup_rules).
  rewrite apply_rules_app.
  rewrite (apply_rules_fixed (take 3 markup_rules)).
  2:{ repeat apply Forall_cons_2; try apply Forall_nil_2;
        apply re_sub_absent; by apply Hs. }
  change (drop 3 markup_rules)
    with (re_sub (re_element "p") 1 (fun m => grp m 0 ++ [nl; nl])
          :: take 2 (drop 4 markup_rules) ++ drop 6 markup_rules).
  rewrite apply_rules_cons. unfold s, element at 1.
  rewrite re_sub_element_whole.
  2:{ change (u "</" ++ u "p" ++ u ">") with (ch "<" :: u "/p>").
      apply (starts_nowhere_after_lt (tag_follows (ch "b"))).
      - intros [|d [|e t]] Ht; try done.
        + cbn in Ht. rewrite andb_false_r, orb_false_r in Ht.
          apply N.eqb_eq in Ht as ->. reflexivity.
        + cbn in Ht. cbn [app startswith].
          apply orb_true_iff in Ht as [->%N.eqb_eq|Ht]; [reflexivity|].
          apply andb_true_iff in Ht as [->%N.eqb_eq ->%N.eqb_eq].
          reflexivity.
      - unfold body, element.
        apply after_lt_app;
          [apply tag_follows_app|by apply after_lt_none|].
        apply after_lt_app; [apply tag_follows_app| |by apply after_lt_none].
        change (u "<" ++ u "b" ++ u ">" ++ x ++ u "</" ++ u "b" ++ u ">")
          with (u "<b>" ++ x ++ u "</b>").
        apply after_lt_app; [apply tag_follows_app|reflexivity|].
        apply after_lt_app;
          [apply tag_follows_app|by apply after_lt_none|reflexivity]. }
  change (grp [Some body] 0) with body.
  rewrite apply_rules_app.
  rewrite (apply_rules_fixed (take 2 (drop 4 markup_rules))).
  2:{ repeat apply Forall_cons_2; try apply Forall_nil_2;
        apply re_sub_absent; by apply Hbody. }
  change (drop 6 markup_rules)
    with (re_sub (re_element "b") 1 (wrap "**" "**")
          :: drop 7 markup_rules).
  rewrite apply_rules_cons. unfold body at 1. rewrite <- !app_assoc.
  unfold re_element at 1. rewrite re_sub_plain_prefix by done.
  fold (re_element "b").
  rewrite (re_sub_hit (re_element "b") 1 _ (element "b" x) _ [Some x]);
    [|done|by apply match_plain_element].
  unfold re_element at 1.
  rewrite re_sub_plain by (done || by rewrite forallb_app, Hclt).
  unfold wrap. change (grp [Some x] 0) with x.
  set (line := a ++ u "**" ++ x ++ u "**" ++ c).
  replace (a ++ (u "**" ++ x ++ u "**") ++ c ++ [nl; nl])
    with (line ++ [nl; nl]) by (unfold line; by rewrite <- !app_assoc).
  assert (plain_line line) as Hline.
  { unfold line. repeat split.
    - by destruct a.
    - by rewrite !forallb_app, (plain_no_nl a), (plain_no_nl x),
           (plain_no_nl c).
    - destruct a as [|a0 a']; [by intros d [= <-]|]. exact Hhead.
    - intros d. rewrite !last_app.
      destruct (last c) as [y|] eqn:E; [intros [= <-]; by apply Hlast|].
      by intros [= <-].
    - by rewrite !forallb_app, Ha, Hx, Hc. }
  rewrite apply_rules_fixed.
  2:{ apply Forall_drop_rules. destruct Hline as [_ Hp].
      by rewrite forallb_app, (plain_no_lt line). }
  pose proof (re_sub_blank_paragraphs (fun _ => [nl; nl]) [line]) as Hb.
  cbn [map concat] in Hb. rewrite app_nil_r in Hb.
  rewrite Hb by (by apply Forall_cons_2).
  rewrite re_sub_lit_absent.
  2:{ apply (contains_absent_char (ch "&") (u "nbsp;")).
      destruct Hline as [_ Hp]. by rewrite forallb_app, (plain_no_amp line). }
  destruct Hline as [(Hne & _ & Hh & Hl) _].
  by apply strip_blank_line.
Qed.

Lemma bold_inside_paragraph_witness :
  html_to_markdown CPython.lib
    (element "p" (u "Hi " ++ element "b" (u "there") ++ u "!"))
  = u "Hi " ++ u "**" ++ u "there" ++ u "**" ++ u "!".
Proof.
  apply (bold_inside_paragraph CPython.lib (u "Hi ") (u "there") (u "!")).
  - apply cpython_unescape_lib.
  - vm_compute. reflexivity.
  - vm_compute. reflexivity.
  - vm_compute. reflexivity.
  - intros d [= <-]. reflexivity.
  - intros d [= <-]. reflexivity.
Defined.

(** ** Tags whose names start alike *)

Lemma startswith_mono (p t w : str) :
  startswith p t = true -> startswith p (t ++ w) = true.
Proof.
  revert t. induction p as [|a p IH]; intros [|b t] H; try done.
  cbn [app startswith] in *. apply andb_true_iff in H as [-> H].
  by apply IH.
Qed.

Lemma quotation_follows_app (t w : str) :
  quotation_follows t = true -> quotation_follows (t ++ w) = true.
Proof.
  unfold quotation_follows. intros [H|H]%orb_true_iff.
  - by rewrite head_in_app.
  - by rewrite (startswith_mono _ _ _ H), orb_true_r.
Qed.

(** An element rule on an opening tag with attributes, or with a longer
    name. *)
Lemma match_element_attributes (name : string) (attrs body rest : str) :
  forallb (isnt (ch ">")) attrs = true ->
  (forall i, (i < length body)%nat ->
     startswith (u "</" ++ u name ++ u ">")
       (drop i body ++ (u "</" ++ u name ++ u ">") ++ rest) = false) ->
  match_here (re_element name) 1
    ((u "<" ++ u name) ++ attrs ++ u ">" ++ body
     ++ (u "</" ++ u name ++ u ">") ++ rest)
  = Some (length ((u "<" ++ u name) ++ attrs ++ u ">" ++ body
                  ++ (u "</" ++ u name ++ u ">")),
          [Some body]).
Proof.
  intros Hattrs Hclose. unfold match_here, re_element. cbn [rmatch].
  rewrite startswith_app, drop_app_length.
  set (close := u "</" ++ u name ++ u ">") in *.
  set (s0 := body ++ close ++ rest).
  erewrite rep_greedy_all; [reflexivity|done|reflexivity|].
  rewrite startswith_app, drop_app_length.
  unfold s0 at 1. rewrite rep_lazy_first; [|apply forallb_any|].
  2:{ intros i Hi. by rewrite Hclose. }
  erewrite rep_lazy_now; [reflexivity|].
  rewrite startswith_app, drop_app_length.
  do 2 f_equal.
  - unfold s0. rewrite !length_app. lia.
  - unfold s0. rewrite !length_app.
    replace (_ + _ - _)%nat with (length body) by lia.
    by rewrite take_app_length.
Qed.

Lemma match_closed_tag (m rest : str) (n : nat) :
  index_of (ch ">") (m ++ ch ">" :: rest) = Some (S n) ->
  length m = S n ->
  match_here re_tag 0 ((ch "<" :: m ++ [ch ">"]) ++ rest)
  = Some (length (ch "<" :: m ++ [ch ">"]), []).
Proof.
  intros Hi Hlen. cbn [app]. rewrite <- app_assoc. cbn [app].
  rewrite match_here_tag, N.eqb_refl. unfold tag_end. rewrite Hi.
  do 2 f_equal. cbn [length]. rewrite length_app. cbn [length]. lia.
Qed.

(** X17: the pattern of the rule for [<b>] also matches the opening
    tag of a quotation, so a [<blockquote>] element that is followed,
    after any text, by a [<b>] element is taken for one bold element that
    runs from the quotation to the [</b>]: both come out between one pair
    of double asterisks, and the quotation has lost its mark.  The three
    texts (the quotation, what stands between, the bold text) hold no
    [<], no ampersand and no line feed. *)
Theorem bold_swallows_quotation (L : pylib) (q mid x : str) :
  unescape_lib L ->
  forallb plain_char q = true ->
  forallb plain_char mid = true ->
  forallb plain_char x = true ->
  html_to_markdown L (element "blockquote" q ++ mid ++ element "b" x)
  = u "**" ++ q ++ mid ++ x ++ u "**".
Proof.
  intros HU Hq Hmid Hx.
  pose proof (plain_no_lt q Hq) as Hqlt.
  pose proof (plain_no_lt mid Hmid) as Hmlt.
  pose proof (plain_no_lt x Hx) as Hxlt.
  set (body := q ++ u "</blockquote>" ++ mid ++ u "<b>" ++ x).
  set (s := u "<blockquote>" ++ body ++ u "</b>").
  replace (element "blockquote" q ++ mid ++ element "b" x) with s
    by (unfold s, body, element; by rewrite <- !app_assoc).
  change s with (ch "<" :: (u "blockquote>" ++ body ++ u "</b>")).
  rewrite html_to_markdown_rules.
  change (ch "<" :: (u "blockquote>" ++ body ++ u "</b>")) with s.
  rewrite HU.
  2:{ apply (contains_absent_char (ch "&") []). unfold s, body.
      by rewrite !forallb_app, (plain_no_amp q), (plain_no_amp mid),
           (plain_no_amp x). }
  assert (forall p z, head p = Some (ch "<") ->
            clash_all p (u "</blockquote>") = true ->
            clash_all p (u "<b>") = true ->
            contains p z = false ->
            contains p (body ++ z) = false) as Hbody.
  { intros p z Hp H1 H2 Hz. unfold body. rewrite <- !app_assoc.
    rewrite contains_app_plain by done.
    apply contains_ctx; [done|done|done|].
    by apply contains_ctx. }
  change markup_rules with (take 6 markup_rules ++ drop 6 markup_rules).
  rewrite apply_rules_app.
  rewrite (apply_rules_fixed (take 6 markup_rules)).
  2:{ repeat apply Forall_cons_2; try apply Forall_nil_2;
        apply re_sub_absent;
        change s with (u "<blockquote>" ++ [] ++ body ++ u "</b>");
        (apply contains_ctx; [done|done|done|]); by apply Hbody. }
  change (drop 6 markup_rules)
    with (re_sub (re_element "b") 1 (wrap "**" "**")
          :: take 7 (drop 7 markup_rules) ++ drop 14 markup_rules).
  rewrite apply_rules_cons.
  rewrite (re_sub_whole (re_element "b") 1 _ s [Some body]);
    [|done|reflexivity|].
  2:{ pose proof (match_element_attributes "b" (u "lockquote") body [])
        as Hm.
      rewrite !app_nil_r in Hm. rewrite app_nil_r. apply Hm; [reflexivity|].
      change (u "</" ++ u "b" ++ u ">") with (ch "<" :: u "/b>").
      apply (starts_nowhere_after_lt quotation_follows).
      - intros t [Ht|Ht]%orb_true_iff.
        + destruct t as [|d t]; [done|]. cbn in Ht.
          apply N.eqb_eq in Ht as ->. reflexivity.
        + apply startswith_prefix in Ht. rewrite Ht. reflexivity.
      - unfold body.
        apply after_lt_app;
          [apply quotation_follows_app|by apply after_lt_none|].
        apply after_lt_app; [apply quotation_follows_app|reflexivity|].
        apply after_lt_app;
          [apply quotation_follows_app|by apply after_lt_none|].
        apply after_lt_app; [apply quotation_follows_app|reflexivity|].
        by apply after_lt_none. }
  unfold wrap. change (grp [Some body] 0) with body.
  rewrite apply_rules_app.
  rewrite (apply_rules_fixed (take 7 (drop 7 markup_rules))).
  2:{ repeat apply Forall_cons_2; try apply Forall_nil_2;
        apply re_sub_absent;
        rewrite (contains_app_plain _ (u "**")) by done;
        by apply Hbody. }
  change (drop 14 markup_rules) with [re_sub re_tag 0 (fun _ => [])].
  rewrite apply_rules_cons. change (apply_rules [] ?z) with z.
  unfold body. rewrite <- !app_assoc. unfold re_tag.
  rewrite (app_assoc (u "**") q).
  rewrite re_sub_plain_prefix by (done || by rewrite forallb_app, Hqlt).
  fold re_tag.
  rewrite (re_sub_hit re_tag 0 _ (u "</blockquote>") _ []);
    [|done|by apply (match_closed_tag (u "/blockquote") _ 10)].
  unfold re_tag. rewrite re_sub_plain_prefix by done. fold re_tag.
  rewrite (re_sub_hit re_tag 0 _ (u "<b>") _ []);
    [|done|by apply (match_closed_tag (u "b") _ 0)].
  unfold re_tag.
  rewrite re_sub_plain by (done || by rewrite forallb_app, Hxlt).
  cbn [app]. rewrite <- !app_assoc.
  assert (forallb plain_char (u "**" ++ q ++ mid ++ x ++ u "**") = true)
    as Hp by (by rewrite !forallb_app, Hq, Hmid, Hx).
  apply whitespace_rules_line; [done| |].
  - by intros c [= <-].
  - intros c. rewrite !last_app. by intros [= <-].
Qed.

Lemma bold_swallows_quotation_witness :
  html_to_markdown CPython.lib
    (element "blockquote" (u "To be, or not to be.") ++ u " said "
     ++ element "b" (u "Hamlet"))
  = u "**" ++ u "To be, or not to be." ++ u " said " ++ u "Hamlet"
    ++ u "**".
Proof.
  apply (bold_swallows_quotation CPython.lib (u "To be, or not to be.")
           (u " said ") (u "Hamlet")).
  - apply cpython_unescape_lib.
  - vm_compute. reflexivity.
  - vm_compute. reflexivity.
  - vm_compute. reflexivity.
Defined.

(** ** Text without links *)

Lemma rmatch_lit_first_contains {A : Type} (l : str) (r : re) (s : str)
    (g : caps) (k : str -> caps -> option A) (a : A) :
  rmatch (Lit l +++ r) s g k = Some a -> contains l s = true.
Proof.
  cbn [rmatch]. destruct (startswith l s) eqn:E; [|done].
  intros _. by apply contains_start.
Qed.

(** A substitution leaves a text alone when every match of its pattern
    holds a literal that the text does not hold. *)
Lemma re_sub_without (r : re) (ng : nat) (repl : caps -> str) (l s : str) :
  (forall t n g, match_here r ng t = Some (n, g) -> contains l t = true) ->
  contains l s = false -> re_sub r ng repl s = s.
Proof.
  intros Hr. induction s as [|c t IH]; intros H.
  - apply re_sub_nil.
    destruct (match_here r ng []) as [[n g]|] eqn:E; [|done].
    apply Hr in E. congruence.
  - pose proof (contains_cons _ _ _ H) as [_ Ht].
    rewrite re_sub_miss, IH; [done|done|].
    destruct (match_here r ng (c :: t)) as [[n g]|] eqn:E; [|done].
    apply Hr in E. congruence.
Qed.

Lemma link_syntax_bracket (s : str) (n : nat) (g : caps) :
  match_here link_syntax 2 s = Some (n, g) -> contains (u "](") s = true.
Proof.
  unfold match_here, link_syntax.
  do 2 apply rmatch_cat_contains. apply rmatch_lit_first_contains.
Qed.

Lemma image_syntax_bracket (s : str) (n : nat) (g : caps) :
  match_here image_syntax 2 s = Some (n, g) -> contains (u "](") s = true.
Proof.
  unfold match_here, image_syntax, link_syntax.
  do 3 apply rmatch_cat_contains. apply rmatch_lit_first_contains.
Qed.

(** X18: [convert_image_paths] hands back unchanged every text in which
    no closing bracket is directly followed by an opening parenthesis:
    without a link or an image reference there is nothing to rewrite. *)
Theorem text_without_links_is_kept (L : pylib) (markdown_content : str) :
  contains (u "](") markdown_content = false ->
  convert_image_paths L markdown_content = markdown_content.
Proof.
  intros H. unfold convert_image_paths.
  rewrite (re_sub_without image_syntax 2 _ (u "](")) by
    (done || apply image_syntax_bracket).
  by rewrite (re_sub_without link_syntax 2 _ (u "](")) by
    (done || apply link_syntax_bracket).
Qed.

Lemma text_without_links_is_kept_witness :
  convert_image_paths CPython.lib (u "see [1] (and ![2]) for more")
  = u "see [1] (and ![2]) for more".
Proof.
  apply (text_without_links_is_kept CPython.lib
           (u "see [1] (and ![2]) for more")).
  vm_compute. reflexivity.
Defined.

(** ** The folder of pages *)

Section FolderLoop.
Context (L : pylib) (D : digits) (html2text : str -> attempt str).
Context (fs : file_system).

Lemma process_pages (pages : list html_file) : forall w,
  foldl (process_page L D html2text fs) w pages
  = {| files := write_all (files w)
                  (omap (page_output L D html2text fs) pages);
       stdout := stdout w ++ map (report L D html2text fs) pages |}.
Proof.
  induction pages as [|f pages IH]; intros w; cbn [foldl map].
  - rewrite app_nil_r. by destruct w.
  - rewrite IH.
    change (omap (page_output L D html2text fs) (f :: pages))
      with (match page_output L D html2text fs f with
            | Some y => y :: omap (page_output L D html2text fs) pages
            | None => omap (page_output L D html2text fs) pages
            end).
    unfold process_page, page_output at 2, say.
    destruct (convert_page L D html2text fs f) eqn:E; cbn [files stdout];
      by rewrite <- app_assoc.
Qed.

(** What [convert_page] has done when it says [Converted]. *)
Lemma convert_page_converted (f : html_file) (n c : str) :
  convert_page L D html2text fs f = Converted n c ->
  exists html_content date_str markdown_content,
    html_read f = Done html_content
    /\ extract_date_from_html L D html_content = Done (Some date_str)
    /\ date_str <> []
    /\ html2text html_content = Done markdown_content
    /\ n = date_str ++ u " - " ++ stem (html_name f) ++ u ".md"
    /\ c = convert_image_paths L markdown_content
    /\ fs n = Done tt.
Proof.
  unfold convert_page.
  destruct (html_read f) as [html|]; [|done].
  destruct (extract_date_from_html L D html) as [[[|d0 d]|]|] eqn:Ed;
    try done.
  destruct (html2text html) as [md|] eqn:Emd; [|done].
  cbn zeta.
  destruct (fs _) as [[]|message] eqn:Efs; [|done].
  intros H.
  assert (n = (d0 :: d) ++ u " - " ++ stem (html_name f) ++ u ".md") as ->.
  { apply (f_equal (fun p => match p with
                             | Converted n _ => n
                             | _ => []
                             end)) in H. by symmetry. }
  assert (c = convert_image_paths L md) as ->.
  { apply (f_equal (fun p => match p with
                             | Converted _ c => c
                             | _ => []
                             end)) in H. by symmetry. }
  by exists html, (d0 :: d), md.
Qed.

Lemma convert_page_md (f : html_file) (n c : str) :
  convert_page L D html2text fs f = Converted n c ->
  endswith (u ".md") n = true.
Proof.
  intros (html & d & md & _ & _ & _ & _ & -> & _)%convert_page_converted.
  rewrite !app_assoc. apply endswith_app.
Qed.

Lemma page_outputs_md (pages : list html_file) (f : str) :
  endswith (u ".md") f = false ->
  Forall (fun fc => fc.1 <> f) (omap (page_output L D html2text fs) pages).
Proof.
  intros Hf. induction pages as [|x pages IH]; [constructor|].
  change (omap (page_output L D html2text fs) (x :: pages))
    with (match page_output L D html2text fs x with
          | Some y => y :: omap (page_output L D html2text fs) pages
          | None => omap (page_output L D html2text fs) pages
          end).
  unfold page_output at 1.
  destruct (convert_page L D html2text fs x) as [n c| |] eqn:E; try done.
  apply Forall_cons_2; [|done]. cbn [fst]. intros ->.
  apply convert_page_md in E. congruence.
Qed.

(** The line of a page says what became of it. *)
Lemma page_line (f : html_file) :
  match page_output L D html2text fs f with
  | Some (output_filename, _) =>
      report L D html2text fs f
      = u "Converted: " ++ html_name f ++ u " -> " ++ output_filename
      /\ fs output_filename = Done tt
  | None =>
      report L D html2text fs f
      = u "Warning: Could not extract date from " ++ html_name f
        ++ u ", skipping..."
      \/ exists message,
           report L D html2text fs f
           = u "Error processing " ++ html_name f ++ u ": " ++ message
  end.
Proof.
  unfold page_output, report.
  destruct (convert_page L D html2text fs f) as [n c| |message] eqn:E.
  - split; [done|].
    by apply convert_page_converted in E as (? & ? & ? & _ & _ & _ & _ & _
                                             & _ & ?).
  - by left.
  - right. by exists message.
Qed.
End FolderLoop.



(** X20: [process_html_folder] creates and overwrites only files whose
    names end in [.md]; every other file of the output folder, the pages
    themselves when it is the input folder, is left as it was. *)
Theorem pages_are_never_overwritten (L : pylib) (D : digits)
    (html2text : str -> attempt str) (fs : file_system)
    (input_exists : bool) (input_folder : str)
    (html_files : list html_file) (w : world) (f : str) :
  endswith (u ".md") f = false ->
  files (process_html_folder L D html2text fs input_exists input_folder
           html_files w) !! f
  = files w !! f.
Proof.
  intros Hf. unfold process_html_folder.
  destruct input_exists; [|done]. cbn [negb].
  destruct html_files as [|x pages] eqn:E; [done|]. rewrite <- E.
  rewrite process_pages. cbn [say files].
  apply write_all_other. by apply page_outputs_md.
Qed.

Lemma pages_are_never_overwritten_witness :
  files (process_html_folder CPython.lib unicode_digits Done current_folder
           true (u "html") [dated_page]
           {| files := {[ u "first-post.html" := u "<p>Hello</p>" ]};
              stdout := [] |}) !! u "first-post.html"
  = files {| files := {[ u "first-post.html" := u "<p>Hello</p>" ]};
             stdout := [] |} !! u "first-post.html".
Proof.
  apply (pages_are_never_overwritten CPython.lib unicode_digits Done
           current_folder true (u "html") [dated_page]
           {| files := {[ u "first-post.html" := u "<p>Hello</p>" ]};
              stdout := [] |} (u "first-post.html")).
  vm_compute. reflexivity.
Defined.

(** ** Pages without a date *)

Section Failure.
Context {A : Type} (P : str -> Prop).
Context (Htail : forall c t, P (c :: t) -> P t).

Lemma closed_drop (s : str) : forall n, P s -> P (drop n s).
Proof.
  induction s as [|c t IH]; intros [|n] H; try done.
  cbn [drop]. apply IH. by eapply Htail.
Qed.

Lemma rep_greedy_fails (p : N -> bool) (k : str -> option A) (s : str) :
  forall lo, (forall t, P t -> k t = None) -> P s ->
  rep_greedy p lo s k = None.
Proof.
  induction s as [|c t IH]; intros lo Hk Hs.
  - cbn. destruct lo; [by apply Hk|done].
  - cbn [rep_greedy]. rewrite IH by (done || by eapply Htail).
    rewrite (Hk (c :: t)) by done. by destruct lo, (p c).
Qed.

Lemma rep_lazy_fails (p : N -> bool) (k : str -> option A) (s : str) :
  forall lo, (forall t, P t -> k t = None) -> P s ->
  rep_lazy p lo s k = None.
Proof.
  induction s as [|c t IH]; intros lo Hk Hs.
  - cbn. rewrite (Hk []) by done. by destruct lo.
  - cbn [rep_lazy]. rewrite IH by (done || by eapply Htail).
    rewrite (Hk (c :: t)) by done. by destruct lo, (p c).
Qed.

(** A pattern fails on a text when what follows it fails on every end of
    the text. *)
Lemma rmatch_fails (r : re) : forall (s : str) (g : caps)
    (k : str -> caps -> option A),
  (forall t g', P t -> k t g' = None) -> P s -> rmatch r s g k = None.
Proof.
  induction r as [l|p|greedy lo p|r1 IH1 r2 IH2|i r IH|r IH];
    intros s g k Hk Hs; cbn [rmatch].
  - destruct (startswith l s); [|done]. apply Hk. by apply closed_drop.
  - destruct s as [|c t]; [done|]. destruct (p c); [|done].
    apply Hk. by eapply Htail.
  - destruct greedy; [apply rep_greedy_fails|apply rep_lazy_fails];
      try done; intros t Ht; by apply Hk.
  - apply IH1; [|done]. intros t g' Ht. by apply IH2.
  - apply IH; [|done]. intros t g' Ht. by apply Hk.
  - rewrite IH by done. by apply Hk.
Qed.
End Failure.

Lemma rep_greedy_no_head {A : Type} (p : N -> bool) (s : str)
    (k : str -> option A) :
  head_in p s = false -> rep_greedy p 1 s k = None.
Proof. destruct s as [|c t]; [done|]. cbn. by intros ->. Qed.

Lemma search_none (x : rex) (ng : nat) (s : str) :
  (forall i, xmatch x (drop i s) (replicate ng None) (fun _ g => Some g)
             = None) ->
  search x ng s = None.
Proof.
  induction s as [|c t IH]; intros H.
  - pose proof (H 0%nat) as H0. cbn [drop] in H0. cbn [search].
    by rewrite H0.
  - cbn [search]. pose proof (H 0%nat) as H0. cbn [drop] in H0.
    rewrite H0. apply IH. intros i. apply (H (S i)).
Qed.

Lemma date_needs_digit (L : pylib) (D : digits) {A : Type} (s : str)
    (g : caps) (k : str -> caps -> option A) :
  forallb (fun c => negb (isdecimal D c)) s = true ->
  xmatch (date_pattern L D) s g k = None.
Proof.
  intros Hs. unfold date_pattern. cbn [xmatch]. rewrite rmatch_cat.
  apply (rmatch_fails
           (fun t => forallb (fun c => negb (isdecimal D c)) t = true));
    [by intros c t [_ ?]%andb_true_iff| |done].
  intros t g' Ht. rewrite rmatch_cat.
  apply (rmatch_fails
           (fun t => forallb (fun c => negb (isdecimal D c)) t = true));
    [by intros c t' [_ ?]%andb_true_iff| |done].
  intros t' g'' Ht'. cbn [rmatch]. apply rep_greedy_no_head.
  destruct t' as [|c t']; [done|]. cbn in *.
  apply andb_true_iff in Ht' as [Hc _]. by apply negb_true_iff in Hc.
Qed.

(** X21: a page in which no decimal digit occurs has no date:
    [extract_date_from_html] returns [None], whatever the library
    tables. *)
Theorem no_digit_no_date (L : pylib) (D : digits) (html_content : str) :
  forallb (fun c => negb (isdecimal D c)) html_content = true ->
  extract_date_from_html L D html_content = Done None.
Proof.
  intros H. unfold extract_date_from_html.
  rewrite search_none; [done|]. intros i. apply date_needs_digit.
  revert i. induction html_content as [|c t IH]; intros [|i]; try done.
  cbn [drop]. apply IH. cbn in H. by apply andb_true_iff in H as [_ ?].
Qed.

Lemma no_digit_no_date_witness :
  extract_date_from_html CPython.lib unicode_digits
    (u "<p>Posted on a sunny day in January</p>") = Done None.
Proof.
  apply (no_digit_no_date CPython.lib unicode_digits
           (u "<p>Posted on a sunny day in January</p>")).
  vm_compute. reflexivity.
Defined.

(** ** The date of a page *)

Lemma xmatch_seq {A : Type} (x1 x2 : rex) (s : str) (g : caps)
    (k : str -> caps -> option A) :
  xmatch (Seq x1 x2) s g k
  = xmatch x1 s g (fun s' g' => xmatch x2 s' g' k).
Proof. reflexivity. Qed.

Lemma xmatch_re {A : Type} (r : re) (s : str) (g : caps)
    (k : str -> caps -> option A) :
  xmatch (Re r) s g k = rmatch r s g k.
Proof. reflexivity. Qed.

Lemma rep_greedy_longest_from {A : Type} (p : N -> bool) (s : str)
    (k : str -> option A) (a : A) : forall lo,
  (lo <= run_length p s)%nat ->
  k (drop (run_length p s) s) = Some a -> rep_greedy p lo s k = Some a.
Proof.
  induction s as [|c t IH]; intros lo Hlo Hk; cbn in *.
  - by replace lo with 0%nat by lia.
  - destruct (p c); cbn in *.
    + rewrite (IH (Nat.pred lo)); [done|lia|done].
    + by replace lo with 0%nat by lia.
Qed.

Lemma rmatch_run_some {A : Type} (p : N -> bool) (lo : nat) (m z : str)
    (g : caps) (k : str -> caps -> option A) (a : A) :
  forallb p m = true -> (lo <= length m)%nat -> head_in p z = false ->
  k z g = Some a -> rmatch (Rep true lo p) (m ++ z) g k = Some a.
Proof.
  intros Hm Hlo Hz Hk. cbn [rmatch]. apply rep_greedy_longest_from.
  - by rewrite run_length_app.
  - by rewrite run_length_app, drop_app_length.
Qed.

Lemma rmatch_grp_run_some {A : Type} (p : N -> bool) (lo i : nat)
    (m z : str) (g : caps) (k : str -> caps -> option A) (a : A) :
  forallb p m = true -> (lo <= length m)%nat -> head_in p z = false ->
  k z (<[i := Some m]> g) = Some a ->
  rmatch (Grp i (Rep true lo p)) (m ++ z) g k = Some a.
Proof.
  intros Hm Hlo Hz Hk. cbn [rmatch]. apply rep_greedy_longest_from.
  - by rewrite run_length_app.
  - rewrite run_length_app, drop_app_length by done.
    by rewrite length_app, Nat.add_sub, take_app_length.
Qed.

Lemma rmatch_grp_four {A : Type} (p : N -> bool) (i : nat) (y z : str)
    (g : caps) (k : str -> caps -> option A) :
  length y = 4%nat -> forallb p y = true ->
  rmatch (Grp i (Cls p +++ Cls p +++ Cls p +++ Cls p)) (y ++ z) g k
  = k z (<[i := Some y]> g).
Proof.
  intros Hlen Hy.
  destruct y as [|a [|b [|c [|d [|e y]]]]]; try done.
  cbn [forallb] in Hy. apply andb_true_iff in Hy as [Ha Hy].
  apply andb_true_iff in Hy as [Hb Hy].
  apply andb_true_iff in Hy as [Hc Hy].
  apply andb_true_iff in Hy as [Hd _].
  cbn [rmatch app]. rewrite Ha, Hb, Hc, Hd. cbn [length].
  replace (S (S (S (S (length z)))) - length z)%nat with 4%nat by lia.
  reflexivity.
Qed.

Lemma rmatch_opt_comma {A : Type} (comma : bool) (z : str) (g : caps)
    (k : str -> caps -> option A) (a : A) :
  startswith (u ",") z = false ->
  k z g = Some a ->
  rmatch (Opt (Lit (u ","))) ((if comma then u "," else []) ++ z) g k
  = Some a.
Proof.
  intros Hz Hk. cbn [rmatch]. destruct comma.
  - rewrite startswith_app, drop_app_length. by rewrite Hk.
  - cbn [app]. by rewrite Hz.
Qed.

Lemma ordinal_suffix_matches {A : Type} (suffix z : str) (g : caps)
    (k : str -> caps -> option A) :
  suffix ∈ ordinal_suffixes ->
  xmatch (Alt (two_letters "s" "t") (Alt (two_letters "n" "d")
            (Alt (two_letters "r" "d") (two_letters "t" "h"))))
    (suffix ++ z) g k
  = k z g.
Proof.
  unfold ordinal_suffixes. rewrite !elem_of_cons, elem_of_nil.
  intros [->|[->|[->|[->|[]]]]]; cbv; by destruct (k z g).
Qed.

Lemma day_half_matches {A : Type} (ampm z : str) (g : caps)
    (k : str -> caps -> option A) :
  ampm ∈ day_halves ->
  xmatch (Alt (two_letters "a" "m") (two_letters "p" "m")) (ampm ++ z) g k
  = k z g.
Proof.
  unfold day_halves. rewrite !elem_of_cons, elem_of_nil.
  intros [->|[->|[]]]; cbv; by destruct (k z g).
Qed.

Lemma letters_head (suffix z : str) :
  suffix ∈ ordinal_suffixes ++ day_halves ->
  exists c t, suffix ++ z = c :: t /\ ascii_lower c = true.
Proof.
  unfold ordinal_suffixes, day_halves. cbn [app].
  rewrite !elem_of_cons, elem_of_nil.
  intros [->|[->|[->|[->|[->|[->|[]]]]]]]; by eexists _, _.
Qed.

Section DateFacts.
Context (L : pylib) (D : digits) (HL : ascii_lib L) (HD : ascii_digits D).

Lemma digit_is_decimal (c : N) : ascii_digit c = true -> isdecimal D c = true.
Proof.
  intros H. destruct (HD c) as [-> _]; [|done].
  unfold ascii_digit, is_ascii in *.
  rewrite andb_true_iff, !N.leb_le in H. apply N.ltb_lt. lia.
Qed.

Lemma digits_are_decimal (s : str) :
  forallb ascii_digit s = true -> forallb (isdecimal D) s = true.
Proof. apply forallb_impl, digit_is_decimal. Qed.

Lemma letter_is_word (c : N) : ascii_letter c = true -> isword L c = true.
Proof.
  intros H. unfold isword. destruct HL as [Halnum _].
  rewrite Halnum.
  - unfold ascii_letter in H. apply orb_true_iff in H as [->| ->];
      [done|by rewrite orb_true_r].
  - unfold ascii_letter, ascii_upper, ascii_lower, is_ascii in *.
    rewrite orb_true_iff, !andb_true_iff, !N.leb_le in H.
    apply N.ltb_lt. lia.
Qed.

Lemma letter_is_ascii (c : N) : ascii_letter c = true -> is_ascii c = true.
Proof.
  unfold ascii_letter, ascii_upper, ascii_lower, is_ascii.
  rewrite orb_true_iff, !andb_true_iff, !N.leb_le, N.ltb_lt. lia.
Qed.

Lemma not_decimal (c : N) :
  is_ascii c = true -> ascii_digit c = false -> isdecimal D c = false.
Proof. intros Ha Hd. by destruct (HD c Ha) as [-> _]. Qed.

Lemma digit_head_no_space (s z : str) :
  s <> [] -> forallb ascii_digit s = true -> head_in isspace (s ++ z) = false.
Proof.
  destruct s as [|c s]; [done|]. intros _ [Hc _]%andb_true_iff.
  by apply digit_no_space.
Qed.

Lemma lower_head_no_decimal (c : N) (t : str) :
  ascii_lower c = true -> head_in (isdecimal D) (c :: t) = false.
Proof.
  intros Hc. cbn. apply not_decimal.
  - unfold ascii_lower, is_ascii in *.
    rewrite andb_true_iff, !N.leb_le in Hc. apply N.ltb_lt. lia.
  - unfold ascii_lower, ascii_digit in *.
    rewrite andb_true_iff, !N.leb_le in Hc.
    apply andb_false_iff. right. apply N.leb_gt. lia.
Qed.

(** The pattern matches a time stamp from its first character on. *)
Lemma match_date_text (month_name day suffix : str) (comma : bool)
    (year hour minute ampm rest : str) :
  month_name <> [] -> forallb ascii_letter month_name = true ->
  day <> [] -> forallb ascii_digit day = true ->
  suffix ∈ ordinal_suffixes ->
  length year = 4%nat -> forallb ascii_digit year = true ->
  hour <> [] -> forallb ascii_digit hour = true ->
  minute <> [] -> forallb ascii_digit minute = true ->
  ampm ∈ day_halves ->
  xmatch (date_pattern L D)
    (date_text month_name day suffix comma year hour minute ampm ++ rest)
    (replicate 5 None) (fun _ g => Some g)
  = Some [Some month_name; Some day; Some year; Some hour; Some minute].
Proof.
  intros Hm Hmonth Hd Hday Hsuffix Hylen Hyear Hh Hhour Hmi Hminute Hampm.
  unfold date_pattern, date_text. rewrite <- !app_assoc.
  rewrite xmatch_seq, xmatch_re, rmatch_cat.
  apply rmatch_grp_run_some.
  { eapply forallb_impl; [|exact Hmonth]. apply letter_is_word. }
  { destruct month_name; [done|cbn; lia]. }
  { change (isword L (ch " ") = false). unfold isword.
    destruct HL as [Halnum _]. by rewrite Halnum. }
  rewrite rmatch_cat. apply rmatch_run_some; [done|done| |].
  { by apply digit_head_no_space. }
  destruct (letters_head suffix
              ((if comma then u "," else []) ++ u " " ++ year ++ u " "
               ++ hour ++ u ":" ++ minute ++ ampm ++ rest))
    as (c1 & t1 & E1 & Hc1).
  { apply elem_of_app. by left. }
  apply rmatch_grp_run_some.
  { by apply digits_are_decimal. }
  { destruct day; [done|cbn; lia]. }
  { rewrite E1. by apply lower_head_no_decimal. }
  rewrite xmatch_seq, ordinal_suffix_matches by done.
  rewrite xmatch_seq, xmatch_re, rmatch_cat.
  apply rmatch_opt_comma; [reflexivity|].
  rewrite rmatch_cat. apply rmatch_run_some; [done|done| |].
  { destruct year as [|y year]; [done|]. cbn in Hyear.
    apply andb_true_iff in Hyear as [Hy _]. by apply digit_no_space. }
  rewrite rmatch_cat, rmatch_grp_four;
    [|done|by apply digits_are_decimal].
  rewrite rmatch_cat. apply rmatch_run_some; [done|done| |].
  { by apply digit_head_no_space. }
  rewrite rmatch_cat. apply rmatch_grp_run_some.
  { by apply digits_are_decimal. }
  { destruct hour; [done|cbn; lia]. }
  { change (isdecimal D (ch ":") = false). by apply not_decimal. }
  rewrite rmatch_cat. cbn [rmatch]. rewrite startswith_app, drop_app_length.
  destruct (letters_head ampm rest) as (c2 & t2 & E2 & Hc2).
  { apply elem_of_app. by right. }
  change (rmatch (Grp 4 (Rep true 1 (isdecimal D))) (minute ++ ampm ++ rest)
            (<[3%nat := Some hour]>
               (<[2%nat := Some year]>
                  (<[1%nat := Some day]>
                     (<[0%nat := Some month_name]> (replicate 5 None)))))
            (fun s' g' =>
               xmatch (Alt (two_letters "a" "m") (two_letters "p" "m"))
                 s' g' (fun _ g => Some g))
          = Some [Some month_name; Some day; Some year; Some hour;
                  Some minute]).
  apply rmatch_grp_run_some.
  { by apply digits_are_decimal. }
  { destruct minute; [done|cbn; lia]. }
  { rewrite E2. by apply lower_head_no_decimal. }
  by rewrite day_half_matches.
Qed.
End DateFacts.

Lemma rep_greedy_fails_upto {A : Type} (p : N -> bool)
    (k : str -> option A) (s : str) : forall lo,
  (forall j, (lo <= j <= run_length p s)%nat -> k (drop j s) = None) ->
  rep_greedy p lo s k = None.
Proof.
  induction s as [|c t IH]; intros lo H.
  - cbn. destruct lo; [|done]. apply (H 0%nat). cbn. lia.
  - cbn [rep_greedy].
    assert (match lo with O => k (c :: t) | S _ => None end = None) as ->.
    { destruct lo; [|done]. apply (H 0%nat). lia. }
    destruct (p c) eqn:Hc; [|done]. rewrite IH; [done|].
    intros j Hj. apply (H (S j)). cbn [run_length]. rewrite Hc. lia.
Qed.

Lemma run_length_before_last (p : N -> bool) (s d : str) (z : N) :
  last s = Some z -> p z = false ->
  (run_length p (s ++ d) < length s)%nat.
Proof.
  induction s as [|c [|c' s] IH]; [done| |].
  - intros [= ->] Hz. cbn. rewrite Hz. lia.
  - intros Hl Hz. change (last (c :: c' :: s)) with (last (c' :: s)) in Hl.
    specialize (IH Hl Hz). cbn [app run_length length] in *.
    destruct (p c); lia.
Qed.

Lemma unspaced_drop (D : digits) (s : str) : forall i,
  unspaced_digits D s = true -> unspaced_digits D (drop i s) = true.
Proof.
  induction s as [|c t IH]; intros [|i] H; try done.
  cbn [drop]. apply IH. cbn in H. by apply andb_true_iff in H as [_ ?].
Qed.

Lemma last_drop {A : Type} (s : list A) : forall i,
  (i < length s)%nat -> last (drop i s) = last s.
Proof.
  induction s as [|c t IH]; intros i Hi; [cbn in Hi; lia|].
  destruct i as [|i]; [done|]. cbn in Hi.
  cbn [drop]. rewrite IH by lia. destruct t; [cbn in Hi; lia|done].
Qed.

(** After whitespace inside the preamble comes no digit. *)
Lemma no_digit_after_run (D : digits) (d0 : N) (d' : str) (s : str) :
  isspace d0 = false -> isdecimal D d0 = false ->
  forall i, unspaced_digits D s = true ->
    (1 <= i <= run_length isspace (s ++ d0 :: d'))%nat ->
    head_in (isdecimal D) (drop i (s ++ d0 :: d')) = false.
Proof.
  intros Hsp Hdec. induction s as [|a s IH]; intros i Hs Hi.
  - cbn in Hi. rewrite Hsp in Hi. lia.
  - cbn [app run_length] in Hi. destruct (isspace a) eqn:Ha; [|lia].
    destruct i as [|i]; [lia|]. cbn [app drop].
    cbn [unspaced_digits] in Hs. apply andb_true_iff in Hs as [Hab Hs].
    destruct i as [|i].
    + rewrite drop_0. destruct s as [|b s]; [done|].
      cbn. rewrite Ha in Hab. cbn in Hab. by apply negb_true_iff in Hab.
    + apply IH; [done|lia].
Qed.

Section DateSearch.
Context (L : pylib) (D : digits).

Lemma search_skip (x : rex) (ng : nat) (pre d : str) :
  (forall i, (i < length pre)%nat ->
     xmatch x (drop i pre ++ d) (replicate ng None) (fun _ g => Some g)
     = None) ->
  search x ng (pre ++ d) = search x ng d.
Proof.
  induction pre as [|c pre IH]; intros H; [done|].
  cbn [app search]. pose proof (H 0%nat) as H0. cbn [drop app] in H0.
  rewrite H0 by (cbn; lia). apply IH. intros i Hi.
  apply (H (S i)). cbn. lia.
Qed.

(** No match of the pattern starts inside a preamble that ends outside a
    word and has no digit directly after whitespace. *)
Lemma date_not_in_preamble {A : Type} (p1 : str) (d0 : N) (d' : str)
    (g : caps) (k : str -> caps -> option A) (z : N) :
  last p1 = Some z -> isword L z = false ->
  unspaced_digits D p1 = true ->
  isspace d0 = false -> isdecimal D d0 = false ->
  xmatch (date_pattern L D) (p1 ++ d0 :: d') g k = None.
Proof.
  intros Hlast Hz Hp1 Hsp Hdec. unfold date_pattern.
  rewrite xmatch_seq, xmatch_re, rmatch_cat. cbn [rmatch].
  apply rep_greedy_fails_upto. intros j Hj.
  pose proof (run_length_before_last (isword L) p1 (d0 :: d') z Hlast Hz).
  rewrite drop_app_le by lia.
  apply rep_greedy_fails_upto. intros i Hi.
  apply rep_greedy_no_head. apply no_digit_after_run; try done.
  by apply unspaced_drop.
Qed.
End DateSearch.

Lemma get_month_positive (key : str) (m : nat) :
  get month_names key = Some m -> (0 <? m)%nat = true.
Proof.
  unfold month_names. cbn [get].
  repeat (case_bool_decide; [by intros [= <-]|]). done.
Qed.

(** The date pattern on a page with a time stamp. *)
Lemma extract_date_of_stamp (L : pylib) (D : digits)
    (preamble month_name day suffix : str) (comma : bool)
    (year hour minute ampm rest : str) :
  ascii_lib L -> ascii_digits D ->
  unspaced_digits D preamble = true ->
  (forall c, last preamble = Some c -> isword L c = false) ->
  month_name <> [] -> forallb ascii_letter month_name = true ->
  day <> [] -> forallb ascii_digit day = true ->
  (length day <= int_max_str_digits)%nat ->
  suffix ∈ ordinal_suffixes ->
  length year = 4%nat -> forallb ascii_digit year = true ->
  hour <> [] -> forallb ascii_digit hour = true ->
  minute <> [] -> forallb ascii_digit minute = true ->
  ampm ∈ day_halves ->
  extract_date_from_html L D
    (preamble
     ++ date_text month_name day suffix comma year hour minute ampm ++ rest)
  = Done (match get month_names (map ascii_tolower month_name) with
          | Some month_num =>
              Some (year ++ u "." ++ two_digits month_num ++ u "."
                    ++ two_digits (int_value D day))
          | None => None
          end).
Proof.
  intros HL HD Hpre Hlast Hm Hmonth Hd Hday Hdlen Hsuffix Hylen Hyear
    Hh Hhour Hmi Hminute Hampm.
  unfold extract_date_from_html.
  assert (exists d0 d',
            date_text month_name day suffix comma year hour minute ampm
            ++ rest = d0 :: d' /\ ascii_letter d0 = true)
    as (d0 & d' & E & Hd0).
  { unfold date_text. destruct month_name as [|m0 month_name]; [done|].
    cbn in Hmonth. apply andb_true_iff in Hmonth as [H0 _].
    by eexists _, _. }
  assert (isspace d0 = false /\ isdecimal D d0 = false) as [Hsp Hdec].
  { unfold ascii_letter, ascii_upper, ascii_lower in Hd0.
    rewrite orb_true_iff, !andb_true_iff, !N.leb_le in Hd0. split.
    - destruct (isspace d0) eqn:Es; [|done].
      apply isspace_range in Es. lia.
    - apply (not_decimal D HD).
      + apply N.ltb_lt. lia.
      + unfold ascii_digit. apply andb_false_iff.
        destruct (N.leb_spec d0 57); [left; apply N.leb_gt; lia|by right]. }
  rewrite search_skip.
  2:{ intros i Hi. rewrite E.
      destruct (last preamble) as [z|] eqn:El.
      - apply (date_not_in_preamble L D _ _ _ _ _ z); try done.
        + by rewrite last_drop.
        + by apply Hlast.
        + by apply unspaced_drop.
      - apply last_None in El. subst. cbn in Hi. lia. }
  cbn [search].
  destruct (date_text month_name day suffix comma year hour minute ampm
            ++ rest) as [|e0 e'] eqn:E'; [done|]. rewrite <- E'.
  assert (search (date_pattern L D) 5
            (date_text month_name day suffix comma year hour minute ampm
             ++ rest)
          = Some [Some month_name; Some day; Some year; Some hour;
                  Some minute]) as ->.
  { rewrite E'. cbn [search]. rewrite <- E'.
    by rewrite (match_date_text L D HL HD). }
  change (grp [Some month_name; Some day; Some year; Some hour; Some minute]
            0) with month_name.
  change (grp [Some month_name; Some day; Some year; Some hour; Some minute]
            1) with day.
  change (grp [Some month_name; Some day; Some year; Some hour; Some minute]
            2) with year.
  destruct HL as [_ Hlower]. rewrite Hlower.
  2:{ eapply forallb_impl; [|exact Hmonth]. apply letter_is_ascii. }
  destruct (get month_names (map ascii_tolower month_name)) as [m|] eqn:Eg;
    [|done].
  rewrite (get_month_positive _ _ Eg). unfold int.
  replace (int_max_str_digits <? length day)%nat with false; [done|].
  symmetry. apply Nat.ltb_ge. lia.
Qed.


Lemma find_all_false {A : Type} (f : A -> bool) (l : list A) :
  forallb (fun x => negb (f x)) l = true -> find f l = None.
Proof.
  induction l as [|x l IH]; [done|]. cbn.
  intros [Hx Hl]%andb_true_iff. apply negb_true_iff in Hx.
  rewrite Hx. by apply IH.
Qed.

Lemma zero_of_ascii (c : N) :
  is_ascii c = true ->
  zero_of c = if ascii_digit c then Some 48 else None.
Proof.
  unfold is_ascii, zero_of. intros H%N.ltb_lt.
  change decimal_zeros with (48 :: tail decimal_zeros).
  cbn [find].
  change ((48 <=? c) && (c <=? 48 + 9)) with (ascii_digit c).
  destruct (ascii_digit c); [done|]. apply find_all_false.
  apply (forallb_impl (fun z => 1632 <=? z)); [|vm_compute; reflexivity].
  intros z Hz%N.leb_le. apply negb_true_iff, andb_false_iff. left.
  apply N.leb_gt. lia.
Qed.

Lemma unicode_ascii_digits : ascii_digits unicode_digits.
Proof.
  intros c Hc. cbn [isdecimal decimal unicode_digits].
  rewrite zero_of_ascii by done. destruct (ascii_digit c); by split.
Qed.


(** ** The name of a converted page *)

Lemma rfind_go_none (c : N) (s : str) : forall i found,
  forallb (isnt c) s = true -> rfind_go c i found s = found.
Proof.
  induction s as [|x s IH]; intros i found H; [done|].
  cbn in *. apply andb_true_iff in H as [Hx Hs]. unfold isnt in Hx.
  apply negb_true_iff in Hx. rewrite Hx. by apply IH.
Qed.

Lemma rfind_go_last (c : N) (s t : str) : forall i found,
  forallb (isnt c) t = true ->
  rfind_go c i found (s ++ c :: t) = Some (i + length s)%nat.
Proof.
  induction s as [|x s IH]; intros i found Ht.
  - cbn. rewrite N.eqb_refl, rfind_go_none by done. f_equal. lia.
  - cbn [app rfind_go length]. rewrite IH by done. f_equal. lia.
Qed.

Lemma stem_html (base : str) :
  base <> [] -> stem (base ++ u ".html") = base.
Proof.
  intros Hne. unfold stem, rfind.
  change (u ".html") with (ch "." :: u "html").
  rewrite rfind_go_last by reflexivity. cbn [Nat.add].
  rewrite length_app. change (length (ch "." :: u "html")) with 5%nat.
  replace (0 <? length base)%nat with true
    by (destruct base; [done|reflexivity]).
  replace (length base <? length base + 5 - 1)%nat with true
    by (symmetry; apply Nat.ltb_lt; lia).
  cbn [andb]. by rewrite take_app_length.
Qed.


